(** * Control plane of the gateway fleet: analytics purge, DRL load reports,
      configuration push/pull.

    Shallow embedding of
      - rpc/rpc_analytics_purger.go     (module [Rpc])
      - gateway/distributed_rate_limiter.go, both documents of the file:
        the DRL notifications and the configuration synchronisation
        (module [Gateway])
    together with the properties of the specification that concern them.

    Go function bodies are written in a small effect monad (module [Go]):
    explicit state passing, a chronological list of the effects performed
    (calls of external collaborators, log lines), and an outcome that tells
    normal completion from an early [return] and from a panic. *)

From Stdlib Require Import ZArith Ascii String List Lia DecimalString.
From stdpp Require Import base option list strings gmap.

Local Open Scope Z_scope.
Local Open Scope string_scope.
Local Open Scope list_scope.

(** ** Go runtime notions shared by both packages *)
Module Go.

(** [error] values are only inspected through [err != nil]; the message is
    kept for the log. *)
Definition error := string.

(** logrus levels used by the sources. *)
Inductive Level := DebugLevel | InfoLevel | WarnLevel | ErrorLevel.

(** [%v] / [%d] of an [int]. *)
Definition itoa (z : Z) : string := NilZero.string_of_int (Z.to_int z).

(** How the execution of a statement sequence ends: it reaches its end with
    a value, it executes a [return] (labelled with the return statement
    taken), or it panics. *)
Inductive flow (L A : Type) :=
| Next (a : A)
| Return (l : L)
| Panic (msg : string).
Arguments Next {L A} a.
Arguments Return {L A} l.
Arguments Panic {L A} msg.

Section Eff.
Context {St Ev L : Type}.

(** A computation reads and updates the state [St] and appends the
    effects it performs, oldest first. *)
Definition M (A : Type) : Type := St -> flow L A * St * list Ev.

Definition ret {A} (a : A) : M A := fun s => (Next a, s, []).

Definition bind {A B} (m : M A) (f : A -> M B) : M B := fun s =>
  match m s with
  | (Next a, s1, e1) =>
      match f a s1 with (r, s2, e2) => (r, s2, e1 ++ e2) end
  | (Return l, s1, e1) => (Return l, s1, e1)
  | (Panic msg, s1, e1) => (Panic msg, s1, e1)
  end.

Definition emit (e : Ev) : M unit := fun s => (Next tt, s, [e]).
Definition get : M St := fun s => (Next s, s, []).
Definition put (s : St) : M unit := fun _ => (Next tt, s, []).
Definition exit {A} (l : L) : M A := fun s => (Return l, s, []).
Definition panic {A} (msg : string) : M A := fun s => (Panic msg, s, []).

(** [if c { body }] without [else]. *)
Definition when (c : bool) (body : M unit) : M unit :=
  if c then body else ret tt.
End Eff.

Arguments M : clear implicits.

Declare Scope go_scope.
Delimit Scope go_scope with go.
Notation "'do' x <- m ; k" := (bind m (fun x => k))
  (at level 10, x name, m at level 100, k at level 200) : go_scope.
Notation "'do' ' p <- m ; k" := (bind m (fun x => match x with p => k end))
  (at level 10, p pattern, m at level 100, k at level 200) : go_scope.
Notation "m ;; k" := (bind m (fun _ => k))
  (at level 100, k at level 200, right associativity) : go_scope.

(** A call [f()] used as a statement: a [return] inside [f] ends [f], not
    its caller; a panic goes on unwinding. *)
Definition call {St Ev L L' A : Type} (m : M St Ev L A) : M St Ev L' unit :=
  fun s =>
    match m s with
    | (Next _, s1, e1) => (Next tt, s1, e1)
    | (Return _, s1, e1) => (Next tt, s1, e1)
    | (Panic msg, s1, e1) => (Panic msg, s1, e1)
    end.

(** [time.Duration] is an int64 count of nanoseconds: a product wraps
    around. *)
Definition wrap64 (z : Z) : Z := (z + 2 ^ 63) mod 2 ^ 64 - 2 ^ 63.
Definition Second : Z := 1000000000.

End Go.

(** ** package rpc: rpc_analytics_purger.go *)
Module Rpc.
Import Go.
Local Open Scope go_scope.

Definition ANALYTICS_KEYNAME : string := "tyk-system-analytics".

Section Purger.

(** [analytics.AnalyticsRecord] of tyk-pump: the purger never looks
    inside a record. *)
Context {AnalyticsRecord : Type}.

(** The dynamic values the purger stores in an [interface{}]: the [nil]
    interface, a [string], an [AnalyticsRecord]. *)
Inductive iface :=
| INil
| IString (s : string)
| IRecord (r : AnalyticsRecord).

(** The two shapes of function handed to [dispatcher.AddFunc]. *)
Inductive RPCFunc :=
| FuncBool (f : unit -> bool)
| FuncStringError (f : string -> option error).

(** [WithError(err)] and [WithField(name, v)] of a log entry. *)
Inductive logField :=
| FErr (e : error)
| FVal (name : string) (v : iface).

Inductive Event :=
| EvLog (lvl : Level) (fields : list logField) (msg : string)
| EvAddFunc (name : string) (f : RPCFunc)
| EvFuncClientSingleton (funcName : string) (arg : iface) (err : option error)
| EvEmitErrorEvent (jobName funcName : string) (err : error)
| EvGetAndDeleteSet (keyName : string).

(** Modelled from the spec: the interface [storage.Handler] is declared
    in package storage, which is not among the sources. Of its methods
    the purger calls [GetAndDeleteSet] only: "getAndDeleteAll(key) ->
    []element, atomic pop". [queued] is the content of a queue, used to
    state what the pop returns and what it leaves. *)
Class Handler (S : Type) := {
  GetAndDeleteSet : S -> string -> list iface * S;
  queued : S -> string -> list iface;
  GetAndDeleteSet_pops : forall s k, (GetAndDeleteSet s k).1 = queued s k;
  GetAndDeleteSet_empties : forall s k, queued (GetAndDeleteSet s k).2 k = [];
  GetAndDeleteSet_frame : forall s k k',
    k' <> k -> queued (GetAndDeleteSet s k).2 k' = queued s k'
}.

(** The RPC client singleton of rpc_client.go (not among the sources):
    [values.ClientIsConnected()] and [RPC().FuncClientSingleton(name,
    arg)], the latter with the client's own state threaded through. *)
Class Client (R : Type) := {
  ClientIsConnected : R -> bool;
  FuncClientSingleton : R -> string -> iface -> (iface * option error) * R
}.

(** [msgpack.Unmarshal([]byte(s), &decoded)] on a zero record and
    [json.Marshal(keys)], library functions taken as they are, and the
    constant [FuncClientSingletonCall] of rpc_client.go. *)
Class Codec := {
  msgpack_Unmarshal : string -> AnalyticsRecord * option error;
  json_Marshal : list iface -> string * option error;
  FuncClientSingletonCall : string
}.

Context {S R : Type} `{!Handler S} `{!Client R} `{!Codec}.

(** Package-level state and the purger's fields. *)
Record World := mkWorld {
  Store : S;                            (* r.Store *)
  client : R;                           (* RPC() / values *)
  addedFuncs : gmap string bool;        (* var addedFuncs map[string]bool *)
  dispatcher : list (string * RPCFunc)  (* functions registered so far *)
}.

(** Labels of the [return] statements of [PurgeCache]. *)
Inductive exitPoint := ExitPingFailed | ExitMarshalFailed.

Definition Cmd := M World Event exitPoint.

Definition log (lvl : Level) (fields : list logField) (msg : string) : Cmd unit :=
  emit (EvLog lvl fields msg).

Definition clientIsConnected : Cmd bool :=
  do w <- get; ret (ClientIsConnected (client w)).

Definition funcClientSingleton (funcName : string) (arg : iface)
  : Cmd (iface * option error) :=
  do w <- get;
  match FuncClientSingleton (client w) funcName arg with
  | (res, err, c') =>
      put (mkWorld (Store w) c' (addedFuncs w) (dispatcher w));;
      emit (EvFuncClientSingleton funcName arg err);;
      ret (res, err)
  end.

Definition storeGetAndDeleteSet (keyName : string) : Cmd (list iface) :=
  do w <- get;
  match GetAndDeleteSet (Store w) keyName with
  | (vals, s') =>
      put (mkWorld s' (client w) (addedFuncs w) (dispatcher w));;
      emit (EvGetAndDeleteSet keyName);;
      ret vals
  end.

(** [dispatcher.AddFunc(name, f)]. *)
Definition dispatcherAddFunc (name : string) (f : RPCFunc) : Cmd unit :=
  do w <- get;
  put (mkWorld (Store w) (client w) (addedFuncs w) (dispatcher w ++ [(name, f)]));;
  emit (EvAddFunc name f).

(** [addedFuncs[name]]: a missing key reads as [false]. *)
Definition addedFuncsGet (name : string) : Cmd bool :=
  do w <- get; ret (default false (addedFuncs w !! name)).

(** [addedFuncs[name] = true]. *)
Definition addedFuncsSetTrue (name : string) : Cmd unit :=
  do w <- get;
  put (mkWorld (Store w) (client w) (<[name := true]> (addedFuncs w)) (dispatcher w)).

(** The stub handlers of [Connect]. *)
Definition pingStub : RPCFunc := FuncBool (fun _ => false).
Definition purgeAnalyticsDataStub : RPCFunc := FuncStringError (fun _ => None).

Definition Connect : Cmd unit :=
  do connected <- clientIsConnected;
  when (negb connected)
    (log ErrorLevel [] "RPC client is not connected, use Connect method 1st");;
  (* setup RPC func if needed *)
  do added <- addedFuncsGet "Ping";
  when (negb added)
    (dispatcherAddFunc "Ping" pingStub;;
     addedFuncsSetTrue "Ping");;
  do added <- addedFuncsGet "PurgeAnalyticsData";
  when (negb added)
    (dispatcherAddFunc "PurgeAnalyticsData" purgeAnalyticsDataStub;;
     addedFuncsSetTrue "PurgeAnalyticsData");;
  log InfoLevel [] "RPC Analytics client using singleton".

(** [encoded.(string)] panics on anything but a string. *)
Definition decodeAnalyticsRecord (encoded : iface)
  : Cmd (AnalyticsRecord * option error) :=
  match encoded with
  | IString s => ret (msgpack_Unmarshal s)
  | _ => panic "interface conversion: interface {} is not string"
  end.

(** The [range] loop of [processAnalyticsValues]; [i] is the index of the
    head of [vs] in the slice. [failedRecords] counts at most
    [len(analyticsValues)] elements, so the [int] never wraps. *)
Fixpoint processAnalyticsValues_range (i : nat) (vs : list iface)
    (keys : list iface) (failedRecords : Z) : Cmd (list iface * Z) :=
  match vs with
  | [] => ret (keys, failedRecords)
  | v :: rest =>
      do '(decoded, err) <- decodeAnalyticsRecord v;
      match err with
      | Some e =>
          log ErrorLevel [FErr e] "Couldn't unmarshal analytics data";;
          processAnalyticsValues_range (Datatypes.S i) rest keys (failedRecords + 1)
      | None =>
          log DebugLevel [FVal "decoded" (IRecord decoded)] "Decoded Record";;
          processAnalyticsValues_range (Datatypes.S i) rest
            (<[i := IRecord decoded]> keys) failedRecords
      end
  end.

Definition processAnalyticsValues (analyticsValues : list iface)
  : Cmd (list iface * Z) :=
  (* keys := make([]interface{}, len(analyticsValues)) *)
  let keys := replicate (length analyticsValues) INil in
  processAnalyticsValues_range 0 analyticsValues keys 0.

Definition analyticsKeyName (i : Z) : string :=
  if decide (i = -1) then ANALYTICS_KEYNAME
  else ANALYTICS_KEYNAME +:+ "_" +:+ itoa i.

(** Body of the [for] loop of [PurgeCache]; [continue] ends the body. *)
Definition purgeBucket (i : Z) : Cmd unit :=
  do analyticsValues <- storeGetAndDeleteSet (analyticsKeyName i);
  if decide (length analyticsValues = 0%nat) then ret tt else
  do '(keys, failedRecords) <- processAnalyticsValues analyticsValues;
  log DebugLevel [] ("could not decode " +:+ itoa failedRecords +:+ " records");;
  match json_Marshal keys with
  | (_, Some err) =>
      log ErrorLevel [FErr err] "Failed to marshal analytics data";;
      exit ExitMarshalFailed
  | (data, None) =>
      (* Send keys to RPC *)
      do '(_, err) <- funcClientSingleton "PurgeAnalyticsData" (IString data);
      match err with
      | Some e =>
          emit (EvEmitErrorEvent FuncClientSingletonCall "PurgeAnalyticsData" e);;
          log WarnLevel [] ("Failed to call purge, retrying: " +:+ e)
      | None => ret tt
      end
  end.

Fixpoint forBuckets (idxs : list Z) : Cmd unit :=
  match idxs with
  | [] => ret tt
  | i :: rest => purgeBucket i;; forBuckets rest
  end.

(** [for i := -1; i < 10; i++]. *)
Definition bucketIndices : list Z := seqZ (-1) 11.

Definition PurgeCache : Cmd unit :=
  do connected <- clientIsConnected;
  when (negb connected)
    (log ErrorLevel [] "RPC client is not connected, use Connect method 1st");;
  do '(_, err) <- funcClientSingleton "Ping" INil;
  match err with
  | Some e =>
      log ErrorLevel [FErr e] "Can't purge cache, failed to ping RPC";;
      exit ExitPingFailed
  | None => forBuckets bucketIndices
  end.

(** What the [select] of [PurgeLoop] takes in one turn of its loop: the
    cancellation of the context or a tick. *)
Inductive selected := CtxDone | TickC.

Inductive loopExit := ExitCtxDone.

(** The [for] loop of [PurgeLoop] along the choices [sel] of its [select];
    when they run out the loop waits in the [select]. *)
Fixpoint PurgeLoop_for (sel : list selected) : M World Event loopExit unit :=
  match sel with
  | [] => ret tt
  | CtxDone :: _ => exit ExitCtxDone
  | TickC :: rest => call PurgeCache;; PurgeLoop_for rest
  end.

(** [interval] is a [time.Duration]; [time.NewTicker] panics on a duration
    that is not positive. *)
Definition PurgeLoop (interval : Z) (sel : list selected)
  : M World Event loopExit unit :=
  (* tick := time.NewTicker(interval * time.Second) *)
  if decide (wrap64 (interval * Second) <= 0) then
    panic "non-positive interval for NewTicker"
  else PurgeLoop_for sel.

End Purger.

Arguments iface : clear implicits.
Arguments logField : clear implicits.
Arguments Event : clear implicits.
Arguments Handler : clear implicits.
Arguments Client : clear implicits.
Arguments Codec : clear implicits.
Arguments World : clear implicits.
Arguments Cmd : clear implicits.
End Rpc.

(** ** package gateway: distributed_rate_limiter.go *)
Module Gateway.
Import Go.
Local Open Scope go_scope.

(** [drl.Server], the load report put on the bus. *)
Record Server := mkServer {
  HostName : string;
  ID : string;
  LoadPerSec : Z;       (* int64 *)
  TagHash : string
}.

Inductive NotificationCommand :=
| NoticeGatewayDRLNotification
| NoticeGatewayConfigResponse.

Inductive Signal := SIGUSR2.

Record HostDetails := mkHostDetails {
  Hostname : string;
  PID : Z               (* int *)
}.

Definition sanitzeFields : list string :=
  [ "secret"; "node_secret"; "storage"; "slave_options"; "auth_override" ].

(** [delete(mc, field_name)] for each field; the map handed in is the one
    handed back. A [nil] map reads as the empty one, and [delete] on it
    does nothing. *)
Definition sanitizeConfig {V : Type} (mc : gmap string V) : gmap string V :=
  foldl (fun mc field_name => delete field_name mc) mc sanitzeFields.

Section Gateway.

(** [config.Config] (package config), [drl.DRL] (module drl) and the
    values a decoded JSON object holds ([interface{}]). *)
Context {Config DRL V : Type}.

(** The part of [Gateway] this file reads. [GetNodeID()] and
    [GetConfig()] are accessors of fields guarded elsewhere. *)
Record Gateway := mkGateway {
  hostDetails : HostDetails;
  GetNodeID : string;
  GetConfig : Config
}.

Record Notification := mkNotification {
  Command : NotificationCommand;
  Payload : string;
  Gw : Gateway
}.

Record ConfigPayload := mkConfigPayload {
  Configuration : Config;
  ForHostname : string;
  ForNodeID : string;
  TimeStamp : Z       (* int64 *)
}.

Record GetConfigPayload := mkGetConfigPayload {
  FromHostname : string;
  FromNodeID : string;
  gcTimeStamp : Z
}.

Record ReturnConfigPayload := mkReturnConfigPayload {
  rcFromHostname : string;
  rcFromNodeID : string;
  rcConfiguration : gmap string V;
  rcTimeStamp : Z
}.

(** What the file uses of other packages: the fields of [config.Config]
    it reads, [config.Load] (it "loads the current on-disk configuration
    into the target structure": a reading of the files, its error
    dropped by the caller), the DRL manager, encoding/json on the
    structures above, the clock, [ioutil.WriteFile]'s verdict,
    [syscall.Kill], and the package variable [confPaths]. *)
Class Env := {
  AllowRemoteConfig : Config -> bool;
  OriginalPath : Config -> string;
  DRLNotificationFrequency : Config -> Z;
  Tags : Config -> list string;            (* DBAppConfOptions.Tags *)
  zeroConfig : Config;                     (* config.Config{} *)
  config_Load : gmap string string -> list string -> Config -> Config;
  confPaths : list string;
  Ready : DRL -> bool;
  AddOrUpdateServer : DRL -> Server -> option error * DRL;
  json_Marshal_Server : Server -> string * option error;
  json_Unmarshal_Server : string -> Server -> Server * option error;
  json_MarshalIndent_Config : Config -> string -> string -> string * option error;
  json_Unmarshal_ConfigPayload : string -> ConfigPayload -> ConfigPayload * option error;
  json_Unmarshal_GetConfigPayload :
    string -> GetConfigPayload -> GetConfigPayload * option error;
  json_Decode_map : string -> gmap string V * option error;
  json_Marshal_ReturnConfigPayload : ReturnConfigPayload -> string * option error;
  time_Now_Format : string -> string;      (* time.Now().Format(layout) *)
  time_Now_Unix : Z;                       (* time.Now().Unix() *)
  WriteFile_error : gmap string string -> string -> string -> option error;
  syscall_Kill : Z -> Signal -> option error
}.

Context {env : Env}.

Inductive logField :=
| FErr (e : error)
| FString (name value : string)
| FServerData (s : Server).

Inductive Event :=
| EvLog (lvl : Level) (fields : list logField) (msg : string)
| EvNotify (n : Notification)
| EvWriteFile (name data : string) (perm : Z) (err : option error)
| EvKill (pid : Z) (sig : Signal) (err : option error).

(** What the handlers read and change outside their arguments: the
    files, the DRL manager behind [gw.DRLManager] ([None] is the nil
    pointer) and the reading of [GlobalRate.Rate()]. *)
Record World := mkWorld {
  files : gmap string string;
  DRLManager : option DRL;
  GlobalRate : Z
}.

(** Labels of the [return] statements. *)
Inductive exitPoint :=
| ExitDRLNotReady | ExitEncodeFailed | ExitUnmarshalFailed | ExitAddOrUpdateFailed
| ExitDecodeFailed | ExitNoMatch | ExitRemoteConfigNotAllowed
| ExitBackupFailed | ExitWriteFailed | ExitNoPID
| ExitGetConfigFailed | ExitMarshalFailed.

Definition Cmd := M World Event exitPoint.

Definition log (lvl : Level) (fields : list logField) (msg : string) : Cmd unit :=
  emit (EvLog lvl fields msg).

(** [ioutil.WriteFile(name, data, perm)]: it either replaces the content
    of [name] or reports an error and leaves the files as they were
    (the case of a directory that cannot be written). *)
Definition ioutil_WriteFile (name data : string) (perm : Z) : Cmd (option error) :=
  do w <- get;
  match WriteFile_error (files w) name data with
  | Some e =>
      emit (EvWriteFile name data perm (Some e));;
      ret (Some e)
  | None =>
      put (mkWorld (<[name := data]> (files w)) (DRLManager w) (GlobalRate w));;
      emit (EvWriteFile name data perm None);;
      ret None
  end.

Definition syscallKill (pid : Z) (sig : Signal) : Cmd (option error) :=
  let err := syscall_Kill pid sig in
  emit (EvKill pid sig err);; ret err.

(** *** DRL notifications *)

Definition notificationFreq (gw : Gateway) : Z :=
  let notificationFreq := DRLNotificationFrequency (GetConfig gw) in
  if decide (notificationFreq = 0) then 2 else notificationFreq.

Definition getTagHash (gw : Gateway) : string :=
  foldl (fun th tag => th +:+ tag) "" (Tags (GetConfig gw)).

Definition NotifyCurrentServerStatus (gw : Gateway) : Cmd unit :=
  do w <- get;
  match DRLManager w with
  | None => exit ExitDRLNotReady
  | Some drlManager =>
      if negb (Ready drlManager) then exit ExitDRLNotReady else
      let rate := GlobalRate w in
      let rate := if decide (rate = 0) then 1 else rate in
      let server := mkServer (Hostname (hostDetails gw)) (GetNodeID gw) rate
                             (getTagHash gw) in
      match json_Marshal_Server server with
      | (_, Some err) =>
          log ErrorLevel [] ("Failed to encode payload: " +:+ err);;
          exit ExitEncodeFailed
      | (asJson, None) =>
          emit (EvNotify (mkNotification NoticeGatewayDRLNotification asJson gw))
      end
  end.

(** One turn of the [default] branch of the loop of
    [startRateLimitNotifications], before the sleep. *)
Definition rateLimitNotificationTick (gw : Gateway) : Cmd unit :=
  if decide (GetNodeID gw <> "") then NotifyCurrentServerStatus gw
  else log WarnLevel [] "Node not registered yet, skipping DRL Notification".

Definition onServerStatusReceivedHandler (gw : Gateway) (payload : string) : Cmd unit :=
  do w <- get;
  match DRLManager w with
  | None =>
      log WarnLevel [] "DRL not ready, skipping this notification";;
      exit ExitDRLNotReady
  | Some drlManager =>
      if negb (Ready drlManager) then
        log WarnLevel [] "DRL not ready, skipping this notification";;
        exit ExitDRLNotReady
      else
      match json_Unmarshal_Server payload (mkServer "" "" 0 "") with
      | (_, Some err) =>
          log ErrorLevel [FErr err; FString "payload" payload]
              "DRL: Failed to unmarshal server data";;
          exit ExitUnmarshalFailed
      | (serverData, None) =>
          match AddOrUpdateServer drlManager serverData with
          | (err, drlManager') =>
              put (mkWorld (files w) (Some drlManager') (GlobalRate w));;
              match err with
              | Some e =>
                  log DebugLevel [FErr e; FServerData serverData]
                    "AddOrUpdateServer error. Seems like you running multiple segmented Tyk groups in same Redis.";;
                  exit ExitAddOrUpdateFailed
              | None => ret tt
              end
          end
      end
  end.

(** *** Configuration push *)

Definition backupConfiguration (gw : Gateway) : Cmd (option error) :=
  match json_MarshalIndent_Config (GetConfig gw) "" "    " with
  | (_, Some err) => ret (Some err)
  | (oldConfig, None) =>
      let asStr := time_Now_Format "Mon-Jan-_2-15-04-05-2006" in
      let fName := asStr +:+ ".tyk.conf" in
      ioutil_WriteFile fName oldConfig 420 (* 0644 *)
  end.

Definition writeNewConfiguration (payload : ConfigPayload) : Cmd (option error) :=
  match json_MarshalIndent_Config (Configuration payload) "" "    " with
  | (_, Some err) => ret (Some err)
  | (newConfig, None) =>
      match confPaths with
      | [] => panic "index out of range [0] with length 0"
      | path :: _ => ioutil_WriteFile path newConfig 420 (* 0644 *)
      end
  end.

Definition handleNewConfiguration (gw : Gateway) (payload : string) : Cmd unit :=
  (* Decode the configuration from the payload *)
  do w <- get;
  (* We actually want to merge into the existing configuration *)
  let configPayload :=
    mkConfigPayload (config_Load (files w) confPaths zeroConfig) "" "" 0 in
  match json_Unmarshal_ConfigPayload payload configPayload with
  | (_, Some err) =>
      log ErrorLevel [FErr err] "Failed to decode configuration payload";;
      exit ExitDecodeFailed
  | (configPayload, None) =>
      (* Make sure payload matches nodeID and hostname *)
      if decide (ForHostname configPayload <> Hostname (hostDetails gw)
                 /\ ForNodeID configPayload <> GetNodeID gw) then
        log InfoLevel [] "Configuration update received, no NodeID/Hostname match found";;
        exit ExitNoMatch
      else
      if negb (AllowRemoteConfig (GetConfig gw)) then
        log WarnLevel []
          "Ignoring new config: Remote configuration is not allowed for this node.";;
        exit ExitRemoteConfigNotAllowed
      else
      do err <- backupConfiguration gw;
      match err with
      | Some e =>
          log ErrorLevel [FErr e] "Failed to backup existing configuration";;
          exit ExitBackupFailed
      | None =>
      do err <- writeNewConfiguration configPayload;
      match err with
      | Some e =>
          log ErrorLevel [FErr e] "Failed to write new configuration";;
          exit ExitWriteFailed
      | None =>
      log InfoLevel [] "Initiating configuration reload";;
      let myPID := PID (hostDetails gw) in
      if decide (myPID = 0) then
        log ErrorLevel [] "No PID found, cannot reload";;
        exit ExitNoPID
      else
      log InfoLevel [] ("Sending reload signal to PID: " +:+ itoa myPID);;
      do err <- syscallKill myPID SIGUSR2;
      match err with
      | Some e => log ErrorLevel [] ("Process reload failed: " +:+ e)
      | None => ret tt
      end
      end
      end
  end.

(** *** Configuration pull *)

Definition getExistingConfig (gw : Gateway) : Cmd (gmap string V * option error) :=
  do w <- get;
  match files w !! OriginalPath (GetConfig gw) with
  | None => ret (∅, Some "open: no such file or directory")
  | Some f =>
      match json_Decode_map f with
      | (_, Some err) => ret (∅, Some err)
      | (microConfig, None) => ret (sanitizeConfig microConfig, None)
      end
  end.

Definition handleSendMiniConfig (gw : Gateway) (payload : string) : Cmd unit :=
  (* Decode the configuration from the payload *)
  match json_Unmarshal_GetConfigPayload payload (mkGetConfigPayload "" "" 0) with
  | (_, Some err) =>
      log ErrorLevel [] ("Failed unmarshal request: " +:+ err);;
      exit ExitUnmarshalFailed
  | (configPayload, None) =>
      (* Make sure payload matches nodeID and hostname *)
      if decide (FromHostname configPayload <> Hostname (hostDetails gw)
                 /\ FromNodeID configPayload <> GetNodeID gw) then
        log DebugLevel []
          "Configuration request received, no NodeID/Hostname match found, ignoring";;
        exit ExitNoMatch
      else
      do '(config, err) <- getExistingConfig gw;
      match err with
      | Some e =>
          log ErrorLevel [] ("Failed to get existing configuration: " +:+ e);;
          exit ExitGetConfigFailed
      | None =>
      let returnPayload :=
        mkReturnConfigPayload (Hostname (hostDetails gw)) (GetNodeID gw)
                              config time_Now_Unix in
      match json_Marshal_ReturnConfigPayload returnPayload with
      | (_, Some err) =>
          log ErrorLevel [] ("Failed to get marshal configuration: " +:+ err);;
          exit ExitMarshalFailed
      | (payloadAsJSON, None) =>
          emit (EvNotify (mkNotification NoticeGatewayConfigResponse payloadAsJSON gw));;
          log DebugLevel [] "Configuration request responded."
      end
      end
  end.

(** *** The goroutine of startRateLimitNotifications *)

Inductive loopExit := ExitCtxDone.

(** The [for] loop of the goroutine along its turns: [None] when
    [ctx.Done()] is ready, [Some id] when it is not and [GetNodeID()]
    answers [id] in that turn. The sleep takes time and nothing else; when
    the turns run out the loop is somewhere in a turn still to come. *)
Fixpoint rateLimitNotifications_for (gw : Gateway) (turns : list (option string))
  : M World Event loopExit unit :=
  match turns with
  | [] => ret tt
  | None :: _ => exit ExitCtxDone
  | Some nodeID :: rest =>
      (if decide (nodeID <> "") then
         call (NotifyCurrentServerStatus
                 (mkGateway (hostDetails gw) nodeID (GetConfig gw)))
       else
         emit (EvLog WarnLevel [] "Node not registered yet, skipping DRL Notification"));;
      rateLimitNotifications_for gw rest
  end.

Definition startRateLimitNotifications (gw : Gateway) (turns : list (option string))
  : M World Event loopExit unit :=
  emit (EvLog InfoLevel [] "DRL: Starting gateway rate limiter notifications");;
  rateLimitNotifications_for gw turns.

End Gateway.

Arguments Gateway : clear implicits.
Arguments Notification : clear implicits.
Arguments ConfigPayload : clear implicits.
Arguments ReturnConfigPayload : clear implicits.
Arguments Env : clear implicits.
Arguments Event : clear implicits.
Arguments World : clear implicits.
Arguments Cmd : clear implicits.
End Gateway.

(** ** package oas: the error formatter of validator.go *)
Module Oas.
Import Go.

Definition newline : string := String (Ascii.ascii_of_nat 10) EmptyString.

(** The [range] loop of [errorFormatter] on a [strings.Builder]; [n] is
    [len(errs)] and [i] the index of the head of [errs]. *)
Fixpoint errorFormatter_range (n : Z) (i : Z) (errs : list error) (result : string)
  : string :=
  match errs with
  | [] => result
  | err :: rest =>
      let result := result +:+ err in
      let result := if decide (i < n - 1) then result +:+ newline else result in
      errorFormatter_range n (i + 1) rest result
  end.

Definition errorFormatter (errs : list error) : string :=
  errorFormatter_range (Z.of_nat (length errs)) 0 errs "".

End Oas.

(** ** Observations on runs, and small concrete collaborators *)
Module Obs.
Import Go.

Section Run.
Context {St Ev L A : Type}.
Definition flowOf (r : flow L A * St * list Ev) : flow L A := r.1.1.
Definition worldOf (r : flow L A * St * list Ev) : St := r.1.2.
Definition eventsOf (r : flow L A * St * list Ev) : list Ev := r.2.
End Run.

(** [n] calls in a row. *)
Fixpoint times {St Ev L : Type} (n : nat) (c : M St Ev L unit) : M St Ev L unit :=
  match n with
  | O => ret tt
  | Datatypes.S n' => bind c (fun _ => times n' c)
  end.

Section Rpc.
Import Rpc.
Context {AnalyticsRecord S R : Type}
  `{!Handler AnalyticsRecord S} `{!Client AnalyticsRecord R}
  `{!Codec AnalyticsRecord}.

Definition isRecord (v : iface AnalyticsRecord) : bool :=
  match v with IRecord _ => true | _ => false end.

(** A queued string is validly encoded when msgpack accepts it. *)
Definition decodes (s : string) : bool :=
  match (msgpack_Unmarshal s).2 with None => true | Some _ => false end.

(** What the loop of [processAnalyticsValues] leaves in the slot of a
    queued string whose slot held [old], and what it logs for it. *)
Definition slot (old : iface AnalyticsRecord) (s : string) : iface AnalyticsRecord :=
  match msgpack_Unmarshal s with
  | (r, None) => IRecord r
  | (_, Some _) => old
  end.

Definition decodeLog (s : string) : Event AnalyticsRecord :=
  match msgpack_Unmarshal s with
  | (r, None) => EvLog DebugLevel [FVal "decoded" (IRecord r)] "Decoded Record"
  | (_, Some e) => EvLog ErrorLevel [FErr e] "Couldn't unmarshal analytics data"
  end.

(** Keys handed to [GetAndDeleteSet], in order. *)
Definition keysRead (evs : list (Event AnalyticsRecord)) : list string :=
  omap (fun e => match e with EvGetAndDeleteSet k => Some k | _ => None end) evs.

(** Names handed to [dispatcher.AddFunc], in order. *)
Definition namesAdded (evs : list (Event AnalyticsRecord)) : list string :=
  omap (fun e => match e with EvAddFunc n _ => Some n | _ => None end) evs.

(** Arguments of the calls of the remote function [funcName], in order. *)
Definition argsSent (funcName : string) (evs : list (Event AnalyticsRecord))
  : list (iface AnalyticsRecord) :=
  omap (fun e => match e with
                 | EvFuncClientSingleton f a _ =>
                     if decide (f = funcName) then Some a else None
                 | _ => None
                 end) evs.

(** How often [dispatcher.AddFunc] was called with [name]. *)
Definition registrations (name : string) (evs : list (Event AnalyticsRecord)) : nat :=
  length (List.filter (String.eqb name) (namesAdded evs)).

(** What the body does after the pop, for the values [vals] popped into
    world [w1]. *)
Definition afterPop (i : Z) (vals : list (iface AnalyticsRecord))
    (w1 : World S R)
  : flow exitPoint unit * World S R * list (Event AnalyticsRecord) :=
  if decide (length vals = 0%nat) then (Next tt, w1, []) else
  let p := processAnalyticsValues vals w1 in
  match flowOf p with
  | Next (keys, failedRecords) =>
      let counted :=
        EvLog DebugLevel [] ("could not decode " +:+ itoa failedRecords +:+ " records") in
      match json_Marshal keys with
      | (_, Some err) =>
          (Return ExitMarshalFailed, worldOf p,
           eventsOf p ++
           [counted; EvLog ErrorLevel [FErr err] "Failed to marshal analytics data"])
      | (data, None) =>
          let c := FuncClientSingleton (client (worldOf p)) "PurgeAnalyticsData"
                     (IString data) in
          (Next tt,
           mkWorld (Store (worldOf p)) c.2 (addedFuncs (worldOf p))
                   (dispatcher (worldOf p)),
           eventsOf p ++
           counted :: EvFuncClientSingleton "PurgeAnalyticsData" (IString data) c.1.2 ::
           match c.1.2 with
           | Some e =>
               [EvEmitErrorEvent FuncClientSingletonCall "PurgeAnalyticsData" e;
                EvLog WarnLevel [] ("Failed to call purge, retrying: " +:+ e)]
           | None => []
           end)
      end
  | Return l => (Return l, worldOf p, eventsOf p)
  | Panic msg => (Panic msg, worldOf p, eventsOf p)
  end.

(** The values [vals] of a bucket decode (without panic) into an array
    that json.Marshal rejects. *)
Definition marshalFails (vals : list (iface AnalyticsRecord)) (w : World S R) : Prop :=
  vals <> [] /\
  exists keys n e,
    flowOf (processAnalyticsValues vals w) = Next (keys, n)
    /\ (json_Marshal keys).2 = Some e.

(** The registration step of [Connect] for one name. *)
Definition registerOnce (name : string) (f : RPCFunc) (w : World S R)
  : World S R * list (Event AnalyticsRecord) :=
  if default false (addedFuncs w !! name) then (w, [])
  else (mkWorld (Store w) (client w) (<[name := true]> (addedFuncs w))
                (dispatcher w ++ [(name, f)]),
        [EvAddFunc name f]).

Definition isString (v : iface AnalyticsRecord) : bool :=
  match v with IString _ => true | _ => false end.

(** The ticks selected before the context is cancelled (or the choices
    run out): the cycles [PurgeLoop] owes. *)
Fixpoint cyclesDue (sel : list selected) : nat :=
  match sel with
  | TickC :: rest => Datatypes.S (cyclesDue rest)
  | _ => O
  end.

(** What a registered function answers. *)
Definition answersFalse (f : RPCFunc) : Prop :=
  match f with FuncBool g => forall u, g u = false | _ => False end.
Definition answersSuccess (f : RPCFunc) : Prop :=
  match f with FuncStringError g => forall data, g data = None | _ => False end.
End Rpc.

Section Gateway.
Import Gateway.
Context {Config DRL V : Type} {env : Env Config DRL V}.

(** The payload structure [handleNewConfiguration] decodes into: the
    configuration loaded from [confPaths], no addressee yet. *)
Definition loadedPayload (w : World DRL) : ConfigPayload Config :=
  mkConfigPayload (config_Load (files w) confPaths zeroConfig) "" "" 0.

(** Name and content of the backup file of [backupConfiguration]. *)
Definition backupName : string :=
  time_Now_Format "Mon-Jan-_2-15-04-05-2006" +:+ ".tyk.conf".
Definition backupData (gw : Gateway.Gateway Config) : string :=
  (json_MarshalIndent_Config (GetConfig gw) "" "    ").1.

(** The handler got past its addressing check: it did not return at the
    decoding of the payload nor at the check itself. *)
Definition passedAddressing (f : flow exitPoint unit) : Prop :=
  f <> Return ExitDecodeFailed /\ f <> Return ExitUnmarshalFailed
  /\ f <> Return ExitNoMatch.

(** The run of [handleNewConfiguration] from the backup on, for the
    decoded payload [configPayload], in terms of the runs of
    [backupConfiguration] and [writeNewConfiguration]. *)
Definition acceptedRun (gw : Gateway.Gateway Config)
    (configPayload : ConfigPayload Config) (w : World DRL)
  : flow exitPoint unit * World DRL * list (Event Config) :=
  let b := backupConfiguration gw w in
  match flowOf b with
  | Next (Some e) =>
      (Return ExitBackupFailed, worldOf b,
       eventsOf b ++
       [EvLog ErrorLevel [FErr e] "Failed to backup existing configuration"])
  | Next None =>
      let wr := writeNewConfiguration configPayload (worldOf b) in
      match flowOf wr with
      | Next (Some e) =>
          (Return ExitWriteFailed, worldOf wr,
           eventsOf b ++ eventsOf wr ++
           [EvLog ErrorLevel [FErr e] "Failed to write new configuration"])
      | Next None =>
          let myPID := PID (hostDetails gw) in
          if decide (myPID = 0) then
            (Return ExitNoPID, worldOf wr,
             eventsOf b ++ eventsOf wr ++
             [EvLog InfoLevel [] "Initiating configuration reload";
              EvLog ErrorLevel [] "No PID found, cannot reload"])
          else
            (Next tt, worldOf wr,
             eventsOf b ++ eventsOf wr ++
             [EvLog InfoLevel [] "Initiating configuration reload";
              EvLog InfoLevel [] ("Sending reload signal to PID: " +:+ itoa myPID);
              EvKill myPID SIGUSR2 (syscall_Kill myPID SIGUSR2)] ++
             match syscall_Kill myPID SIGUSR2 with
             | Some e => [EvLog ErrorLevel [] ("Process reload failed: " +:+ e)]
             | None => []
             end)
      | Return l => (Return l, worldOf wr, eventsOf b ++ eventsOf wr)
      | Panic msg => (Panic msg, worldOf wr, eventsOf b ++ eventsOf wr)
      end
  | Return l => (Return l, worldOf b, eventsOf b)
  | Panic msg => (Panic msg, worldOf b, eventsOf b)
  end.

Definition isLog (e : Event Config) : bool :=
  match e with EvLog _ _ _ => true | _ => false end.

(** The turns of the notification goroutine taken, with a registered node,
    before the context is cancelled. *)
Fixpoint turnsRegistered (turns : list (option string)) : nat :=
  match turns with
  | Some nodeID :: rest =>
      (if decide (nodeID <> "") then 1 else 0) + turnsRegistered rest
  | _ => O
  end.

Definition isKill (e : Event Config) : bool :=
  match e with EvKill _ _ _ => true | _ => false end.

Definition notifications (evs : list (Event Config)) : list (Notification Config) :=
  omap (fun e => match e with EvNotify n => Some n | _ => None end) evs.

Definition isWrite (e : Event Config) : bool :=
  match e with EvWriteFile _ _ _ _ => true | _ => false end.
End Gateway.
End Obs.

(** Collaborators small enough to run: an in-memory queue store, an RPC link
    that is up or down, and codecs on records that are plain strings. *)
Module Sample.
Import Go.

Definition Record_ := string.

(** In-memory [storage.Handler]: one list per key. *)
#[export] Instance memHandler {A : Type} : Rpc.Handler A (gmap string (list (Rpc.iface A))) := {|
  Rpc.GetAndDeleteSet := fun s k => (default [] (s !! k), delete k s);
  Rpc.queued := fun s k => default [] (s !! k);
  Rpc.GetAndDeleteSet_pops := fun s k => eq_refl;
  Rpc.GetAndDeleteSet_empties := fun s k =>
    f_equal (default []) (lookup_delete_eq s k);
  Rpc.GetAndDeleteSet_frame := fun s k k' (Hne : k' <> k) =>
    f_equal (default []) (lookup_delete_ne s k k' (fun E => Hne (eq_sym E)))
|}.

Inductive link := Up | Down.

#[export] Instance linkClient {A : Type} : Rpc.Client A link := {|
  Rpc.ClientIsConnected := fun l => match l with Up => true | Down => false end;
  Rpc.FuncClientSingleton := fun l _ _ =>
    match l with
    | Up => (Rpc.INil, None, Up)
    | Down => (Rpc.INil, Some "rpc: connection refused", Down)
    end
|}.

Definition render (v : Rpc.iface Record_) : string :=
  match v with
  | Rpc.INil => "null"
  | Rpc.IString s => s
  | Rpc.IRecord r => r
  end.

Definition unencodable (v : Rpc.iface Record_) : bool :=
  match v with Rpc.IRecord r => String.eqb r "rec:NaN" | _ => false end.

(** Strings that start with "rec:" decode (to themselves); an array with
    the record "rec:NaN" in it does not marshal. *)
#[export] Instance codec : Rpc.Codec Record_ := {|
  Rpc.msgpack_Unmarshal := fun s =>
    if String.prefix "rec:" s then (s, None)
    else ("", Some "msgpack: invalid code");
  Rpc.json_Marshal := fun keys =>
    if existsb unencodable keys then ("", Some "json: unsupported value")
    else ("[" +:+ String.concat "," (map render keys) +:+ "]", None);
  Rpc.FuncClientSingletonCall := "gorpcDispatcherClientCall"
|}.

(** A codec whose json.Marshal accepts every array. *)
Definition totalCodec : Rpc.Codec Record_ := {|
  Rpc.msgpack_Unmarshal := fun s =>
    if String.prefix "rec:" s then (s, None)
    else ("", Some "msgpack: invalid code");
  Rpc.json_Marshal := fun keys =>
    ("[" +:+ String.concat "," (map render keys) +:+ "]", None);
  Rpc.FuncClientSingletonCall := "gorpcDispatcherClientCall"
|}.

Definition store := gmap string (list (Rpc.iface Record_)).

Definition world (st : store) (l : link) : Rpc.World store link :=
  Rpc.mkWorld st l ∅ [].

(** Decoded JSON values of the examples. *)
#[local] Unset Elimination Schemes.
Inductive jvalue :=
| JString (s : string)
| JNumber (n : Z)
| JObject (names : list string) (members : list jvalue).
#[local] Set Elimination Schemes.

(** A configuration with the fields the gateway file reads. *)
Record Cfg := mkCfg {
  allowRemote : bool;
  originalPath : string;
  frequency : Z;
  tags : list string
}.

(** Text before and after the first comma. *)
Fixpoint splitComma (s : string) : option (string * string) :=
  match s with
  | EmptyString => None
  | String c rest =>
      if Ascii.eqb c ","%char then Some (EmptyString, rest)
      else match splitComma rest with
           | Some (a, b) => Some (String c a, b)
           | None => None
           end
  end.

(** Payloads are "hostname,nodeid"; the DRL manager is its ready flag;
    files can be written when [readOnly] is off, and then only the
    configuration file "tyk.conf" when it is on. *)
Definition env (readOnly : bool) : Gateway.Env Cfg bool jvalue := {|
  Gateway.AllowRemoteConfig := allowRemote;
  Gateway.OriginalPath := originalPath;
  Gateway.DRLNotificationFrequency := frequency;
  Gateway.Tags := tags;
  Gateway.zeroConfig := mkCfg false "" 0 [];
  Gateway.config_Load := fun _ _ c => c;
  Gateway.confPaths := ["tyk.conf"];
  Gateway.Ready := fun d => d;
  Gateway.AddOrUpdateServer := fun d _ => (None, d);
  Gateway.json_Marshal_Server := fun sv =>
    (Gateway.HostName sv +:+ "," +:+ Gateway.ID sv +:+ ","
     +:+ itoa (Gateway.LoadPerSec sv) +:+ "," +:+ Gateway.TagHash sv, None);
  Gateway.json_Unmarshal_Server := fun _ sv => (sv, Some "json: not supported");
  Gateway.json_MarshalIndent_Config := fun c _ _ => ("conf:" +:+ originalPath c, None);
  Gateway.json_Unmarshal_ConfigPayload := fun p cp =>
    match splitComma p with
    | Some (h, n) =>
        (Gateway.mkConfigPayload (Gateway.Configuration cp) h n 0, None)
    | None => (cp, Some "json: unexpected end of input")
    end;
  Gateway.json_Unmarshal_GetConfigPayload := fun p cp =>
    match splitComma p with
    | Some (h, n) => (Gateway.mkGetConfigPayload h n 0, None)
    | None => (cp, Some "json: unexpected end of input")
    end;
  Gateway.json_Decode_map := fun f =>
    if String.eqb f "" then (∅, Some "EOF")
    else ({[ "secret" := JString f; "port" := JNumber 8080 ]}, None);
  Gateway.json_Marshal_ReturnConfigPayload := fun r =>
    (Gateway.rcFromHostname r +:+ "," +:+ Gateway.rcFromNodeID r, None);
  Gateway.time_Now_Format := fun _ => "Sat-Oct-31-06-54-00-2026";
  Gateway.time_Now_Unix := 1793429640;
  Gateway.WriteFile_error := fun _ name _ =>
    if readOnly && negb (String.eqb name "tyk.conf")
    then Some "read-only file system" else None;
  Gateway.syscall_Kill := fun _ _ => None
|}.

(** As [env false], but the configuration file "tyk.conf" cannot be
    written while every other file can. *)
Definition lockedConf : Gateway.Env Cfg bool jvalue := {|
  Gateway.AllowRemoteConfig := allowRemote;
  Gateway.OriginalPath := originalPath;
  Gateway.DRLNotificationFrequency := frequency;
  Gateway.Tags := tags;
  Gateway.zeroConfig := mkCfg false "" 0 [];
  Gateway.config_Load := fun _ _ c => c;
  Gateway.confPaths := ["tyk.conf"];
  Gateway.Ready := fun d => d;
  Gateway.AddOrUpdateServer := fun d _ => (None, d);
  Gateway.json_Marshal_Server := Gateway.json_Marshal_Server (Env := env false);
  Gateway.json_Unmarshal_Server := Gateway.json_Unmarshal_Server (Env := env false);
  Gateway.json_MarshalIndent_Config :=
    Gateway.json_MarshalIndent_Config (Env := env false);
  Gateway.json_Unmarshal_ConfigPayload :=
    Gateway.json_Unmarshal_ConfigPayload (Env := env false);
  Gateway.json_Unmarshal_GetConfigPayload :=
    Gateway.json_Unmarshal_GetConfigPayload (Env := env false);
  Gateway.json_Decode_map := Gateway.json_Decode_map (Env := env false);
  Gateway.json_Marshal_ReturnConfigPayload :=
    Gateway.json_Marshal_ReturnConfigPayload (Env := env false);
  Gateway.time_Now_Format := fun _ => "Sat-Oct-31-06-54-00-2026";
  Gateway.time_Now_Unix := 1793429640;
  Gateway.WriteFile_error := fun _ name _ =>
    if String.eqb name "tyk.conf" then Some "permission denied" else None;
  Gateway.syscall_Kill := fun _ _ => None
|}.

Definition node (hostname nodeID : string) (pid : Z) : Gateway.Gateway Cfg :=
  Gateway.mkGateway (Gateway.mkHostDetails hostname pid) nodeID
                    (mkCfg true "tyk.conf" 0 ["eu"; "west"]).

Definition disk (rate : Z) : Gateway.World bool :=
  Gateway.mkWorld {[ "tyk.conf" := "old" ]} (Some true) rate.

(** Three validly encoded records and one malformed entry. *)
Definition mixed : list string := [ "rec:a"; "bad"; "rec:b"; "rec:c" ].

(** The legacy bucket holds [mixed], bucket 3 a record json.Marshal
    rejects, bucket 5 one more record. *)
Definition queues : store :=
  {[ "tyk-system-analytics" := Rpc.IString <$> mixed;
     "tyk-system-analytics_3" := [Rpc.IString "rec:NaN"];
     "tyk-system-analytics_5" := [Rpc.IString "rec:z"] ]}.
End Sample.

(** ** Equations of the effect monad *)
Module GoFacts.
Import Go Obs.

Section Eff.
Context {St Ev L : Type}.
Local Abbreviation M := (M St Ev L).

Lemma run_eta {A} (r : flow L A * St * list Ev) :
  r = (flowOf r, worldOf r, eventsOf r).
Proof. destruct r as [[? ?] ?]; reflexivity. Qed.

Lemma bind_Next {A B} (m : M A) (f : A -> M B) (s : St) a s1 e1 :
  m s = (Next a, s1, e1) ->
  bind m f s = (flowOf (f a s1), worldOf (f a s1), e1 ++ eventsOf (f a s1)).
Proof.
  intros H. unfold bind. rewrite H. destruct (f a s1) as [[? ?] ?]. reflexivity.
Qed.

Lemma bind_Return {A B} (m : M A) (f : A -> M B) (s : St) l s1 e1 :
  m s = (Return l, s1, e1) -> bind m f s = (Return l, s1, e1).
Proof. intros H. unfold bind. rewrite H. reflexivity. Qed.

Lemma bind_Panic {A B} (m : M A) (f : A -> M B) (s : St) msg s1 e1 :
  m s = (Panic msg, s1, e1) -> bind m f s = (Panic msg, s1, e1).
Proof. intros H. unfold bind. rewrite H. reflexivity. Qed.

Lemma bind_ret {A B} (a : A) (f : A -> M B) (s : St) :
  bind (ret a) f s = f a s.
Proof. unfold bind, ret. destruct (f a s) as [[? ?] ?]. reflexivity. Qed.

Lemma bind_get {B} (f : St -> M B) (s : St) :
  bind get f s = f s s.
Proof. unfold bind, get. destruct (f s s) as [[? ?] ?]. reflexivity. Qed.

Lemma bind_put {B} (s' : St) (f : unit -> M B) (s : St) :
  bind (put s') f s = f tt s'.
Proof. unfold bind, put. destruct (f tt s') as [[? ?] ?]. reflexivity. Qed.

Lemma bind_emit {B} (e : Ev) (f : unit -> M B) (s : St) :
  bind (emit e) f s = (flowOf (f tt s), worldOf (f tt s), e :: eventsOf (f tt s)).
Proof. unfold bind, emit. destruct (f tt s) as [[? ?] ?]. reflexivity. Qed.

Lemma bind_exit {A B} (l : L) (f : A -> M B) (s : St) :
  bind (exit l) f s = (Return l, s, []).
Proof. reflexivity. Qed.

Lemma bind_panic {A B} (msg : string) (f : A -> M B) (s : St) :
  bind (panic msg) f s = (Panic msg, s, []).
Proof. reflexivity. Qed.
End Eff.

Lemma call_run {St Ev L L' A : Type} (m : Go.M St Ev L A) (s : St) :
  call (L' := L') m s
  = (match flowOf (m s) with Panic msg => Panic msg | _ => Next tt end,
     worldOf (m s), eventsOf (m s)).
Proof. unfold call. destruct (m s) as [[[a|l|msg] s1] evs]; reflexivity. Qed.

(** One step of a run whose first command is a primitive. *)
Ltac mstep :=
  first [ rewrite bind_get | rewrite bind_put | rewrite bind_emit
        | rewrite bind_ret | rewrite bind_exit | rewrite bind_panic ];
  cbv beta.
End GoFacts.

(** ** Properties of the analytics purge pipeline *)
Module RpcSpec.
Import GoFacts.
Import Go Obs Rpc.
Local Open Scope go_scope.


Section Purger.
Context {AnalyticsRecord S R : Type}
  `{!Handler AnalyticsRecord S} `{!Client AnalyticsRecord R}
  `{!Codec AnalyticsRecord}.

Local Abbreviation World := (World S R).
Local Abbreviation iface := (iface AnalyticsRecord).
Local Abbreviation Event := (Event AnalyticsRecord).
Local Abbreviation registerOnce := (@Obs.registerOnce AnalyticsRecord S R).

(** *** processAnalyticsValues *)

Lemma range_strings (ss : list string) :
  forall (pre mid post : list iface) (n : Z) (w : World),
    length mid = length ss ->
    processAnalyticsValues_range (length pre) (IString <$> ss)
                                 (pre ++ mid ++ post) n w
    = (Next (pre ++ zip_with slot mid ss ++ post,
             n + Z.of_nat (length (List.filter (fun s => negb (decodes s)) ss))),
       w, decodeLog <$> ss).
Proof.
  induction ss as [|s ss IH]; intros pre mid post n w Hlen.
  - destruct mid; [|discriminate]. cbn. unfold ret.
    change (Z.of_nat 0) with 0. rewrite Z.add_0_r. reflexivity.
  - destruct mid as [|old mid]; [discriminate|].
    injection Hlen as Hlen.
    cbn [fmap list_fmap processAnalyticsValues_range decodeAnalyticsRecord].
    unfold bind at 1. unfold ret at 1.
    unfold decodes, slot, decodeLog. cbn [zip_with List.filter fmap list_fmap].
    destruct (msgpack_Unmarshal s) as [r [e|]] eqn:E; cbn [snd negb].
    + unfold bind at 1, log, emit.
      specialize (IH (pre ++ [old]) mid post (n + 1) w Hlen).
      rewrite length_app in IH. cbn [length] in IH.
      replace (length pre + 1)%nat with (Datatypes.S (length pre)) in IH by lia.
      rewrite <- !app_assoc in IH. cbn [app] in IH. cbn [app].
      rewrite IH. cbn [length]. rewrite Nat2Z.inj_succ.
      replace (n + 1 + _) with (n + Z.succ (Z.of_nat (length (List.filter (fun s => negb (decodes s)) ss)))) by lia.
      reflexivity.
    + unfold bind at 1, log, emit.
      replace (<[length pre := IRecord r]> (pre ++ old :: mid ++ post))
        with ((pre ++ [IRecord r]) ++ mid ++ post).
      2:{ rewrite insert_app_r_alt by lia. rewrite Nat.sub_diag. cbn.
          rewrite <- app_assoc. reflexivity. }
      specialize (IH (pre ++ [IRecord r]) mid post n w Hlen).
      rewrite length_app in IH. cbn [length] in IH.
      replace (length pre + 1)%nat with (Datatypes.S (length pre)) in IH by lia.
      rewrite IH. rewrite <- !app_assoc. cbn [app]. reflexivity.
Qed.

(** On queued strings the function neither panics nor touches the
    world: every element keeps its slot, a record where it decoded and
    [nil] where it did not. *)
Lemma processAnalyticsValues_strings (ss : list string) (w : World) :
  processAnalyticsValues (IString <$> ss) w
  = (Next (slot INil <$> ss,
           Z.of_nat (length (List.filter (fun s => negb (decodes s)) ss))),
     w, decodeLog <$> ss).
Proof.
  unfold processAnalyticsValues.
  pose proof (range_strings ss [] (replicate (length ss) INil) [] 0 w) as H.
  rewrite length_replicate, app_nil_r in H. cbn [length app] in H.
  rewrite length_fmap. rewrite H by reflexivity.
  rewrite app_nil_r, Z.add_0_l.
  replace (zip_with slot (replicate (length ss) INil) ss) with (slot INil <$> ss);
    [reflexivity|].
  clear. induction ss as [|s ss IH]; cbn; [reflexivity|]. f_equal. exact IH.
Qed.

Lemma records_of_slots (ss : list string) :
  length (List.filter isRecord (slot INil <$> ss))
  = length (List.filter decodes ss).
Proof.
  induction ss as [|s ss IH]; cbn; [reflexivity|].
  unfold slot at 1, decodes at 1.
  destruct (msgpack_Unmarshal s) as [r [e|]]; cbn; rewrite IH; reflexivity.
Qed.

Lemma nil_slot_of_failure (ss : list string) :
  (0 < length (List.filter (fun s => negb (decodes s)) ss))%nat ->
  INil ∈ slot INil <$> ss.
Proof.
  induction ss as [|s ss IH]; cbn; [lia|].
  unfold slot at 1, decodes at 1.
  destruct (msgpack_Unmarshal s) as [r [e|]]; cbn; intros Hlt.
  - left.
  - right. apply IH, Hlt.
Qed.

Lemma decodeLog_not_read (ss : list string) : keysRead (decodeLog <$> ss) = [].
Proof.
  induction ss as [|s ss IH]; cbn; [reflexivity|].
  unfold decodeLog at 1. destruct (msgpack_Unmarshal s) as [r [e|]]; exact IH.
Qed.

(** One turn of the loop on a queued string. *)
Lemma range_cons_string (i : nat) (s : string) (vs keys : list iface) (n : Z)
    (w : World) :
  processAnalyticsValues_range i (IString s :: vs) keys n w
  = match msgpack_Unmarshal s with
    | (_, Some e) =>
        let r := processAnalyticsValues_range (Datatypes.S i) vs keys (n + 1) w in
        (flowOf r, worldOf r,
         EvLog ErrorLevel [FErr e] "Couldn't unmarshal analytics data" :: eventsOf r)
    | (d, None) =>
        let r := processAnalyticsValues_range (Datatypes.S i) vs
                   (<[i := IRecord d]> keys) n w in
        (flowOf r, worldOf r,
         EvLog DebugLevel [FVal "decoded" (IRecord d)] "Decoded Record" :: eventsOf r)
    end.
Proof.
  cbn [processAnalyticsValues_range decodeAnalyticsRecord]. rewrite bind_ret.
  destruct (msgpack_Unmarshal s) as [d [e|]]; unfold log; rewrite bind_emit;
    reflexivity.
Qed.

(** The loop never reads the store, never leaves the function through a
    [return], and leaves the world as it was; what it computes does not
    depend on the world. *)
Lemma range_frame (vs : list iface) :
  forall (i : nat) (keys : list iface) (n : Z) (w : World),
    worldOf (processAnalyticsValues_range i vs keys n w) = w
    /\ keysRead (eventsOf (processAnalyticsValues_range i vs keys n w)) = []
    /\ argsSent "PurgeAnalyticsData"
         (eventsOf (processAnalyticsValues_range i vs keys n w)) = []
    /\ (forall l, flowOf (processAnalyticsValues_range i vs keys n w) <> Return l)
    /\ (forall w' : World, flowOf (processAnalyticsValues_range i vs keys n w')
                   = flowOf (processAnalyticsValues_range i vs keys n w)).
Proof.
  induction vs as [|v vs IH]; intros i keys n w.
  - cbn. repeat split; intros; discriminate.
  - destruct v as [|s|r];
      try (cbn; repeat split; intros; discriminate).
    assert (Hw := fun w' : World => range_cons_string i s vs keys n w').
    rewrite (Hw w).
    destruct (msgpack_Unmarshal s) as [r [e|]] eqn:E.
    + destruct (IH (Datatypes.S i) keys (n + 1) w) as (H1 & H2 & H3 & H4 & H5).
      repeat split; [exact H1 | exact H2 | exact H3 | exact H4 |].
      intros w'. rewrite (Hw w'). apply H5.
    + destruct (IH (Datatypes.S i) (<[i := IRecord r]> keys) n w)
        as (H1 & H2 & H3 & H4 & H5).
      repeat split; [exact H1 | exact H2 | exact H3 | exact H4 |].
      intros w'. rewrite (Hw w'). apply H5.
Qed.

(** *** The loop body of PurgeCache *)

Lemma storeGetAndDeleteSet_run (k : string) (w : World) :
  storeGetAndDeleteSet k w
  = (Next (GetAndDeleteSet (Store w) k).1,
     mkWorld (GetAndDeleteSet (Store w) k).2 (client w) (addedFuncs w) (dispatcher w),
     [EvGetAndDeleteSet k]).
Proof.
  unfold storeGetAndDeleteSet. rewrite bind_get.
  destruct (GetAndDeleteSet (Store w) k) as [vals s']. cbn [fst snd].
  repeat mstep. reflexivity.
Qed.

Lemma funcClientSingleton_run (f : string) (a : iface) (w : World) :
  funcClientSingleton f a w
  = (Next (FuncClientSingleton (client w) f a).1,
     mkWorld (Store w) (FuncClientSingleton (client w) f a).2
             (addedFuncs w) (dispatcher w),
     [EvFuncClientSingleton f a (FuncClientSingleton (client w) f a).1.2]).
Proof.
  unfold funcClientSingleton. rewrite bind_get.
  destruct (FuncClientSingleton (client w) f a) as [[res err] c']. cbn [fst snd].
  repeat mstep. reflexivity.
Qed.

Lemma clientIsConnected_run (w : World) :
  clientIsConnected w = (Next (ClientIsConnected (client w)), w, []).
Proof. unfold clientIsConnected. repeat mstep. reflexivity. Qed.

Lemma purgeBucket_run (i : Z) (w : World) :
  let k := analyticsKeyName i in
  let w1 := mkWorld (GetAndDeleteSet (Store w) k).2 (client w) (addedFuncs w)
                    (dispatcher w) in
  let r := afterPop i (GetAndDeleteSet (Store w) k).1 w1 in
  purgeBucket i w = (flowOf r, worldOf r, EvGetAndDeleteSet k :: eventsOf r).
Proof.
  intros k w1 r. unfold purgeBucket. fold k.
  rewrite (bind_Next _ _ _ _ _ _ (storeGetAndDeleteSet_run k w)). fold w1.
  cbn [app]. do 2 f_equal; subst r; unfold afterPop;
    (destruct (decide (length (GetAndDeleteSet (Store w) k).1 = 0%nat)) as [E|E];
     [reflexivity|]);
    (destruct (processAnalyticsValues (GetAndDeleteSet (Store w) k).1 w1)
       as [[[[keys failed]|l|msg] w2] evs] eqn:Ep;
     [ rewrite (bind_Next _ _ _ _ _ _ Ep)
     | rewrite (bind_Return _ _ _ _ _ _ Ep); reflexivity
     | rewrite (bind_Panic _ _ _ _ _ _ Ep); reflexivity ]);
    unfold log; mstep;
    cbn [flowOf worldOf eventsOf fst snd];
    (destruct (json_Marshal keys) as [data [err|]];
     [ repeat mstep; reflexivity |]);
    rewrite (bind_Next _ _ _ _ _ _ (funcClientSingleton_run _ _ w2));
    cbn [client Store addedFuncs dispatcher];
    destruct (FuncClientSingleton (client w2) "PurgeAnalyticsData" (IString data))
      as [[res [e|]] c']; cbn [fst snd flowOf worldOf eventsOf];
    repeat mstep; reflexivity.
Qed.

Lemma argsSent_app (f : string) (e1 e2 : list Event) :
  argsSent f (e1 ++ e2) = argsSent f e1 ++ argsSent f e2.
Proof. apply omap_app. Qed.

Lemma keysRead_app (e1 e2 : list Event) :
  keysRead (e1 ++ e2) = keysRead e1 ++ keysRead e2.
Proof. apply omap_app. Qed.

Lemma processAnalyticsValues_frame (vs : list iface) (w : World) :
  worldOf (processAnalyticsValues vs w) = w
  /\ keysRead (eventsOf (processAnalyticsValues vs w)) = []
  /\ argsSent "PurgeAnalyticsData" (eventsOf (processAnalyticsValues vs w)) = []
  /\ (forall l, flowOf (processAnalyticsValues vs w) <> Return l)
  /\ (forall w' : World, flowOf (processAnalyticsValues vs w')
                         = flowOf (processAnalyticsValues vs w)).
Proof. apply range_frame. Qed.

(** (C1) A bucket whose fetched elements are 3 validly encoded records
    and 1 malformed entry: 3 records are decoded and 1 failure is
    counted and logged, but the array handed to json.Marshal and
    forwarded with "PurgeAnalyticsData" has 4 elements, the slot of the
    malformed entry holding nil. *)
Theorem purgeBucket_forwards_nil_slot_of_malformed_entry
    (i : Z) (w : World) (ss : list string) :
  (GetAndDeleteSet (Store w) (analyticsKeyName i)).1 = IString <$> ss ->
  length (List.filter decodes ss) = 3%nat ->
  length (List.filter (fun s => negb (decodes s)) ss) = 1%nat ->
  exists (keys : list iface) (logs : list Event),
    (forall w1 : World,
        processAnalyticsValues (IString <$> ss) w1 = (Next (keys, 1), w1, logs))
    /\ length (List.filter isRecord keys) = 3%nat
    /\ length keys = 4%nat
    /\ INil ∈ keys
    /\ EvLog DebugLevel [] "could not decode 1 records" ∈ eventsOf (purgeBucket i w)
    /\ (forall data, json_Marshal keys = (data, None) ->
         argsSent "PurgeAnalyticsData" (eventsOf (purgeBucket i w)) = [IString data]).
Proof.
  intros Hpop Hok Hbad.
  exists (slot INil <$> ss), (decodeLog <$> ss).
  assert (Hrun : forall w1 : World,
             processAnalyticsValues (IString <$> ss) w1
             = (Next (slot INil <$> ss, 1), w1, decodeLog <$> ss)).
  { intros w1. rewrite processAnalyticsValues_strings, Hbad. reflexivity. }
  assert (Hlen : length ss = 4%nat).
  { rewrite <- (List.filter_length decodes ss). lia. }
  split; [exact Hrun|]. split; [rewrite records_of_slots; exact Hok|].
  split; [rewrite length_fmap; exact Hlen|].
  split; [apply nil_slot_of_failure; lia|].
  rewrite purgeBucket_run. cbn zeta. rewrite Hpop. unfold afterPop.
  destruct (decide (length (IString <$> ss) = 0%nat)) as [E|_].
  { rewrite length_fmap in E. lia. }
  rewrite Hrun. cbn [flowOf worldOf eventsOf fst snd].
  split.
  - destruct (json_Marshal (slot INil <$> ss)) as [data [err|]];
      cbn [eventsOf snd]; right; apply elem_of_app; right; left.
  - intros data Hm. rewrite Hm. cbn [eventsOf snd].
    change (EvGetAndDeleteSet (analyticsKeyName i) :: ?l)
      with ([EvGetAndDeleteSet (analyticsKeyName i)] ++ l).
    rewrite !argsSent_app.
    pose proof (processAnalyticsValues_frame (IString <$> ss) w) as (_ & _ & H3 & _).
    rewrite Hrun in H3. cbn [eventsOf snd] in H3. rewrite H3.
    destruct (FuncClientSingleton _ _ _).1.2; unfold argsSent; cbn;
      rewrite decide_True by reflexivity; reflexivity.
Qed.

Lemma afterPop_frame (i : Z) (vals : list iface) (w1 : World) :
  Store (worldOf (afterPop i vals w1)) = Store w1
  /\ keysRead (eventsOf (afterPop i vals w1)) = [].
Proof.
  unfold afterPop. destruct (decide (length vals = 0%nat)) as [E|E];
    [split; reflexivity|].
  destruct (processAnalyticsValues_frame vals w1) as (Hw & Hr & _).
  destruct (processAnalyticsValues vals w1) as [[[[keys n]|l|msg] w2] evs];
    cbn [flowOf worldOf eventsOf fst snd] in *; subst w2;
    [|split; [reflexivity|exact Hr]..].
  destruct (json_Marshal keys) as [data [err|]];
    cbn [flowOf worldOf eventsOf fst snd Store]; (split; [reflexivity|]);
    rewrite keysRead_app, Hr; [reflexivity|].
  destruct (FuncClientSingleton _ _ _).1.2; reflexivity.
Qed.

Lemma purgeBucket_frame (k : Z) (w : World) :
  Store (worldOf (purgeBucket k w)) = (GetAndDeleteSet (Store w) (analyticsKeyName k)).2
  /\ keysRead (eventsOf (purgeBucket k w)) = [analyticsKeyName k].
Proof.
  rewrite purgeBucket_run. cbn zeta. cbn [flowOf worldOf eventsOf fst snd].
  match goal with |- context [afterPop k ?v ?w1] =>
    destruct (afterPop_frame k v w1) as [H1 H2] end.
  split; [exact H1|]. cbn. f_equal. exact H2.
Qed.

(** The loop body returns exactly when marshalling fails; the answer of
    the remote call is not among the reasons. *)
Lemma purgeBucket_Return_iff (k : Z) (w : World) (l : exitPoint) :
  flowOf (purgeBucket k w) = Return l
  <-> l = ExitMarshalFailed /\ marshalFails (queued (Store w) (analyticsKeyName k)) w.
Proof.
  rewrite purgeBucket_run. cbn zeta. cbn [flowOf fst].
  rewrite GetAndDeleteSet_pops. unfold afterPop, marshalFails.
  set (vals := queued (Store w) (analyticsKeyName k)).
  set (w1 := mkWorld _ _ _ _).
  destruct (processAnalyticsValues_frame vals w1) as (_ & _ & _ & Hnr & Hfl).
  rewrite (Hfl w).
  destruct (decide (length vals = 0%nat)) as [E|E].
  - cbn. split; [discriminate|]. intros [_ [Hne _]].
    destruct vals; [congruence|discriminate].
  - assert (Hne : vals <> []) by (intros ->; apply E; reflexivity).
    destruct (flowOf (processAnalyticsValues vals w1)) as [[keys n]|l'|msg] eqn:Ef.
    + destruct (json_Marshal keys) as [data [err|]] eqn:Em; cbn.
      * split.
        -- intros [= <-]. split; [reflexivity|]. split; [exact Hne|].
           exists keys, n, err. rewrite Em. split; reflexivity.
        -- intros [-> _]. reflexivity.
      * split; [discriminate|].
        intros [_ [_ (keys' & n' & e & [= <- <-] & He)]].
        rewrite Em in He. discriminate.
    + exfalso. apply (Hnr l'). reflexivity.
    + cbn. split; [discriminate|].
      intros [_ [_ (keys' & n' & e & Hf & _)]]. discriminate.
Qed.

Lemma forBuckets_cons (k : Z) (rest : list Z) (w : World) :
  forBuckets (k :: rest) w
  = match flowOf (purgeBucket k w) with
    | Next _ =>
        let r := forBuckets rest (worldOf (purgeBucket k w)) in
        (flowOf r, worldOf r, eventsOf (purgeBucket k w) ++ eventsOf r)
    | _ => purgeBucket k w
    end.
Proof.
  cbn [forBuckets].
  destruct (purgeBucket k w) as [[[[]|l|msg] w1] evs] eqn:E;
    cbn [flowOf worldOf eventsOf fst snd].
  - apply (bind_Next (purgeBucket k) (fun _ => forBuckets rest) _ _ _ _ E).
  - apply (bind_Return (purgeBucket k) (fun _ => forBuckets rest) _ _ _ _ E).
  - apply (bind_Panic (purgeBucket k) (fun _ => forBuckets rest) _ _ _ _ E).
Qed.

(** Once the loop stands before a bucket whose values do not marshal,
    the buckets behind it are out of reach: whatever happens in the
    buckets [pre] before it, only keys of [pre] and of bucket [i] are
    read, and every other queue is as it was. *)
Lemma forBuckets_stops (i : Z) (post : list Z) (pre : list Z) :
  forall w : World,
    analyticsKeyName i ∉ analyticsKeyName <$> pre ->
    marshalFails (queued (Store w) (analyticsKeyName i)) w ->
    let r := forBuckets (pre ++ i :: post) w in
    flowOf r <> Next tt
    /\ (forall k, k ∈ keysRead (eventsOf r) -> k ∈ analyticsKeyName <$> (pre ++ [i]))
    /\ (forall k, k ∉ analyticsKeyName <$> (pre ++ [i]) ->
                  queued (Store (worldOf r)) k = queued (Store w) k).
Proof.
  induction pre as [|k0 pre IH]; intros w Hfresh Hfail; cbn zeta.
  - cbn [app]. rewrite forBuckets_cons.
    assert (Hret : flowOf (purgeBucket i w) = Return ExitMarshalFailed)
      by (apply purgeBucket_Return_iff; split; [reflexivity|exact Hfail]).
    rewrite Hret. destruct (purgeBucket_frame i w) as [Hs Hr].
    rewrite Hret, Hr, Hs. split; [discriminate|]. split.
    + intros k Hk. exact Hk.
    + intros k Hk. apply GetAndDeleteSet_frame.
      intros ->. apply Hk. left.
  - cbn [app]. rewrite forBuckets_cons.
    destruct (purgeBucket_frame k0 w) as [Hs Hr].
    assert (Hne : analyticsKeyName i <> analyticsKeyName k0).
    { intros E. apply Hfresh. rewrite E. left. }
    destruct (flowOf (purgeBucket k0 w)) as [[]|l|msg] eqn:Ef.
    + assert (Hfresh' : analyticsKeyName i ∉ analyticsKeyName <$> pre).
      { intros Hin. apply Hfresh. right. exact Hin. }
      assert (Hfail' : marshalFails
                (queued (Store (worldOf (purgeBucket k0 w))) (analyticsKeyName i))
                (worldOf (purgeBucket k0 w))).
      { rewrite Hs, GetAndDeleteSet_frame by exact Hne.
        destruct Hfail as (Hv & keys & n & e & Hf & He).
        split; [exact Hv|]. exists keys, n, e. split; [|exact He].
        destruct (processAnalyticsValues_frame
                    (queued (Store w) (analyticsKeyName i)) w) as (_ & _ & _ & _ & Hfl).
        rewrite Hfl. exact Hf. }
      destruct (IH (worldOf (purgeBucket k0 w)) Hfresh' Hfail') as (H1 & H2 & H3).
      cbn zeta. cbn [flowOf worldOf eventsOf fst snd]. split; [exact H1|]. split.
      * intros k. rewrite keysRead_app, Hr. intros [Hk|Hk]%elem_of_app.
        -- apply list_elem_of_singleton in Hk as ->. left.
        -- right. apply H2, Hk.
      * intros k Hk. rewrite H3.
        -- rewrite Hs. apply GetAndDeleteSet_frame. intros ->. apply Hk. left.
        -- intros Hin. apply Hk. right. exact Hin.
    + rewrite Ef, Hr, Hs. split; [discriminate|]. split.
      * intros k Hk. apply list_elem_of_singleton in Hk as ->. left.
      * intros k Hk. apply GetAndDeleteSet_frame. intros ->. apply Hk. left.
    + rewrite Ef, Hr, Hs. split; [discriminate|]. split.
      * intros k Hk. apply list_elem_of_singleton in Hk as ->. left.
      * intros k Hk. apply GetAndDeleteSet_frame. intros ->. apply Hk. left.
Qed.

(** *** PurgeCache *)

(** (C4) When the preflight "Ping" call returns an error, PurgeCache
    returns at once: the store is the one it started with and
    GetAndDeleteSet was not called. *)
Theorem PurgeCache_ping_error_leaves_store (w : World) (e : error) :
  (FuncClientSingleton (client w) "Ping" INil).1.2 = Some e ->
  flowOf (PurgeCache w) = Return ExitPingFailed
  /\ Store (worldOf (PurgeCache w)) = Store w
  /\ keysRead (eventsOf (PurgeCache w)) = []
  /\ (forall k, EvGetAndDeleteSet k ∉ eventsOf (PurgeCache w)).
Proof.
  intros Hping.
  assert (Hrun : exists evs,
             PurgeCache w
             = (Return ExitPingFailed,
                mkWorld (Store w) (FuncClientSingleton (client w) "Ping" INil).2
                        (addedFuncs w) (dispatcher w), evs)
             /\ keysRead evs = []).
  { unfold PurgeCache.
    rewrite (bind_Next _ _ _ _ _ _ (clientIsConnected_run w)).
    destruct (ClientIsConnected (client w)); cbn [negb when]; unfold log;
      repeat mstep;
      rewrite (bind_Next _ _ _ _ _ _ (funcClientSingleton_run _ _ w));
      destruct (FuncClientSingleton (client w) "Ping" INil) as [[res err] c'];
      cbn [fst snd] in *; subst err; repeat mstep;
      cbn [flowOf worldOf eventsOf fst snd app]; eexists; split; reflexivity. }
  destruct Hrun as (evs & Hrun & Hread). rewrite Hrun.
  cbn [flowOf worldOf eventsOf fst snd Store].
  repeat split; try assumption.
  intros k Hin. assert (Hk : k ∈ keysRead evs).
  { unfold keysRead. apply list_elem_of_omap. exists (EvGetAndDeleteSet k).
    split; [exact Hin | reflexivity]. }
  rewrite Hread in Hk. inversion Hk.
Qed.

Lemma PurgeCache_run (w : World) :
  let c := FuncClientSingleton (client w) "Ping" INil in
  let w' := mkWorld (Store w) c.2 (addedFuncs w) (dispatcher w) in
  let pre :=
    (if ClientIsConnected (client w) then []
     else [EvLog ErrorLevel [] "RPC client is not connected, use Connect method 1st"])
    ++ [EvFuncClientSingleton "Ping" INil c.1.2] in
  PurgeCache w
  = match c.1.2 with
    | Some e =>
        (Return ExitPingFailed, w',
         pre ++ [EvLog ErrorLevel [FErr e] "Can't purge cache, failed to ping RPC"])
    | None =>
        let r := forBuckets bucketIndices w' in
        (flowOf r, worldOf r, pre ++ eventsOf r)
    end.
Proof.
  cbn zeta. unfold PurgeCache.
  rewrite (bind_Next _ _ _ _ _ _ (clientIsConnected_run w)).
  destruct (ClientIsConnected (client w)); cbn [negb when]; unfold log;
    repeat mstep;
    rewrite (bind_Next _ _ _ _ _ _ (funcClientSingleton_run _ _ w));
    destruct (FuncClientSingleton (client w) "Ping" INil) as [[res [e|]] c'];
    cbn [fst snd]; repeat mstep; reflexivity.
Qed.

Lemma analyticsKeyName_inj (a b : Z) :
  -1 <= a <= 9 -> -1 <= b <= 9 ->
  analyticsKeyName a = analyticsKeyName b -> a = b.
Proof.
  intros Ha Hb E.
  assert (H : forallb (fun a => forallb (fun b =>
                implb (String.eqb (analyticsKeyName a) (analyticsKeyName b))
                      (Z.eqb a b)) bucketIndices) bucketIndices = true)
    by (vm_compute; reflexivity).
  rewrite forallb_forall in H.
  assert (Hin : forall x, -1 <= x <= 9 -> In x bucketIndices).
  { intros x Hx. apply list_elem_of_In, elem_of_seqZ. lia. }
  specialize (H a (Hin a Ha)). rewrite forallb_forall in H.
  specialize (H b (Hin b Hb)). rewrite E, String.eqb_refl in H.
  apply Z.eqb_eq, H.
Qed.

Lemma bucketIndices_split (i : Z) :
  -1 <= i <= 9 ->
  bucketIndices = seqZ (-1) (i + 1) ++ i :: seqZ (i + 1) (9 - i).
Proof.
  intros Hi. unfold bucketIndices.
  replace 11 with ((i + 1) + (10 - i)) by lia.
  rewrite seqZ_app by lia. f_equal.
  replace (-1 + (i + 1)) with i by lia.
  rewrite seqZ_cons by lia. f_equal. f_equal; lia.
Qed.

Lemma purgeBucket_Next (k : Z) (w1 : World) (keys : list iface) (n : Z) (data : string) :
  flowOf (processAnalyticsValues (queued (Store w1) (analyticsKeyName k)) w1)
    = Next (keys, n) ->
  json_Marshal keys = (data, None) ->
  flowOf (purgeBucket k w1) = Next tt.
Proof.
  intros Hf Hm. rewrite purgeBucket_run. cbn zeta. cbn [flowOf fst].
  rewrite GetAndDeleteSet_pops. unfold afterPop.
  destruct (decide _) as [E|E]; [reflexivity|].
  match goal with |- context [processAnalyticsValues ?v ?w0] =>
    destruct (processAnalyticsValues_frame v w0) as (_ & _ & _ & _ & Hfl) end.
  rewrite <- (Hfl w1), Hf, Hm. reflexivity.
Qed.

(** (C10) When json.Marshal fails on the records decoded from bucket
    [i], the loop body returns from PurgeCache there and then; the cycle
    does not run to its end, and no bucket after [i] in the order
    -1..9 is read or drained. A failing remote call is different: the
    body completes and the loop goes on with the next bucket. *)
Theorem PurgeCache_marshal_error_skips_later_buckets (w : World) (i : Z) :
  -1 <= i <= 9 ->
  marshalFails (queued (Store w) (analyticsKeyName i)) w ->
  (forall rest, forBuckets (i :: rest) w = purgeBucket i w)
  /\ flowOf (purgeBucket i w) = Return ExitMarshalFailed
  /\ flowOf (PurgeCache w) <> Next tt
  /\ (forall j, i < j <= 9 ->
        (analyticsKeyName j ∉ keysRead (eventsOf (PurgeCache w)))
        /\ queued (Store (worldOf (PurgeCache w))) (analyticsKeyName j)
           = queued (Store w) (analyticsKeyName j))
  /\ (forall (k : Z) (w1 : World) keys n data e rest,
        flowOf (processAnalyticsValues (queued (Store w1) (analyticsKeyName k)) w1)
          = Next (keys, n) ->
        json_Marshal keys = (data, None) ->
        (FuncClientSingleton (client w1) "PurgeAnalyticsData" (IString data)).1.2
          = Some e ->
        flowOf (purgeBucket k w1) = Next tt
        /\ keysRead (eventsOf (forBuckets (k :: rest) w1))
           = analyticsKeyName k
             :: keysRead (eventsOf (forBuckets rest (worldOf (purgeBucket k w1))))).
Proof.
  intros Hi Hfail.
  assert (Hret : flowOf (purgeBucket i w) = Return ExitMarshalFailed)
    by (apply purgeBucket_Return_iff; split; [reflexivity|exact Hfail]).
  split; [|split; [exact Hret|]].
  { intros rest. rewrite forBuckets_cons, Hret. reflexivity. }
  assert (Hcycle :
    flowOf (PurgeCache w) <> Next tt
    /\ (forall k, k ∈ keysRead (eventsOf (PurgeCache w)) ->
                  k ∈ analyticsKeyName <$> (seqZ (-1) (i + 1) ++ [i]))
    /\ (forall k, k ∉ analyticsKeyName <$> (seqZ (-1) (i + 1) ++ [i]) ->
                  queued (Store (worldOf (PurgeCache w))) k = queued (Store w) k)).
  { rewrite PurgeCache_run. cbn zeta.
    set (c := FuncClientSingleton (client w) "Ping" INil).
    set (pre := _ ++ [EvFuncClientSingleton "Ping" INil c.1.2]).
    assert (Hpre : keysRead pre = []).
    { subst pre. destruct (ClientIsConnected (client w)); reflexivity. }
    destruct (c.1.2) as [e|].
    - cbn [flowOf worldOf eventsOf fst snd Store]. split; [discriminate|].
      rewrite keysRead_app, Hpre. split; [|reflexivity].
      intros k Hk. inversion Hk.
    - set (w' := mkWorld (Store w) c.2 (addedFuncs w) (dispatcher w)).
      assert (Hfail' : marshalFails (queued (Store w') (analyticsKeyName i)) w').
      { destruct Hfail as (Hv & keys & n & e & Hf & He).
        split; [exact Hv|]. exists keys, n, e. split; [|exact He].
        cbn [Store w'].
        destruct (processAnalyticsValues_frame
                    (queued (Store w) (analyticsKeyName i)) w) as (_ & _ & _ & _ & Hfl).
        rewrite Hfl. exact Hf. }
      assert (Hfresh : analyticsKeyName i ∉ analyticsKeyName <$> seqZ (-1) (i + 1)).
      { intros (k & Hk & Hin)%list_elem_of_fmap. apply elem_of_seqZ in Hin.
        apply analyticsKeyName_inj in Hk; lia. }
      rewrite (bucketIndices_split i Hi).
      destruct (forBuckets_stops i (seqZ (i + 1) (9 - i)) (seqZ (-1) (i + 1)) w'
                  Hfresh Hfail') as (H1 & H2 & H3).
      cbn [flowOf worldOf eventsOf fst snd]. split; [exact H1|].
      rewrite keysRead_app, Hpre. split; [exact H2|exact H3]. }
  destruct Hcycle as (Hc1 & Hc2 & Hc3).
  split; [exact Hc1|]. split.
  - intros j Hj.
    assert (Hout : analyticsKeyName j ∉ analyticsKeyName <$> (seqZ (-1) (i + 1) ++ [i])).
    { intros (k & Hk & Hin)%list_elem_of_fmap.
      assert (-1 <= k <= i).
      { apply elem_of_app in Hin as [Hin|Hin].
        - apply elem_of_seqZ in Hin. lia.
        - apply list_elem_of_singleton in Hin. lia. }
      apply analyticsKeyName_inj in Hk; lia. }
    split; [|apply Hc3, Hout].
    intros Hin. apply Hout, Hc2, Hin.
  - intros k w1 keys n data e rest Hf Hm _.
    pose proof (purgeBucket_Next k w1 keys n data Hf Hm) as Hn.
    split; [exact Hn|].
    rewrite forBuckets_cons, Hn. cbn zeta. cbn [eventsOf snd].
    rewrite keysRead_app. destruct (purgeBucket_frame k w1) as [_ ->]. reflexivity.
Qed.

(** *** Connect *)

Lemma addedFuncsGet_run (name : string) (w : World) :
  @addedFuncsGet AnalyticsRecord S R name w
  = (Next (default false (addedFuncs w !! name)), w, []).
Proof. unfold addedFuncsGet. repeat mstep. reflexivity. Qed.

(** [dispatcher.AddFunc(name, f); addedFuncs[name] = true]. *)
Lemma register_run (name : string) (f : RPCFunc) (w : World) :
  (dispatcherAddFunc name f;; addedFuncsSetTrue name : Cmd AnalyticsRecord S R unit) w
  = (Next tt,
     mkWorld (Store w) (client w) (<[name := true]> (addedFuncs w))
             (dispatcher w ++ [(name, f)]),
     [EvAddFunc name f]).
Proof.
  unfold dispatcherAddFunc, addedFuncsSetTrue.
  rewrite (bind_Next (do w0 <- get; _) _ w tt
             (mkWorld (Store w) (client w) (addedFuncs w) (dispatcher w ++ [(name, f)]))
             [EvAddFunc name f]).
  - repeat mstep. reflexivity.
  - repeat mstep. reflexivity.
Qed.

Lemma registerStep_run {B : Type} (name : string) (f : RPCFunc)
    (k : Cmd AnalyticsRecord S R B) (w : World) :
  (do added <- addedFuncsGet name;
   when (negb added) (dispatcherAddFunc name f;; addedFuncsSetTrue name);; k) w
  = (flowOf (k (registerOnce name f w).1), worldOf (k (registerOnce name f w).1),
     (registerOnce name f w).2 ++ eventsOf (k (registerOnce name f w).1)).
Proof.
  rewrite (bind_Next _ _ _ _ _ _ (addedFuncsGet_run name w)). unfold Obs.registerOnce.
  destruct (default false (addedFuncs w !! name)); cbn [negb when fst snd app].
  - mstep. reflexivity.
  - rewrite (bind_Next _ _ _ _ _ _ (register_run name f w)). reflexivity.
Qed.

Lemma Connect_run (w : World) :
  let r1 := registerOnce "Ping" pingStub w in
  let r2 := registerOnce "PurgeAnalyticsData" purgeAnalyticsDataStub r1.1 in
  Connect w
  = (Next tt, r2.1,
     (if ClientIsConnected (client w) then []
      else [EvLog ErrorLevel [] "RPC client is not connected, use Connect method 1st"])
     ++ r1.2 ++ r2.2 ++ [EvLog InfoLevel [] "RPC Analytics client using singleton"]).
Proof.
  cbn zeta. unfold Connect.
  rewrite (bind_Next _ _ _ _ _ _ (clientIsConnected_run w)).
  destruct (ClientIsConnected (client w)); cbn [negb when]; unfold log;
    repeat mstep; rewrite !registerStep_run;
    cbn [flowOf worldOf eventsOf fst snd app]; rewrite <- ?app_assoc; reflexivity.
Qed.

Lemma registerOnce_flag (name : string) (f : RPCFunc) (w : World) :
  default false (addedFuncs (registerOnce name f w).1 !! name) = true
  /\ (forall other, default false (addedFuncs w !! other) = true ->
                    default false (addedFuncs (registerOnce name f w).1 !! other) = true)
  /\ (default false (addedFuncs w !! name) = true -> (registerOnce name f w).2 = []).
Proof.
  unfold Obs.registerOnce.
  destruct (default false (addedFuncs w !! name)) eqn:E; cbn [fst snd addedFuncs].
  - repeat split; auto.
  - split; [rewrite lookup_insert_eq; reflexivity|]. split; [|discriminate].
    intros other Ho. destruct (decide (name = other)) as [->|Hne].
    + rewrite lookup_insert_eq. reflexivity.
    + rewrite lookup_insert_ne by exact Hne. exact Ho.
Qed.

Lemma times_S (n : nat) (c : Cmd AnalyticsRecord S R unit) (w : World) :
  flowOf (c w) = Next tt ->
  times (Datatypes.S n) c w
  = (flowOf (times n c (worldOf (c w))), worldOf (times n c (worldOf (c w))),
     eventsOf (c w) ++ eventsOf (times n c (worldOf (c w)))).
Proof.
  intros Hf. cbn [times].
  apply (bind_Next c (fun _ => times n c) w tt (worldOf (c w)) (eventsOf (c w))).
  rewrite <- Hf. apply run_eta.
Qed.

Lemma namesAdded_app (e1 e2 : list Event) :
  namesAdded (e1 ++ e2) = namesAdded e1 ++ namesAdded e2.
Proof. apply omap_app. Qed.

Lemma Connect_names (w : World) :
  flowOf (Connect w) = Next tt
  /\ namesAdded (eventsOf (Connect w))
     = (if default false (addedFuncs w !! "Ping") then [] else ["Ping"])
       ++ (if default false (addedFuncs w !! "PurgeAnalyticsData") then []
           else ["PurgeAnalyticsData"])
  /\ default false (addedFuncs (worldOf (Connect w)) !! "Ping") = true
  /\ default false (addedFuncs (worldOf (Connect w)) !! "PurgeAnalyticsData") = true.
Proof.
  rewrite Connect_run. cbn zeta. cbn [flowOf worldOf eventsOf fst snd].
  split; [reflexivity|].
  destruct (registerOnce_flag "Ping" pingStub w) as (Hp1 & Hp2 & _).
  destruct (registerOnce_flag "PurgeAnalyticsData" purgeAnalyticsDataStub
              (registerOnce "Ping" pingStub w).1) as (Hq1 & Hq2 & _).
  split; [|split; [apply Hq2, Hp1|exact Hq1]].
  rewrite !namesAdded_app.
  replace (namesAdded (if ClientIsConnected (client w) then [] else _)) with (@nil string)
    by (destruct (ClientIsConnected (client w)); reflexivity).
  assert (Hnames : forall name f (w0 : World),
             namesAdded (registerOnce name f w0).2
             = if default false (addedFuncs w0 !! name) then [] else [name]).
  { intros name f w0. unfold Obs.registerOnce.
    destruct (default false (addedFuncs w0 !! name)); reflexivity. }
  rewrite !Hnames.
  assert (Hsame : addedFuncs (registerOnce "Ping" pingStub w).1 !! "PurgeAnalyticsData"
                  = addedFuncs w !! "PurgeAnalyticsData").
  { unfold Obs.registerOnce. destruct (default false (addedFuncs w !! "Ping"));
      cbn [fst addedFuncs]; [reflexivity|].
    apply lookup_insert_ne. discriminate. }
  rewrite Hsame.
  destruct (default false (addedFuncs w !! "Ping")),
           (default false (addedFuncs w !! "PurgeAnalyticsData")); reflexivity.
Qed.

Lemma Connect_stubs (w : World) (name : string) (f : RPCFunc) :
  EvAddFunc name f ∈ eventsOf (Connect w) ->
  (name = "Ping" /\ answersFalse f)
  \/ (name = "PurgeAnalyticsData" /\ answersSuccess f).
Proof.
  rewrite Connect_run. cbn zeta. cbn [eventsOf snd]. unfold Obs.registerOnce.
  intros Hin.
  repeat (apply elem_of_app in Hin as [Hin|Hin]).
  - destruct (ClientIsConnected (client w)); [inversion Hin|].
    apply list_elem_of_singleton in Hin. discriminate.
  - destruct (default false (addedFuncs w !! "Ping")); cbn [snd] in Hin;
      [inversion Hin|].
    apply list_elem_of_singleton in Hin. injection Hin as -> ->.
    left. split; [reflexivity|]. intros u. reflexivity.
  - destruct (default false (_ !! "PurgeAnalyticsData")); cbn [snd] in Hin;
      [inversion Hin|].
    apply list_elem_of_singleton in Hin. injection Hin as -> ->.
    right. split; [reflexivity|]. intros d. reflexivity.
  - apply list_elem_of_singleton in Hin. discriminate.
Qed.

Lemma times_Connect_registered (n : nat) :
  forall w : World,
    default false (addedFuncs w !! "Ping") = true ->
    default false (addedFuncs w !! "PurgeAnalyticsData") = true ->
    namesAdded (eventsOf (times n Connect w)) = [].
Proof.
  induction n as [|n IH]; intros w Hp Hq; [reflexivity|].
  destruct (Connect_names w) as (Hf & Hn & Hp' & Hq').
  rewrite (times_S n Connect w Hf). cbn [eventsOf snd].
  rewrite namesAdded_app, Hn, Hp, Hq, (IH _ Hp' Hq'). reflexivity.
Qed.

(** (C8) However often Connect is called in a row, and whatever the
    state it starts from, dispatcher.AddFunc is called at most once with
    "Ping" and at most once with "PurgeAnalyticsData"; the function
    registered as "Ping" answers false and the one registered as
    "PurgeAnalyticsData" answers nil (success). *)
Theorem Connect_registers_each_stub_at_most_once (n : nat) (w : World) :
  (registrations "Ping" (eventsOf (times n Connect w)) <= 1)%nat
  /\ (registrations "PurgeAnalyticsData" (eventsOf (times n Connect w)) <= 1)%nat
  /\ (forall name f, EvAddFunc name f ∈ eventsOf (times n Connect w) ->
         (name = "Ping" /\ answersFalse f)
         \/ (name = "PurgeAnalyticsData" /\ answersSuccess f)).
Proof.
  split; [|split].
  1,2: destruct n as [|n]; [cbn; lia|];
    destruct (Connect_names w) as (Hf & Hn & Hp' & Hq');
    rewrite (times_S n Connect w Hf); cbn [eventsOf snd]; unfold registrations;
    rewrite namesAdded_app, Hn, (times_Connect_registered n _ Hp' Hq'), app_nil_r;
    destruct (default false (addedFuncs w !! "Ping")),
             (default false (addedFuncs w !! "PurgeAnalyticsData")); cbn; lia.
  revert w. induction n as [|n IH]; intros w name f Hin; [inversion Hin|].
  destruct (Connect_names w) as (Hf & _).
  rewrite (times_S n Connect w Hf) in Hin. cbn [eventsOf snd] in Hin.
  apply elem_of_app in Hin as [Hin|Hin].
  - apply (Connect_stubs w), Hin.
  - apply (IH _ _ _ Hin).
Qed.
End Purger.

Import Sample.

Lemma purgeBucket_forwards_nil_slot_of_malformed_entry_witness :
  exists (keys : list (iface Record_)) (logs : list (Event Record_)),
    (forall w1 : World store link,
        processAnalyticsValues (IString <$> mixed) w1 = (Next (keys, 1), w1, logs))
    /\ length (List.filter isRecord keys) = 3%nat
    /\ length keys = 4%nat
    /\ INil ∈ keys
    /\ EvLog DebugLevel [] "could not decode 1 records"
         ∈ eventsOf (purgeBucket (-1) (world queues Up))
    /\ (forall data, json_Marshal keys = (data, None) ->
         argsSent "PurgeAnalyticsData" (eventsOf (purgeBucket (-1) (world queues Up)))
         = [IString data]).
Proof.
  apply (purgeBucket_forwards_nil_slot_of_malformed_entry (-1) (world queues Up) mixed).
  - vm_compute. reflexivity.
  - vm_compute. reflexivity.
  - vm_compute. reflexivity.
Defined.

Lemma PurgeCache_ping_error_leaves_store_witness :
  flowOf (PurgeCache (world queues Down)) = Return ExitPingFailed
  /\ Store (worldOf (PurgeCache (world queues Down))) = Store (world queues Down)
  /\ keysRead (eventsOf (PurgeCache (world queues Down))) = []
  /\ (forall k, EvGetAndDeleteSet k ∉ eventsOf (PurgeCache (world queues Down))).
Proof.
  apply (PurgeCache_ping_error_leaves_store (world queues Down) "rpc: connection refused").
  vm_compute. reflexivity.
Defined.

Lemma PurgeCache_marshal_error_skips_later_buckets_witness :
  queued (Store (worldOf (PurgeCache (world queues Up)))) (analyticsKeyName 5)
  = [IString "rec:z"]
  /\ analyticsKeyName 5 ∉ keysRead (eventsOf (PurgeCache (world queues Up))).
Proof.
  assert (H : marshalFails (queued (Store (world queues Up)) (analyticsKeyName 3))
                           (world queues Up)).
  { split; [vm_compute; discriminate|].
    exists [IRecord "rec:NaN"], 0, "json: unsupported value".
    split; vm_compute; reflexivity. }
  destruct (PurgeCache_marshal_error_skips_later_buckets (world queues Up) 3
              ltac:(lia) H) as (_ & _ & _ & Hlater & _).
  destruct (Hlater 5 ltac:(lia)) as [Hunread Hkept].
  split; [rewrite Hkept; vm_compute; reflexivity | exact Hunread].
Defined.
End RpcSpec.

(** ** Properties of the DRL notifications and of configuration push/pull *)
Module GatewaySpec.
Import Go Obs GoFacts Gateway.
Local Open Scope go_scope.

(** *** sanitizeConfig *)

Lemma sanitizeConfig_lookup {V : Type} (mc : gmap string V) (k : string) :
  sanitizeConfig mc !! k = if decide (k ∈ sanitzeFields) then None else mc !! k.
Proof.
  unfold sanitizeConfig, sanitzeFields. cbn [foldl].
  destruct (decide (k ∈ _)) as [Hin|Hout].
  - repeat (apply elem_of_cons in Hin as [->|Hin];
            [rewrite ?lookup_delete; repeat case_decide; congruence|]).
    inversion Hin.
  - rewrite !lookup_delete.
    repeat (case_decide; [subst k; exfalso; apply Hout;
                          repeat (first [left; reflexivity | right])|]).
    reflexivity.
Qed.

(** (C5) sanitizeConfig removes the five top-level keys "secret",
    "node_secret", "storage", "slave_options" and "auth_override" and
    nothing else: every other key keeps its value. On
    {"secret":"x","storage":{},"port":8080} the result is {"port":8080}. *)
Theorem sanitizeConfig_removes_exactly_sensitive_keys :
  (forall (V : Type) (mc : gmap string V) (k : string),
      (k ∈ [ "secret"; "node_secret"; "storage"; "slave_options"; "auth_override" ]
       -> sanitizeConfig mc !! k = None)
      /\ (k ∉ [ "secret"; "node_secret"; "storage"; "slave_options"; "auth_override" ]
          -> sanitizeConfig mc !! k = mc !! k))
  /\ sanitizeConfig
       ({[ "secret" := Sample.JString "x";
           "storage" := Sample.JObject [] [];
           "port" := Sample.JNumber 8080 ]} : gmap string Sample.jvalue)
     = {[ "port" := Sample.JNumber 8080 ]}.
Proof.
  split.
  - intros V mc k. rewrite sanitizeConfig_lookup. fold sanitzeFields.
    split; intros H; [rewrite decide_True | rewrite decide_False]; auto.
  - vm_compute. reflexivity.
Qed.

Ltac passed :=
  unfold passedAddressing; split; [discriminate|split; discriminate].

Section Gateway.
Context {Config DRL V : Type} {env : Env Config DRL V}.

Local Abbreviation World := (World DRL).
Local Abbreviation Event := (Event Config).
Local Abbreviation Gateway := (Gateway.Gateway Config).
Local Abbreviation Cmd := (Cmd Config DRL).

Lemma ioutil_WriteFile_run (name data : string) (perm : Z) (w : World) :
  ioutil_WriteFile name data perm w
  = match WriteFile_error (files w) name data with
    | Some e => (Next (Some e), w, [EvWriteFile name data perm (Some e)])
    | None =>
        (Next None, mkWorld (<[name := data]> (files w)) (DRLManager w) (GlobalRate w),
         [EvWriteFile name data perm None])
    end.
Proof.
  unfold ioutil_WriteFile. mstep.
  destruct (WriteFile_error (files w) name data); repeat mstep; reflexivity.
Qed.

Lemma backupConfiguration_run (gw : Gateway) (w : World) :
  backupConfiguration gw w
  = match json_MarshalIndent_Config (GetConfig gw) "" "    " with
    | (_, Some err) => (Next (Some err), w, [])
    | (oldConfig, None) => ioutil_WriteFile backupName oldConfig 420 w
    end.
Proof.
  unfold backupConfiguration, backupName.
  destruct (json_MarshalIndent_Config (GetConfig gw) "" "    ") as [o [e|]];
    reflexivity.
Qed.

(** backupConfiguration always comes back with its verdict; when the
    verdict is an error no file has changed and no write succeeded, and
    when it is [nil] its one effect is the write of the backup file. *)
Lemma backupConfiguration_cases (gw : Gateway) (w : World) :
  (exists e evs,
      backupConfiguration gw w = (Next (Some e), w, evs)
      /\ (forall ev, ev ∈ evs -> exists name data perm e', ev = EvWriteFile name data perm (Some e')))
  \/ backupConfiguration gw w
     = (Next None,
        mkWorld (<[backupName := backupData gw]> (files w)) (DRLManager w) (GlobalRate w),
        [EvWriteFile backupName (backupData gw) 420 None]).
Proof.
  rewrite backupConfiguration_run. unfold backupData.
  destruct (json_MarshalIndent_Config (GetConfig gw) "" "    ") as [o [e|]];
    cbn [fst].
  - left. exists e, []. split; [reflexivity|]. intros ev Hin. inversion Hin.
  - rewrite ioutil_WriteFile_run.
    destruct (WriteFile_error (files w) backupName o) as [e|].
    + left. eexists e, _. split; [reflexivity|].
      intros ev Hin. apply list_elem_of_singleton in Hin as ->. eauto.
    + right. reflexivity.
Qed.

Lemma syscallKill_run (pid : Z) (sig : Signal) (w : World) :
  syscallKill pid sig w = (Next (syscall_Kill pid sig), w, [EvKill pid sig (syscall_Kill pid sig)]).
Proof. unfold syscallKill. repeat mstep. reflexivity. Qed.

Lemma writeNewConfiguration_run (cp : ConfigPayload Config) (w : World) :
  writeNewConfiguration cp w
  = match json_MarshalIndent_Config (Configuration cp) "" "    " with
    | (_, Some err) => (Next (Some err), w, [])
    | (newConfig, None) =>
        match confPaths with
        | [] => (Panic "index out of range [0] with length 0", w, [])
        | path :: _ => ioutil_WriteFile path newConfig 420 w
        end
    end.
Proof.
  unfold writeNewConfiguration.
  destruct (json_MarshalIndent_Config (Configuration cp) "" "    ") as [o [e|]];
    [reflexivity|].
  destruct confPaths; reflexivity.
Qed.

(** writeNewConfiguration never leaves through a [return] of the
    handler, and its effects are calls of WriteFile. *)
Lemma writeNewConfiguration_shape (cp : ConfigPayload Config) (w : World) :
  (forall l, flowOf (writeNewConfiguration cp w) <> Return l)
  /\ (forall ev, ev ∈ eventsOf (writeNewConfiguration cp w) -> isWrite ev = true).
Proof.
  rewrite writeNewConfiguration_run.
  destruct (json_MarshalIndent_Config (Configuration cp) "" "    ") as [o [e|]].
  - split; [discriminate|]. intros ev Hin. inversion Hin.
  - destruct confPaths as [|path ?].
    + split; [discriminate|]. intros ev Hin. inversion Hin.
    + rewrite ioutil_WriteFile_run.
      destruct (WriteFile_error (files w) path o); (split; [discriminate|]);
        intros ev Hin; apply list_elem_of_singleton in Hin as ->; reflexivity.
Qed.

Lemma handleNewConfiguration_run (gw : Gateway) (payload : string) (w : World) :
  handleNewConfiguration gw payload w
  = match json_Unmarshal_ConfigPayload payload (loadedPayload w) with
    | (_, Some err) =>
        (Return ExitDecodeFailed, w,
         [EvLog ErrorLevel [FErr err] "Failed to decode configuration payload"])
    | (configPayload, None) =>
        if decide (ForHostname configPayload <> Hostname (hostDetails gw)
                   /\ ForNodeID configPayload <> GetNodeID gw) then
          (Return ExitNoMatch, w,
           [EvLog InfoLevel []
              "Configuration update received, no NodeID/Hostname match found"])
        else if negb (AllowRemoteConfig (GetConfig gw)) then
          (Return ExitRemoteConfigNotAllowed, w,
           [EvLog WarnLevel []
              "Ignoring new config: Remote configuration is not allowed for this node."])
        else acceptedRun gw configPayload w
    end.
Proof.
  unfold handleNewConfiguration. mstep. fold (loadedPayload w).
  destruct (json_Unmarshal_ConfigPayload payload (loadedPayload w)) as [cp [err|]];
    [unfold log; repeat mstep; reflexivity|].
  destruct (decide _) as [Hd|Hd]; [unfold log; repeat mstep; reflexivity|].
  destruct (AllowRemoteConfig (GetConfig gw)); cbn [negb];
    [|unfold log; repeat mstep; reflexivity].
  unfold acceptedRun.
  destruct (backupConfiguration gw w) as [[[[e|]|l|msg] w1] ev1] eqn:Eb;
    cbn [flowOf worldOf eventsOf fst snd].
  - rewrite (bind_Next _ _ _ _ _ _ Eb). unfold log. repeat mstep. reflexivity.
  - rewrite (bind_Next _ _ _ _ _ _ Eb).
    destruct (writeNewConfiguration cp w1) as [[[[e|]|l|msg] w2] ev2] eqn:Ew;
      cbn [flowOf worldOf eventsOf fst snd].
    + rewrite (bind_Next _ _ _ _ _ _ Ew). unfold log. repeat mstep. reflexivity.
    + rewrite (bind_Next _ _ _ _ _ _ Ew). unfold log. mstep.
      destruct (decide (PID (hostDetails gw) = 0)) as [Hp|Hp].
      * repeat mstep. cbn [flowOf worldOf eventsOf fst snd]. reflexivity.
      * mstep. rewrite (bind_Next _ _ _ _ _ _ (syscallKill_run _ _ w2)).
        destruct (syscall_Kill (PID (hostDetails gw)) SIGUSR2) as [e|];
          repeat mstep; cbn [flowOf worldOf eventsOf fst snd app]; reflexivity.
    + rewrite (bind_Return _ _ _ _ _ _ Ew). reflexivity.
    + rewrite (bind_Panic _ _ _ _ _ _ Ew). reflexivity.
  - apply (bind_Return _ _ _ _ _ _ Eb).
  - apply (bind_Panic _ _ _ _ _ _ Eb).
Qed.

(** The three ways the accepted part of the handler can begin. *)
Lemma acceptedRun_backup (gw : Gateway) (cp : ConfigPayload Config) (w : World) :
  (exists e,
      flowOf (backupConfiguration gw w) = Next (Some e)
      /\ acceptedRun gw cp w
         = (Return ExitBackupFailed, w,
            [EvLog ErrorLevel [FErr e] "Failed to backup existing configuration"]))
  \/ (exists e,
      flowOf (backupConfiguration gw w) = Next (Some e)
      /\ acceptedRun gw cp w
         = (Return ExitBackupFailed, w,
            [EvWriteFile backupName (backupData gw) 420 (Some e);
             EvLog ErrorLevel [FErr e] "Failed to backup existing configuration"]))
  \/ (flowOf (backupConfiguration gw w) = Next None
      /\ exists rest,
         eventsOf (acceptedRun gw cp w)
         = EvWriteFile backupName (backupData gw) 420 None :: rest
         /\ flowOf (acceptedRun gw cp w) <> Return ExitBackupFailed
         /\ passedAddressing (flowOf (acceptedRun gw cp w))
         /\ (PID (hostDetails gw) = 0 ->
             flowOf (acceptedRun gw cp w) <> Next tt
             /\ forall ev, ev ∈ rest -> isKill ev = false)).
Proof.
  unfold acceptedRun. rewrite backupConfiguration_run, ?ioutil_WriteFile_run.
  unfold backupData.
  destruct (json_MarshalIndent_Config (GetConfig gw) "" "    ") as [o [e|]];
    cbn [fst].
  { left. exists e. split; reflexivity. }
  rewrite ioutil_WriteFile_run.
  destruct (WriteFile_error (files w) backupName o) as [e|];
    cbn [flowOf worldOf eventsOf fst snd].
  { right; left. exists e. split; reflexivity. }
  right; right. split; [reflexivity|].
  set (w1 := mkWorld _ _ _).
  destruct (writeNewConfiguration_shape cp w1) as [Hnr Hev].
  destruct (writeNewConfiguration cp w1) as [[[[e|]|l|msg] w2] ev2];
    cbn [flowOf worldOf eventsOf fst snd app] in *.
  - eexists. split; [reflexivity|]. split; [discriminate|].
    split; [passed|]. intros _. split; [discriminate|].
    intros ev [Hin|Hin]%elem_of_app.
    + specialize (Hev ev Hin). destruct ev; try discriminate; reflexivity.
    + apply list_elem_of_singleton in Hin as ->. reflexivity.
  - destruct (decide (PID (hostDetails gw) = 0)) as [Hp|Hp];
      cbn [flowOf worldOf eventsOf fst snd app].
    + eexists. split; [reflexivity|]. split; [discriminate|].
      split; [passed|]. intros _. split; [discriminate|].
      intros ev [Hin|Hin]%elem_of_app.
      * specialize (Hev ev Hin). destruct ev; try discriminate; reflexivity.
      * repeat (apply elem_of_cons in Hin as [->|Hin]; [reflexivity|]).
        inversion Hin.
    + eexists. split; [reflexivity|]. split; [discriminate|].
      split; [passed|]. intros Hp'. contradiction.
  - exfalso. apply (Hnr l). reflexivity.
  - eexists. split; [reflexivity|]. split; [discriminate|].
    split; [passed|]. intros _. split; [discriminate|].
    intros ev Hin. specialize (Hev ev Hin).
    destruct ev; try discriminate; reflexivity.
Qed.

Lemma acceptedRun_passed (gw : Gateway) (cp : ConfigPayload Config) (w : World) :
  passedAddressing (flowOf (acceptedRun gw cp w)).
Proof.
  destruct (acceptedRun_backup gw cp w)
    as [(e & _ & ->)|[(e & _ & ->)|(_ & rest & _ & _ & H & _)]];
    [| |exact H]; passed.
Qed.

(** The flow of the handler, by the verdict of the addressing check. *)
Lemma handleNewConfiguration_addressing (gw : Gateway) (payload : string) (w : World)
    (cp : ConfigPayload Config) :
  json_Unmarshal_ConfigPayload payload (loadedPayload w) = (cp, None) ->
  (passedAddressing (flowOf (handleNewConfiguration gw payload w))
   <-> ForHostname cp = Hostname (hostDetails gw) \/ ForNodeID cp = GetNodeID gw)
  /\ (handleNewConfiguration gw payload w
      = (Return ExitNoMatch, w,
         [EvLog InfoLevel []
            "Configuration update received, no NodeID/Hostname match found"])
      <-> ForHostname cp <> Hostname (hostDetails gw) /\ ForNodeID cp <> GetNodeID gw).
Proof.
  intros Hd. rewrite handleNewConfiguration_run, Hd.
  destruct (decide _) as [[Hh Hn]|Hno].
  - split.
    + split; [intros (_ & _ & H); exfalso; apply H; reflexivity|].
      intros [E|E]; contradiction.
    + split; [intros _; split; assumption | reflexivity].
  - assert (Hor : ForHostname cp = Hostname (hostDetails gw)
                  \/ ForNodeID cp = GetNodeID gw).
    { destruct (decide (ForHostname cp = Hostname (hostDetails gw))) as [E|E];
        [left; exact E|].
      destruct (decide (ForNodeID cp = GetNodeID gw)) as [E'|E'];
        [right; exact E'|].
      exfalso. apply Hno. split; assumption. }
    assert (Hpass : passedAddressing
              (flowOf (if negb (AllowRemoteConfig (GetConfig gw))
                       then (Return ExitRemoteConfigNotAllowed, w,
                             [EvLog WarnLevel []
                                "Ignoring new config: Remote configuration is not allowed for this node."])
                       else acceptedRun gw cp w))).
    { destruct (AllowRemoteConfig (GetConfig gw)); cbn [negb];
        [apply acceptedRun_passed|].
      passed. }
    split.
    + split; [intros _; exact Hor | intros _; exact Hpass].
    + split; [|intros H; contradiction].
      intros E. exfalso. destruct Hpass as (_ & _ & H). apply H.
      rewrite E. reflexivity.
Qed.

(** (C2) For a payload that decodes, handleNewConfiguration gets past
    its addressing check exactly when ForHostname is the node's
    hostname or ForNodeID is the node's id; when both differ, and only
    then, the payload is ignored: the handler returns at the check
    having done nothing but log the mismatch. *)
Theorem handleNewConfiguration_proceeds_iff_addressed
    (gw : Gateway) (payload : string) (w : World) (cp : ConfigPayload Config) :
  json_Unmarshal_ConfigPayload payload (loadedPayload w) = (cp, None) ->
  (passedAddressing (flowOf (handleNewConfiguration gw payload w))
   <-> ForHostname cp = Hostname (hostDetails gw) \/ ForNodeID cp = GetNodeID gw)
  /\ (handleNewConfiguration gw payload w
      = (Return ExitNoMatch, w,
         [EvLog InfoLevel []
            "Configuration update received, no NodeID/Hostname match found"])
      <-> ForHostname cp <> Hostname (hostDetails gw) /\ ForNodeID cp <> GetNodeID gw).
Proof. apply handleNewConfiguration_addressing. Qed.

(** (C3) For an accepted payload (it decodes, it is addressed to this
    node, remote configuration is allowed): if backupConfiguration
    returns an error the handler returns without any successful write
    and the files, the primary configuration file among them, are what
    they were; and any call of WriteFile the handler makes is either the
    backup itself, as its very first effect, or comes after the backup
    was written successfully. *)
Theorem handleNewConfiguration_backup_before_overwrite
    (gw : Gateway) (payload : string) (w : World) (cp : ConfigPayload Config) :
  json_Unmarshal_ConfigPayload payload (loadedPayload w) = (cp, None) ->
  ForHostname cp = Hostname (hostDetails gw) \/ ForNodeID cp = GetNodeID gw ->
  AllowRemoteConfig (GetConfig gw) = true ->
  (forall e, flowOf (backupConfiguration gw w) = Next (Some e) ->
     flowOf (handleNewConfiguration gw payload w) = Return ExitBackupFailed
     /\ files (worldOf (handleNewConfiguration gw payload w)) = files w
     /\ (forall path, path ∈ confPaths ->
            files (worldOf (handleNewConfiguration gw payload w)) !! path
            = files w !! path)
     /\ (forall name data perm,
            EvWriteFile name data perm None
              ∉ eventsOf (handleNewConfiguration gw payload w)))
  /\ (forall pre name data perm err post,
        eventsOf (handleNewConfiguration gw payload w)
          = pre ++ EvWriteFile name data perm err :: post ->
        (pre = [] /\ name = backupName /\ data = backupData gw)
        \/ EvWriteFile backupName (backupData gw) 420 None ∈ pre).
Proof.
  intros Hd Haddr Hallow. rewrite handleNewConfiguration_run, Hd.
  rewrite decide_False by (intros [Hh Hn]; destruct Haddr; contradiction).
  rewrite Hallow. cbn [negb].
  destruct (acceptedRun_backup gw cp w)
    as [(e & Hb & Hrun)|[(e & Hb & Hrun)|(Hb & rest & Hev & Hfl & _)]].
  - rewrite Hrun. cbn [flowOf worldOf eventsOf fst snd]. split.
    + intros _ _. repeat split.
      intros name data perm Hin. apply list_elem_of_singleton in Hin. discriminate.
    + intros [|ev pre] name data perm err post E; [discriminate|].
      injection E as _ E. destruct pre; discriminate.
  - rewrite Hrun. cbn [flowOf worldOf eventsOf fst snd]. split.
    + intros _ _. repeat split.
      intros name data perm Hin.
      repeat (apply elem_of_cons in Hin as [Hin|Hin]; [discriminate|]).
      inversion Hin.
    + intros [|ev pre] name data perm err post E.
      * injection E as -> -> _ _ _. left. repeat split.
      * injection E as _ E. destruct pre as [|ev' pre]; [discriminate|].
        injection E as _ E. destruct pre; discriminate.
  - split.
    + intros e He. rewrite Hb in He. discriminate.
    + rewrite Hev. intros [|ev pre] name data perm err post E.
      * injection E as -> -> _ _ _. left. repeat split.
      * injection E as <- _. right. left.
Qed.

(** (C6) When the recorded process id is 0, handleNewConfiguration
    sends no signal: no call of syscall.Kill is among its effects,
    whatever the payload and the state of the node, and it never runs
    to the end of its body. *)
Theorem handleNewConfiguration_no_signal_without_pid
    (gw : Gateway) (payload : string) (w : World) :
  PID (hostDetails gw) = 0 ->
  (forall ev, ev ∈ eventsOf (handleNewConfiguration gw payload w) -> isKill ev = false)
  /\ (forall pid sig err,
        EvKill pid sig err ∉ eventsOf (handleNewConfiguration gw payload w))
  /\ flowOf (handleNewConfiguration gw payload w) <> Next tt.
Proof.
  intros Hpid.
  assert (H : (forall ev, ev ∈ eventsOf (handleNewConfiguration gw payload w) ->
                          isKill ev = false)
              /\ flowOf (handleNewConfiguration gw payload w) <> Next tt).
  { rewrite handleNewConfiguration_run.
    destruct (json_Unmarshal_ConfigPayload payload (loadedPayload w)) as [cp [err|]].
    { split; [|discriminate].
      intros ev Hin. apply list_elem_of_singleton in Hin as ->. reflexivity. }
    destruct (decide _) as [_|_].
    { split; [|discriminate].
      intros ev Hin. apply list_elem_of_singleton in Hin as ->. reflexivity. }
    destruct (negb (AllowRemoteConfig (GetConfig gw))).
    { split; [|discriminate].
      intros ev Hin. apply list_elem_of_singleton in Hin as ->. reflexivity. }
    destruct (acceptedRun_backup gw cp w)
      as [(e & _ & ->)|[(e & _ & ->)|(_ & rest & Hev & _ & _ & Hk)]].
    - split; [|discriminate].
      intros ev Hin. apply list_elem_of_singleton in Hin as ->. reflexivity.
    - split; [|discriminate].
      intros ev Hin.
      repeat (apply elem_of_cons in Hin as [->|Hin]; [reflexivity|]).
      inversion Hin.
    - destruct (Hk Hpid) as [Hfl Hrest]. split; [|exact Hfl].
      rewrite Hev. intros ev [->|Hin]%elem_of_cons; [reflexivity|].
      apply Hrest, Hin. }
  destruct H as [Hev Hfl]. split; [exact Hev|]. split; [|exact Hfl].
  intros pid sig err Hin. specialize (Hev _ Hin). discriminate.
Qed.

(** *** Configuration pull *)

Lemma getExistingConfig_run (gw : Gateway) (w : World) :
  getExistingConfig gw w
  = (Next match files w !! OriginalPath (GetConfig gw) with
          | None => (∅, Some "open: no such file or directory")
          | Some f =>
              match json_Decode_map f with
              | (_, Some err) => (∅, Some err)
              | (microConfig, None) => (sanitizeConfig microConfig, None)
              end
          end, w, []).
Proof.
  unfold getExistingConfig. mstep.
  destruct (files w !! OriginalPath (GetConfig gw)) as [f|]; [|reflexivity].
  destruct (json_Decode_map f) as [m [e|]]; reflexivity.
Qed.

(** A configuration that getExistingConfig hands out holds none of the
    sensitive keys. *)
Lemma getExistingConfig_sanitized (gw : Gateway) (w : World) (w' : World)
    (config : gmap string V) (evs : list Event) (k : string) :
  getExistingConfig gw w = (Next (config, None), w', evs) ->
  k ∈ sanitzeFields -> config !! k = None.
Proof.
  rewrite getExistingConfig_run. intros E Hk.
  destruct (files w !! OriginalPath (GetConfig gw)) as [f|]; [|discriminate].
  destruct (json_Decode_map f) as [m [e|]]; [discriminate|].
  injection E as <- _ _. rewrite sanitizeConfig_lookup.
  apply decide_True, Hk.
Qed.

Lemma handleSendMiniConfig_addressing (gw : Gateway) (payload : string) (w : World)
    (cp : GetConfigPayload) :
  json_Unmarshal_GetConfigPayload payload (mkGetConfigPayload "" "" 0) = (cp, None) ->
  (passedAddressing (flowOf (handleSendMiniConfig gw payload w))
   <-> FromHostname cp = Hostname (hostDetails gw) \/ FromNodeID cp = GetNodeID gw).
Proof.
  intros Hd. unfold handleSendMiniConfig. rewrite Hd.
  destruct (decide _) as [[Hh Hn]|Hno].
  - unfold log. repeat mstep. cbn [flowOf fst]. split.
    + intros (_ & _ & H). exfalso. apply H. reflexivity.
    + intros [E|E]; contradiction.
  - assert (Hor : FromHostname cp = Hostname (hostDetails gw)
                  \/ FromNodeID cp = GetNodeID gw).
    { destruct (decide (FromHostname cp = Hostname (hostDetails gw))) as [E|E];
        [left; exact E|].
      destruct (decide (FromNodeID cp = GetNodeID gw)) as [E'|E'];
        [right; exact E'|].
      exfalso. apply Hno. split; assumption. }
    split; [intros _; exact Hor|]. intros _.
    rewrite (bind_Next _ _ _ _ _ _ (getExistingConfig_run gw w)).
    cbn [flowOf fst].
    destruct (files w !! OriginalPath (GetConfig gw)) as [f|];
      [|unfold log; repeat mstep; passed].
    destruct (json_Decode_map f) as [m [e|]];
      [unfold log; repeat mstep; passed|].
    destruct (json_Marshal_ReturnConfigPayload _) as [p [e|]];
      unfold log; repeat mstep; passed.
Qed.

(** (C9) A node that has no id yet (its node id is the empty string)
    gets past the addressing check of handleNewConfiguration for every
    payload whose ForNodeID is empty, whatever its ForHostname; and past
    the check of handleSendMiniConfig for every request whose FromNodeID
    is empty, whatever its FromHostname. *)
Theorem unregistered_node_accepts_payload_without_node_id
    (gw : Gateway) (w : World)
    (push : string) (cp : ConfigPayload Config)
    (pull : string) (gp : GetConfigPayload) :
  GetNodeID gw = "" ->
  json_Unmarshal_ConfigPayload push (loadedPayload w) = (cp, None) ->
  ForNodeID cp = "" ->
  json_Unmarshal_GetConfigPayload pull (mkGetConfigPayload "" "" 0) = (gp, None) ->
  FromNodeID gp = "" ->
  passedAddressing (flowOf (handleNewConfiguration gw push w))
  /\ flowOf (handleNewConfiguration gw push w) <> Return ExitNoMatch
  /\ passedAddressing (flowOf (handleSendMiniConfig gw pull w))
  /\ flowOf (handleSendMiniConfig gw pull w) <> Return ExitNoMatch.
Proof.
  intros Hid Hpush Hcp Hpull Hgp.
  assert (H1 : passedAddressing (flowOf (handleNewConfiguration gw push w))).
  { apply (handleNewConfiguration_addressing gw push w cp Hpush).
    right. rewrite Hcp, Hid. reflexivity. }
  assert (H2 : passedAddressing (flowOf (handleSendMiniConfig gw pull w))).
  { apply (handleSendMiniConfig_addressing gw pull w gp Hpull).
    right. rewrite Hgp, Hid. reflexivity. }
  split; [exact H1|]. split; [apply H1|]. split; [exact H2|apply H2].
Qed.

(** *** DRL notifications *)

(** (C7) Every load report NotifyCurrentServerStatus puts on the bus is
    the encoding of a drl.Server whose LoadPerSec is 1 when
    GlobalRate.Rate() is 0 and is that rate when it is greater than 0;
    and a report is put on the bus only when the DRL manager is there
    and ready. *)
Theorem NotifyCurrentServerStatus_load_floor
    (gw : Gateway) (w : World) (n : Notification Config) :
  EvNotify n ∈ eventsOf (NotifyCurrentServerStatus gw w) ->
  exists (drlManager : DRL) (server : Server),
    DRLManager w = Some drlManager
    /\ Ready drlManager = true
    /\ Command n = NoticeGatewayDRLNotification
    /\ json_Marshal_Server server = (Payload n, None)
    /\ HostName server = Hostname (hostDetails gw)
    /\ ID server = GetNodeID gw
    /\ TagHash server = getTagHash gw
    /\ (GlobalRate w = 0 -> LoadPerSec server = 1)
    /\ (GlobalRate w > 0 -> LoadPerSec server = GlobalRate w).
Proof.
  unfold NotifyCurrentServerStatus. mstep.
  destruct (DRLManager w) as [d|]; [|intros Hin; inversion Hin].
  destruct (Ready d) eqn:Hr; cbn [negb]; [|intros Hin; inversion Hin].
  set (server := mkServer _ _ _ _).
  destruct (json_Marshal_Server server) as [asJson [err|]] eqn:Hm.
  - unfold log. repeat mstep. cbn [eventsOf snd].
    intros Hin. apply list_elem_of_singleton in Hin. discriminate.
  - cbn [eventsOf snd emit]. intros Hin.
    apply list_elem_of_singleton in Hin. injection Hin as ->.
    exists d, server. cbn [Command Payload].
    repeat (split; [first [reflexivity | exact Hr | exact Hm]|]).
    subst server. cbn [LoadPerSec]. split; intros Hrate.
    + rewrite decide_True by exact Hrate. reflexivity.
    + rewrite decide_False by lia. reflexivity.
Qed.
End Gateway.

Import Sample.

(** A push addressed by hostname only: applied on the node called "h1". *)
Lemma handleNewConfiguration_proceeds_iff_addressed_witness :
  (passedAddressing
     (flowOf (handleNewConfiguration (env := env false) (node "h1" "n1" 4242) "h1," (disk 0)))
   <-> "h1" = "h1" \/ "" = "n1")
  /\ (handleNewConfiguration (env := env false) (node "h1" "n1" 4242) "h1," (disk 0)
      = (Return ExitNoMatch, disk 0,
         [EvLog InfoLevel []
            "Configuration update received, no NodeID/Hostname match found"])
      <-> "h1" <> "h1" /\ "" <> "n1").
Proof.
  apply (handleNewConfiguration_proceeds_iff_addressed (env := env false)
           (node "h1" "n1" 4242) "h1," (disk 0)
           (mkConfigPayload (mkCfg false "" 0 []) "h1" "" 0)).
  vm_compute. reflexivity.
Defined.

(** The backup cannot be written: "tyk.conf" keeps its content. *)
Lemma handleNewConfiguration_backup_before_overwrite_witness :
  flowOf (handleNewConfiguration (env := env true) (node "h1" "n1" 4242) "h1," (disk 0))
    = Return ExitBackupFailed
  /\ files (worldOf (handleNewConfiguration (env := env true) (node "h1" "n1" 4242)
                                            "h1," (disk 0))) !! "tyk.conf"
     = Some "old".
Proof.
  destruct (handleNewConfiguration_backup_before_overwrite (env := env true)
              (node "h1" "n1" 4242) "h1," (disk 0)
              (mkConfigPayload (mkCfg false "" 0 []) "h1" "" 0)
              ltac:(vm_compute; reflexivity)
              ltac:(left; vm_compute; reflexivity)
              ltac:(vm_compute; reflexivity)) as [Hfail _].
  destruct (Hfail "read-only file system" ltac:(vm_compute; reflexivity))
    as (Hflow & _ & Hprimary & _).
  split; [exact Hflow|].
  rewrite (Hprimary "tyk.conf" ltac:(left)). vm_compute. reflexivity.
Defined.

Lemma handleNewConfiguration_no_signal_without_pid_witness :
  (forall ev,
      ev ∈ eventsOf (handleNewConfiguration (env := env false) (node "h1" "n1" 0)
                                            "h1," (disk 0)) ->
      isKill ev = false)
  /\ (forall pid sig err,
        EvKill pid sig err
          ∉ eventsOf (handleNewConfiguration (env := env false) (node "h1" "n1" 0)
                                             "h1," (disk 0)))
  /\ flowOf (handleNewConfiguration (env := env false) (node "h1" "n1" 0) "h1," (disk 0))
     <> Next tt.
Proof.
  apply (handleNewConfiguration_no_signal_without_pid (env := env false)
           (node "h1" "n1" 0) "h1," (disk 0)).
  reflexivity.
Defined.

(** An unregistered node called "h2" and a push and a pull for "h1". *)
Lemma unregistered_node_accepts_payload_without_node_id_witness :
  passedAddressing
    (flowOf (handleNewConfiguration (env := env false) (node "h2" "" 0) "h1," (disk 0)))
  /\ flowOf (handleNewConfiguration (env := env false) (node "h2" "" 0) "h1," (disk 0))
     <> Return ExitNoMatch
  /\ passedAddressing
       (flowOf (handleSendMiniConfig (env := env false) (node "h2" "" 0) "h1," (disk 0)))
  /\ flowOf (handleSendMiniConfig (env := env false) (node "h2" "" 0) "h1," (disk 0))
     <> Return ExitNoMatch.
Proof.
  apply (unregistered_node_accepts_payload_without_node_id (env := env false)
           (node "h2" "" 0) (disk 0)
           "h1," (mkConfigPayload (mkCfg false "" 0 []) "h1" "" 0)
           "h1," (mkGetConfigPayload "h1" "" 0)).
  - reflexivity.
  - vm_compute. reflexivity.
  - reflexivity.
  - vm_compute. reflexivity.
  - reflexivity.
Defined.

(** A node whose measured rate is 0 advertises 1. *)
Lemma NotifyCurrentServerStatus_load_floor_witness :
  exists (drlManager : bool) (server : Server),
    DRLManager (disk 0) = Some drlManager
    /\ Ready (Env := env false) drlManager = true
    /\ Command (mkNotification NoticeGatewayDRLNotification "h2,n,1,euwest"
                                (node "h2" "n" 7))
       = NoticeGatewayDRLNotification
    /\ json_Marshal_Server (Env := env false) server
       = (Payload (mkNotification NoticeGatewayDRLNotification "h2,n,1,euwest"
                                  (node "h2" "n" 7)), None)
    /\ HostName server = Hostname (hostDetails (node "h2" "n" 7))
    /\ ID server = GetNodeID (node "h2" "n" 7)
    /\ TagHash server = getTagHash (env := env false) (node "h2" "n" 7)
    /\ (GlobalRate (disk 0) = 0 -> LoadPerSec server = 1)
    /\ (GlobalRate (disk 0) > 0 -> LoadPerSec server = GlobalRate (disk 0)).
Proof.
  apply (NotifyCurrentServerStatus_load_floor (env := env false)
           (node "h2" "n" 7) (disk 0)
           (mkNotification NoticeGatewayDRLNotification "h2,n,1,euwest"
                           (node "h2" "n" 7))).
  vm_compute. left.
Defined.
End GatewaySpec.

(** ** Further properties of the analytics purge pipeline *)
Module RpcMore.
Import Go Obs GoFacts Rpc RpcSpec.
Local Open Scope go_scope.

Section Purger.
Context {AnalyticsRecord S R : Type}
  `{!Handler AnalyticsRecord S} `{!Client AnalyticsRecord R}
  `{!Codec AnalyticsRecord}.

Local Abbreviation World := (World S R).
Local Abbreviation iface := (iface AnalyticsRecord).
Local Abbreviation Event := (Event AnalyticsRecord).
Local Abbreviation registerOnce := (@Obs.registerOnce AnalyticsRecord S R).

(** *** processAnalyticsValues *)

Lemma slot_lookup (ss : list string) (i : nat) (s : string) :
  ss !! i = Some s ->
  (slot INil <$> ss) !! i
  = Some (match msgpack_Unmarshal s with
          | (r, None) => IRecord r
          | (_, Some _) => INil
          end : iface).
Proof. intros H. rewrite list_lookup_fmap, H. reflexivity. Qed.

(** (X1) On queued strings processAnalyticsValues never panics and leaves
    the world alone; the array it returns is as long as its input, element
    [i] of it is the record decoded from input [i] or nil when that input
    is malformed, the failure count is the number of malformed inputs, and
    records and failures add up to the input length; one line is logged
    per input. *)
Theorem processAnalyticsValues_keeps_positions (ss : list string) (w : World) :
  exists (keys : list iface) (failedRecords : Z) (evs : list Event),
    processAnalyticsValues (IString <$> ss) w = (Next (keys, failedRecords), w, evs)
    /\ length keys = length ss
    /\ length evs = length ss
    /\ failedRecords = Z.of_nat (length (List.filter (fun s => negb (decodes s)) ss))
    /\ Z.of_nat (length (List.filter isRecord keys)) + failedRecords
       = Z.of_nat (length ss)
    /\ (forall i s, ss !! i = Some s ->
          keys !! i = Some match msgpack_Unmarshal s with
                           | (r, None) => IRecord r
                           | (_, Some _) => INil
                           end).
Proof.
  exists (slot INil <$> ss), (Z.of_nat (length (List.filter (fun s => negb (decodes s)) ss))),
    (decodeLog <$> ss).
  split; [apply processAnalyticsValues_strings|].
  split; [apply length_fmap|]. split; [apply length_fmap|].
  split; [reflexivity|]. split.
  - rewrite records_of_slots, <- (List.filter_length decodes ss). lia.
  - intros i s. apply slot_lookup.
Qed.

Lemma range_panics_iff (vs : list iface) :
  forall (i : nat) (keys : list iface) (n : Z) (w : World),
    (exists msg, flowOf (processAnalyticsValues_range i vs keys n w) = Panic msg)
    <-> exists v, v ∈ vs /\ (forall s, v <> IString s).
Proof.
  induction vs as [|v vs IH]; intros i keys n w.
  - cbn. split; [intros [msg Hm]; discriminate|].
    intros (v & Hin & _). inversion Hin.
  - destruct v as [|s|r].
    + cbn. split; [|intros _; eexists; reflexivity].
      intros _. exists INil. split; [left|]. intros s. discriminate.
    + rewrite range_cons_string.
      assert (Hs : (exists v, v ∈ IString s :: vs /\ (forall s, v <> IString s))
                   <-> exists v, v ∈ vs /\ (forall s, v <> IString s)).
      { split; intros (v & Hin & Hv).
        - apply elem_of_cons in Hin as [->|Hin]; [exfalso; apply (Hv s); reflexivity|].
          exists v. split; assumption.
        - exists v. split; [right; exact Hin|exact Hv]. }
      rewrite Hs.
      destruct (msgpack_Unmarshal s) as [d [e|]]; cbn [flowOf fst]; apply IH.
    + cbn. split; [|intros _; eexists; reflexivity].
      intros _. exists (IRecord r). split; [left|]. intros s. discriminate.
Qed.

(** (X2) processAnalyticsValues panics exactly when one of the values is
    not a string (the type assertion of decodeAnalyticsRecord); it never
    ends with a [return] of PurgeCache, and panicking or not it leaves the
    world as it was and reads no bucket. *)
Theorem processAnalyticsValues_panics_iff_not_string (vs : list iface) (w : World) :
  ((exists msg, flowOf (processAnalyticsValues vs w) = Panic msg)
   <-> exists v, v ∈ vs /\ forall s, v <> IString s)
  /\ (forall l, flowOf (processAnalyticsValues vs w) <> Return l)
  /\ worldOf (processAnalyticsValues vs w) = w
  /\ keysRead (eventsOf (processAnalyticsValues vs w)) = [].
Proof.
  split; [apply range_panics_iff|].
  destruct (processAnalyticsValues_frame vs w) as (Hw & Hr & _ & Hn & _).
  split; [exact Hn|]. split; [exact Hw|exact Hr].
Qed.

(** *** The loop of PurgeCache *)

(** The decoding loop makes no remote call and registers nothing. *)
Lemma range_quiet (f : string) (vs : list iface) :
  forall (i : nat) (keys : list iface) (n : Z) (w : World),
    argsSent f (eventsOf (processAnalyticsValues_range i vs keys n w)) = []
    /\ namesAdded (eventsOf (processAnalyticsValues_range i vs keys n w)) = [].
Proof.
  induction vs as [|v vs IH]; intros i keys n w.
  - split; reflexivity.
  - destruct v as [|s|r]; try (split; reflexivity).
    rewrite range_cons_string.
    destruct (msgpack_Unmarshal s) as [d [e|]]; cbn [eventsOf snd]; apply IH.
Qed.

Lemma afterPop_quiet (i : Z) (vals : list iface) (w1 : World) :
  argsSent "Ping" (eventsOf (afterPop i vals w1)) = []
  /\ namesAdded (eventsOf (afterPop i vals w1)) = []
  /\ addedFuncs (worldOf (afterPop i vals w1)) = addedFuncs w1
  /\ dispatcher (worldOf (afterPop i vals w1)) = dispatcher w1.
Proof.
  unfold afterPop. destruct (decide (length vals = 0%nat)) as [E|E];
    [repeat split; reflexivity|].
  destruct (processAnalyticsValues_frame vals w1) as (Hw & _).
  destruct (range_quiet "Ping" vals 0 (replicate (length vals) INil) 0 w1) as [Hp Hn].
  fold (processAnalyticsValues vals w1) in Hp, Hn.
  destruct (processAnalyticsValues vals w1) as [[[[keys n]|l|msg] w2] evs];
    cbn [flowOf worldOf eventsOf fst snd] in *; subst w2;
    [|repeat split; assumption..].
  destruct (json_Marshal keys) as [data [err|]];
    cbn [flowOf worldOf eventsOf fst snd addedFuncs dispatcher].
  - rewrite argsSent_app, namesAdded_app, Hp, Hn. repeat split; reflexivity.
  - rewrite argsSent_app, namesAdded_app, Hp, Hn.
    destruct (FuncClientSingleton _ _ _).1.2; repeat split; reflexivity.
Qed.

Lemma purgeBucket_quiet (k : Z) (w : World) :
  argsSent "Ping" (eventsOf (purgeBucket k w)) = []
  /\ namesAdded (eventsOf (purgeBucket k w)) = []
  /\ addedFuncs (worldOf (purgeBucket k w)) = addedFuncs w
  /\ dispatcher (worldOf (purgeBucket k w)) = dispatcher w.
Proof.
  rewrite purgeBucket_run. cbn zeta. cbn [flowOf worldOf eventsOf fst snd].
  match goal with |- context [afterPop k ?v ?w1] =>
    destruct (afterPop_quiet k v w1) as (H1 & H2 & H3 & H4) end.
  repeat split; assumption.
Qed.

Lemma forBuckets_quiet (idxs : list Z) :
  forall w : World,
    argsSent "Ping" (eventsOf (forBuckets idxs w)) = []
    /\ namesAdded (eventsOf (forBuckets idxs w)) = []
    /\ addedFuncs (worldOf (forBuckets idxs w)) = addedFuncs w
    /\ dispatcher (worldOf (forBuckets idxs w)) = dispatcher w.
Proof.
  induction idxs as [|k idxs IH]; intros w; [repeat split; reflexivity|].
  rewrite forBuckets_cons.
  destruct (purgeBucket_quiet k w) as (H1 & H2 & H3 & H4).
  destruct (flowOf (purgeBucket k w)) as [[]|l|msg]; [|repeat split; assumption..].
  destruct (IH (worldOf (purgeBucket k w))) as (I1 & I2 & I3 & I4).
  cbn zeta. cbn [flowOf worldOf eventsOf fst snd].
  rewrite argsSent_app, namesAdded_app, H1, H2, I1, I2, I3, I4.
  repeat split; assumption.
Qed.

(** The buckets the loop reads are, in order, a first part of the buckets
    it was given; all of them when it reaches its end. *)
Lemma forBuckets_prefix (idxs : list Z) :
  forall w : World,
    keysRead (eventsOf (forBuckets idxs w)) `prefix_of` analyticsKeyName <$> idxs
    /\ (flowOf (forBuckets idxs w) = Next tt ->
        keysRead (eventsOf (forBuckets idxs w)) = analyticsKeyName <$> idxs).
Proof.
  induction idxs as [|k idxs IH]; intros w; [split; reflexivity|].
  rewrite forBuckets_cons. destruct (purgeBucket_frame k w) as [_ Hr].
  destruct (flowOf (purgeBucket k w)) as [[]|l|msg] eqn:Ef.
  - destruct (IH (worldOf (purgeBucket k w))) as [Hp Hall].
    cbn zeta. cbn [flowOf worldOf eventsOf fst snd]. rewrite keysRead_app, Hr.
    cbn [app fmap list_fmap]. split.
    + apply prefix_cons, Hp.
    + intros Hf. f_equal. apply Hall, Hf.
  - rewrite Hr, Ef. split; [|discriminate].
    cbn [fmap list_fmap]. apply prefix_cons, prefix_nil.
  - rewrite Hr, Ef. split; [|discriminate].
    cbn [fmap list_fmap]. apply prefix_cons, prefix_nil.
Qed.

(** (X3) Whatever happens in a cycle, the keys PurgeCache hands to
    GetAndDeleteSet are, in the order of the calls, a first part of the
    eleven keys "tyk-system-analytics", "tyk-system-analytics_0", ...,
    "tyk-system-analytics_9": no bucket is read twice or out of order, and
    a cycle that runs to its end has read all eleven. *)
Theorem PurgeCache_reads_buckets_in_order (w : World) :
  keysRead (eventsOf (PurgeCache w)) `prefix_of` analyticsKeyName <$> bucketIndices
  /\ (flowOf (PurgeCache w) = Next tt ->
      keysRead (eventsOf (PurgeCache w)) = analyticsKeyName <$> bucketIndices)
  /\ analyticsKeyName <$> bucketIndices
     = [ "tyk-system-analytics"; "tyk-system-analytics_0"; "tyk-system-analytics_1";
         "tyk-system-analytics_2"; "tyk-system-analytics_3"; "tyk-system-analytics_4";
         "tyk-system-analytics_5"; "tyk-system-analytics_6"; "tyk-system-analytics_7";
         "tyk-system-analytics_8"; "tyk-system-analytics_9" ].
Proof.
  split; [|split; [|vm_compute; reflexivity]]; rewrite PurgeCache_run; cbn zeta;
    set (c := FuncClientSingleton (client w) "Ping" INil);
    set (pre := _ ++ [EvFuncClientSingleton "Ping" INil c.1.2]);
    (assert (Hpre : keysRead pre = [])
      by (subst pre; destruct (ClientIsConnected (client w)); reflexivity));
    destruct (c.1.2) as [e|]; cbn [flowOf worldOf eventsOf fst snd];
    rewrite keysRead_app, Hpre; cbn [app].
  - apply prefix_nil.
  - apply forBuckets_prefix.
  - discriminate.
  - apply forBuckets_prefix.
Qed.

Lemma queued_nil_after_pop (s : S) (k k' : string) :
  queued s k' = [] -> queued (GetAndDeleteSet s k).2 k' = [] :> list iface.
Proof.
  intros H. destruct (decide (k' = k)) as [->|Hne].
  - apply GetAndDeleteSet_empties.
  - rewrite GetAndDeleteSet_frame by exact Hne. exact H.
Qed.

Lemma forBuckets_drains (idxs : list Z) :
  forall (w : World) (k : string),
    queued (Store w) k = [] \/ k ∈ keysRead (eventsOf (forBuckets idxs w)) ->
    queued (Store (worldOf (forBuckets idxs w))) k = [].
Proof.
  induction idxs as [|k0 idxs IH]; intros w k Hk.
  - destruct Hk as [Hk|Hk]; [exact Hk|inversion Hk].
  - rewrite forBuckets_cons in *. destruct (purgeBucket_frame k0 w) as [Hs Hr].
    assert (Hhere : queued (Store w) k = [] \/ k = analyticsKeyName k0 ->
                    queued (Store (worldOf (purgeBucket k0 w))) k = []).
    { rewrite Hs. intros [H0 | ->]; [apply queued_nil_after_pop, H0|].
      apply GetAndDeleteSet_empties. }
    destruct (flowOf (purgeBucket k0 w)) as [[]|l|msg].
    + cbn zeta in *. cbn [flowOf worldOf eventsOf fst snd] in *.
      apply IH. rewrite keysRead_app, Hr in Hk.
      destruct Hk as [Hk|Hk]; [left; apply Hhere; left; exact Hk|].
      apply elem_of_app in Hk as [Hk|Hk].
      * left. apply Hhere. right. apply list_elem_of_singleton, Hk.
      * right. exact Hk.
    + apply Hhere. rewrite Hr in Hk. destruct Hk as [Hk|Hk]; [left; exact Hk|].
      right. apply list_elem_of_singleton, Hk.
    + apply Hhere. rewrite Hr in Hk. destruct Hk as [Hk|Hk]; [left; exact Hk|].
      right. apply list_elem_of_singleton, Hk.
Qed.

(** (X4) Every bucket PurgeCache has read in a cycle is empty when the
    cycle is over, whether or not its records reached the collector: the
    cycle may have ended early, the remote call may have failed, the
    values may not even have marshalled. The purge is at-most-once. *)
Theorem PurgeCache_leaves_read_buckets_empty (w : World) (k : string) :
  k ∈ keysRead (eventsOf (PurgeCache w)) ->
  queued (Store (worldOf (PurgeCache w))) k = [].
Proof.
  rewrite PurgeCache_run. cbn zeta.
  set (c := FuncClientSingleton (client w) "Ping" INil).
  set (pre := _ ++ [EvFuncClientSingleton "Ping" INil c.1.2]).
  assert (Hpre : keysRead pre = [])
    by (subst pre; destruct (ClientIsConnected (client w)); reflexivity).
  destruct (c.1.2) as [e|]; cbn [flowOf worldOf eventsOf fst snd];
    rewrite keysRead_app, Hpre; cbn [app]; intros Hk; [inversion Hk|].
  apply forBuckets_drains. right. exact Hk.
Qed.

Lemma purgeBucket_empty (k : Z) (w : World) :
  queued (Store w) (analyticsKeyName k) = [] ->
  purgeBucket k w
  = (Next tt,
     mkWorld (GetAndDeleteSet (Store w) (analyticsKeyName k)).2 (client w)
             (addedFuncs w) (dispatcher w),
     [EvGetAndDeleteSet (analyticsKeyName k)]).
Proof.
  intros Hq. rewrite purgeBucket_run. cbn zeta.
  rewrite GetAndDeleteSet_pops, Hq. reflexivity.
Qed.

Lemma forBuckets_empty (idxs : list Z) :
  forall w : World,
    Forall (fun i => queued (Store w) (analyticsKeyName i) = []) idxs ->
    flowOf (forBuckets idxs w) = Next tt
    /\ eventsOf (forBuckets idxs w)
       = (fun i => EvGetAndDeleteSet (analyticsKeyName i)) <$> idxs.
Proof.
  induction idxs as [|k idxs IH]; intros w Hall; [split; reflexivity|].
  apply Forall_cons in Hall as [Hk Hall].
  rewrite forBuckets_cons, (purgeBucket_empty k w Hk).
  cbn [flowOf worldOf eventsOf fst snd]. cbn zeta.
  destruct (IH (mkWorld (GetAndDeleteSet (Store w) (analyticsKeyName k)).2 (client w)
                        (addedFuncs w) (dispatcher w))) as [Hf He].
  { eapply Forall_impl; [exact Hall|]. intros i Hi. cbn [Store].
    apply queued_nil_after_pop, Hi. }
  cbn [flowOf worldOf eventsOf fst snd]. split; [exact Hf|].
  rewrite He. reflexivity.
Qed.

(** (X5) A cycle over empty queues, the ping having succeeded: PurgeCache
    pings, asks the store for each of the eleven buckets in turn and does
    nothing else; nothing is marshalled and "PurgeAnalyticsData" is not
    called. *)
Theorem PurgeCache_skips_empty_buckets (w : World) :
  (FuncClientSingleton (client w) "Ping" INil).1.2 = None ->
  Forall (fun i => queued (Store w) (analyticsKeyName i) = []) bucketIndices ->
  flowOf (PurgeCache w) = Next tt
  /\ eventsOf (PurgeCache w)
     = (if ClientIsConnected (client w) then []
        else [EvLog ErrorLevel [] "RPC client is not connected, use Connect method 1st"])
       ++ EvFuncClientSingleton "Ping" INil None
          :: ((fun i => EvGetAndDeleteSet (analyticsKeyName i)) <$> bucketIndices)
  /\ argsSent "PurgeAnalyticsData" (eventsOf (PurgeCache w)) = [].
Proof.
  intros Hping Hempty.
  assert (Hrun : flowOf (PurgeCache w) = Next tt
    /\ eventsOf (PurgeCache w)
       = (if ClientIsConnected (client w) then []
          else [EvLog ErrorLevel [] "RPC client is not connected, use Connect method 1st"])
         ++ EvFuncClientSingleton "Ping" INil None
            :: ((fun i => EvGetAndDeleteSet (analyticsKeyName i)) <$> bucketIndices)).
  { rewrite PurgeCache_run. cbn zeta. rewrite Hping.
    destruct (forBuckets_empty bucketIndices
                (mkWorld (Store w) (FuncClientSingleton (client w) "Ping" INil).2
                         (addedFuncs w) (dispatcher w)) Hempty) as [Hf He].
    cbn [flowOf worldOf eventsOf fst snd]. split; [exact Hf|].
    rewrite He, <- app_assoc. reflexivity. }
  destruct Hrun as [Hf He]. split; [exact Hf|]. split; [exact He|].
  rewrite He, argsSent_app.
  replace (argsSent "PurgeAnalyticsData" (if ClientIsConnected (client w) then [] else _))
    with (@nil iface) by (destruct (ClientIsConnected (client w)); reflexivity).
  vm_compute. reflexivity.
Qed.

Lemma all_strings (l : list iface) :
  Forall (fun v => isString v = true) l -> exists ss, l = IString <$> ss.
Proof.
  induction 1 as [|v l Hv _ [ss ->]]; [exists []; reflexivity|].
  destruct v as [|s|r]; try discriminate. exists (s :: ss). reflexivity.
Qed.

Lemma forBuckets_completes (idxs : list Z) :
  (forall keys, (json_Marshal keys).2 = None) ->
  forall w : World,
    Forall (fun i => Forall (fun v => isString v = true)
                            (queued (Store w) (analyticsKeyName i))) idxs ->
    flowOf (forBuckets idxs w) = Next tt.
Proof.
  intros Hjson. induction idxs as [|k idxs IH]; intros w Hall; [reflexivity|].
  apply Forall_cons in Hall as [Hk Hall].
  destruct (all_strings _ Hk) as [ss Hss].
  assert (Hn : flowOf (purgeBucket k w) = Next tt).
  { destruct (json_Marshal (slot INil <$> ss)) as [data o] eqn:Em.
    apply (purgeBucket_Next k w (slot INil <$> ss)
             (Z.of_nat (length (List.filter (fun s => negb (decodes s)) ss))) data).
    - rewrite Hss, processAnalyticsValues_strings. reflexivity.
    - specialize (Hjson (slot INil <$> ss)). rewrite Em in Hjson. cbn in Hjson.
      subst o. exact Em. }
  rewrite forBuckets_cons, Hn. cbn zeta. cbn [flowOf fst]. apply IH.
  destruct (purgeBucket_frame k w) as [-> _].
  eapply Forall_impl; [exact Hall|]. intros i Hi.
  destruct (decide (analyticsKeyName i = analyticsKeyName k)) as [E|E].
  - rewrite E, GetAndDeleteSet_empties. constructor.
  - rewrite GetAndDeleteSet_frame by exact E. exact Hi.
Qed.

(** (X6) When the ping succeeds, the queued values are strings and
    json.Marshal accepts what is decoded, a cycle runs to its end whatever
    the collector answers to "PurgeAnalyticsData": all eleven buckets are
    read, and all eleven are empty afterwards. *)
Theorem PurgeCache_completes_whatever_the_collector_answers (w : World) :
  (FuncClientSingleton (client w) "Ping" INil).1.2 = None ->
  (forall keys, (json_Marshal keys).2 = None) ->
  Forall (fun i => Forall (fun v => isString v = true)
                          (queued (Store w) (analyticsKeyName i))) bucketIndices ->
  flowOf (PurgeCache w) = Next tt
  /\ keysRead (eventsOf (PurgeCache w)) = analyticsKeyName <$> bucketIndices
  /\ Forall (fun i => queued (Store (worldOf (PurgeCache w))) (analyticsKeyName i) = [])
            bucketIndices.
Proof.
  intros Hping Hjson Hstr.
  assert (Hf : flowOf (PurgeCache w) = Next tt).
  { rewrite PurgeCache_run. cbn zeta. rewrite Hping. cbn [flowOf fst].
    apply forBuckets_completes; assumption. }
  assert (Hr : keysRead (eventsOf (PurgeCache w)) = analyticsKeyName <$> bucketIndices).
  { revert Hf. rewrite PurgeCache_run. cbn zeta. rewrite Hping.
    cbn [flowOf eventsOf fst snd]. intros Hf. rewrite keysRead_app.
    replace (keysRead (_ ++ [EvFuncClientSingleton "Ping" INil None])) with (@nil string)
      by (destruct (ClientIsConnected (client w)); reflexivity).
    apply forBuckets_prefix, Hf. }
  split; [exact Hf|]. split; [exact Hr|].
  apply Forall_forall. intros i Hi.
  revert Hr. rewrite PurgeCache_run. cbn zeta. rewrite Hping.
  cbn [worldOf eventsOf fst snd]. rewrite keysRead_app.
  replace (keysRead (_ ++ [EvFuncClientSingleton "Ping" INil None])) with (@nil string)
    by (destruct (ClientIsConnected (client w)); reflexivity).
  cbn [app]. intros Hr. apply forBuckets_drains. right. rewrite Hr.
  apply list_elem_of_fmap. exists i. split; [reflexivity|exact Hi].
Qed.

Lemma PurgeCache_ping_args (w : World) :
  argsSent "Ping" (eventsOf (PurgeCache w)) = [INil].
Proof.
  rewrite PurgeCache_run. cbn zeta.
  set (c := FuncClientSingleton (client w) "Ping" INil).
  assert (Hpre : forall err, argsSent "Ping"
            (((if ClientIsConnected (client w) then []
               else [EvLog ErrorLevel [] "RPC client is not connected, use Connect method 1st"])
              ++ [EvFuncClientSingleton "Ping" INil err]) : list Event) = [INil]).
  { intros err. destruct (ClientIsConnected (client w)); vm_compute; reflexivity. }
  destruct (c.1.2) as [e|]; cbn [eventsOf snd]; rewrite argsSent_app, Hpre.
  - reflexivity.
  - destruct (forBuckets_quiet bucketIndices
                (mkWorld (Store w) c.2 (addedFuncs w) (dispatcher w))) as [-> _].
    reflexivity.
Qed.

(** (X7) In every cycle, connected or not and however the cycle ends,
    the remote function "Ping" is called exactly once, with a nil
    argument. *)
Theorem PurgeCache_pings_exactly_once (w : World) :
  argsSent "Ping" (eventsOf (PurgeCache w)) = [INil].
Proof. apply PurgeCache_ping_args. Qed.

(** (X8) The two entry points keep to their own state. PurgeCache never
    calls dispatcher.AddFunc and leaves [addedFuncs] and the registered
    functions as they were; Connect always runs to its end, leaves the
    store and the RPC client as they were, reads no bucket and makes no
    remote call. *)
Theorem PurgeCache_and_Connect_keep_apart (w : World) :
  (namesAdded (eventsOf (PurgeCache w)) = []
   /\ addedFuncs (worldOf (PurgeCache w)) = addedFuncs w
   /\ dispatcher (worldOf (PurgeCache w)) = dispatcher w)
  /\ (flowOf (Connect w) = Next tt
      /\ Store (worldOf (Connect w)) = Store w
      /\ client (worldOf (Connect w)) = client w
      /\ keysRead (eventsOf (Connect w)) = []
      /\ forall f, argsSent f (eventsOf (Connect w)) = []).
Proof.
  split.
  - rewrite PurgeCache_run. cbn zeta.
    set (c := FuncClientSingleton (client w) "Ping" INil).
    assert (Hpre : forall err, namesAdded
              (((if ClientIsConnected (client w) then []
                 else [EvLog ErrorLevel [] "RPC client is not connected, use Connect method 1st"])
                ++ [EvFuncClientSingleton "Ping" INil err]) : list Event) = []).
    { intros err. destruct (ClientIsConnected (client w)); reflexivity. }
    destruct (c.1.2) as [e|]; cbn [worldOf eventsOf fst snd];
      rewrite namesAdded_app, Hpre.
    + repeat split.
    + destruct (forBuckets_quiet bucketIndices
                  (mkWorld (Store w) c.2 (addedFuncs w) (dispatcher w)))
        as (_ & -> & -> & ->).
      repeat split.
  - rewrite Connect_run. cbn zeta. cbn [flowOf worldOf eventsOf fst snd].
    unfold Obs.registerOnce.
    destruct (default false (addedFuncs w !! "Ping")); cbn [fst snd addedFuncs];
      match goal with |- context [default false (?m !! "PurgeAnalyticsData")] =>
        destruct (default false (m !! "PurgeAnalyticsData")) end;
      cbn [fst snd Store client]; (split; [reflexivity|]); (split; [reflexivity|]);
      (split; [reflexivity|]);
      destruct (ClientIsConnected (client w)); split; reflexivity.
Qed.

Lemma registerOnce_dispatcher (name : string) (f : RPCFunc) (w : World) :
  dispatcher (registerOnce name f w).1
  = dispatcher w ++ (if default false (addedFuncs w !! name) then [] else [(name, f)])
  /\ (default false (addedFuncs w !! name) = true -> (registerOnce name f w).1 = w).
Proof.
  unfold Obs.registerOnce. destruct (default false (addedFuncs w !! name)); cbn [fst dispatcher].
  - split; [rewrite app_nil_r; reflexivity|reflexivity].
  - split; [reflexivity|discriminate].
Qed.

Lemma Connect_world (w : World) :
  worldOf (Connect w)
  = (registerOnce "PurgeAnalyticsData" purgeAnalyticsDataStub
       (registerOnce "Ping" pingStub w).1).1.
Proof. rewrite Connect_run. reflexivity. Qed.

Lemma times_Connect_world (n : nat) :
  forall w : World,
    default false (addedFuncs w !! "Ping") = true ->
    default false (addedFuncs w !! "PurgeAnalyticsData") = true ->
    worldOf (times n Connect w) = w.
Proof.
  induction n as [|n IH]; intros w Hp Hq; [reflexivity|].
  destruct (Connect_names w) as (Hf & _).
  rewrite (times_S n Connect w Hf). cbn [worldOf fst snd].
  assert (Hw : worldOf (Connect w) = w).
  { rewrite Connect_world.
    destruct (registerOnce_dispatcher "Ping" pingStub w) as [_ H1].
    rewrite (H1 Hp).
    destruct (registerOnce_dispatcher "PurgeAnalyticsData" purgeAnalyticsDataStub w)
      as [_ H2].
    apply H2, Hq. }
  rewrite Hw. apply IH; assumption.
Qed.

(** (X9) What one or more calls of Connect register is decided by the two
    flags of [addedFuncs] alone: "Ping" is added, first, unless its flag
    was already set, "PurgeAnalyticsData" after it unless its flag was
    set; the dispatcher gains exactly these stubs, both flags are set
    afterwards, and every later call changes nothing. *)
Theorem Connect_registers_what_is_not_flagged (n : nat) (w : World) :
  namesAdded (eventsOf (times (Datatypes.S n) Connect w))
  = (if default false (addedFuncs w !! "Ping") then [] else ["Ping"])
    ++ (if default false (addedFuncs w !! "PurgeAnalyticsData") then []
        else ["PurgeAnalyticsData"])
  /\ dispatcher (worldOf (times (Datatypes.S n) Connect w))
     = dispatcher w
       ++ (if default false (addedFuncs w !! "Ping") then [] else [("Ping", pingStub)])
       ++ (if default false (addedFuncs w !! "PurgeAnalyticsData") then []
           else [("PurgeAnalyticsData", purgeAnalyticsDataStub)])
  /\ default false (addedFuncs (worldOf (times (Datatypes.S n) Connect w)) !! "Ping") = true
  /\ default false (addedFuncs (worldOf (times (Datatypes.S n) Connect w))
                      !! "PurgeAnalyticsData") = true
  /\ worldOf (times (Datatypes.S (Datatypes.S n)) Connect w)
     = worldOf (times (Datatypes.S n) Connect w).
Proof.
  destruct (Connect_names w) as (Hf & Hn & Hp & Hq).
  assert (Hw1 : worldOf (times (Datatypes.S n) Connect w) = worldOf (Connect w)).
  { rewrite (times_S n Connect w Hf). cbn [worldOf fst snd].
    apply times_Connect_world; assumption. }
  split; [|split; [|split; [|split]]].
  - rewrite (times_S n Connect w Hf). cbn [eventsOf snd].
    rewrite namesAdded_app, Hn, (times_Connect_registered n _ Hp Hq), app_nil_r.
    reflexivity.
  - rewrite Hw1, Connect_world.
    destruct (registerOnce_dispatcher "PurgeAnalyticsData" purgeAnalyticsDataStub
                (registerOnce "Ping" pingStub w).1) as [-> _].
    destruct (registerOnce_dispatcher "Ping" pingStub w) as [-> _].
    rewrite <- app_assoc. do 2 f_equal.
    unfold Obs.registerOnce. destruct (default false (addedFuncs w !! "Ping"));
      cbn [fst addedFuncs]; [reflexivity|].
    rewrite lookup_insert_ne by discriminate. reflexivity.
  - rewrite Hw1. exact Hp.
  - rewrite Hw1. exact Hq.
  - rewrite (times_S (Datatypes.S n) Connect w Hf). cbn [worldOf fst snd].
    rewrite Hw1. rewrite (times_Connect_world (Datatypes.S n) _ Hp Hq). reflexivity.
Qed.

(** *** PurgeLoop *)

Lemma PurgeLoop_for_cons_tick (rest : list selected) (w : World) :
  PurgeLoop_for (TickC :: rest) w
  = match flowOf (PurgeCache w) with
    | Panic msg => (Panic msg, worldOf (PurgeCache w), eventsOf (PurgeCache w))
    | _ =>
        let r := PurgeLoop_for rest (worldOf (PurgeCache w)) in
        (flowOf r, worldOf r, eventsOf (PurgeCache w) ++ eventsOf r)
    end.
Proof.
  cbn [PurgeLoop_for].
  pose proof (call_run (L' := loopExit) PurgeCache w) as Hc.
  destruct (flowOf (PurgeCache w)) as [[]|l|msg].
  - apply (bind_Next (call PurgeCache) (fun _ => PurgeLoop_for rest) _ _ _ _ Hc).
  - apply (bind_Next (call PurgeCache) (fun _ => PurgeLoop_for rest) _ _ _ _ Hc).
  - apply (bind_Panic (call PurgeCache) (fun _ => PurgeLoop_for rest) _ _ _ _ Hc).
Qed.

Lemma PurgeLoop_for_cycles (sel : list selected) :
  forall w : World,
    (length (argsSent "Ping" (eventsOf (PurgeLoop_for sel w))) <= cyclesDue sel)%nat
    /\ ((forall msg, flowOf (PurgeLoop_for sel w) <> Panic msg) ->
        length (argsSent "Ping" (eventsOf (PurgeLoop_for sel w))) = cyclesDue sel
        /\ (flowOf (PurgeLoop_for sel w) = Return ExitCtxDone <-> CtxDone ∈ sel)).
Proof.
  induction sel as [|[|] rest IH]; intros w.
  - cbn. split; [lia|]. intros _. split; [reflexivity|].
    split; [discriminate|]. intros Hin. inversion Hin.
  - cbn. split; [lia|]. intros _. split; [reflexivity|].
    split; [intros _; left|reflexivity].
  - rewrite PurgeLoop_for_cons_tick. pose proof (PurgeCache_ping_args w) as Hp.
    assert (Hin : CtxDone ∈ TickC :: rest <-> CtxDone ∈ rest).
    { rewrite elem_of_cons. split; [intros [H0|H0]; [discriminate|exact H0]|].
      intros H0. right. exact H0. }
    destruct (IH (worldOf (PurgeCache w))) as [Hle Heq].
    destruct (flowOf (PurgeCache w)) as [[]|l|msg];
      cbn zeta; cbn [flowOf worldOf eventsOf fst snd cyclesDue];
      rewrite ?argsSent_app, ?length_app, Hp; cbn [length].
    + split; [lia|]. intros Hnp. destruct (Heq Hnp) as [-> Hiff].
      split; [reflexivity|]. rewrite Hin. exact Hiff.
    + split; [lia|]. intros Hnp. destruct (Heq Hnp) as [-> Hiff].
      split; [reflexivity|]. rewrite Hin. exact Hiff.
    + split; [lia|]. intros Hnp. exfalso. apply (Hnp msg). reflexivity.
Qed.

(** (X10) time.NewTicker panics on a duration that is not positive, and
    [interval * time.Second] is an int64 product: for an interval from
    -9223372036 to 0, and for one from 9223372037 to 18446744073 (whose
    product wraps around to a negative duration), PurgeLoop panics before
    any cycle, having touched nothing. *)
Theorem PurgeLoop_panics_without_positive_duration
    (interval : Z) (sel : list selected) (w : World) :
  -9223372036 <= interval <= 0 \/ 9223372037 <= interval <= 18446744073 ->
  PurgeLoop interval sel w = (Panic "non-positive interval for NewTicker", w, []).
Proof.
  intros Hi. unfold PurgeLoop. rewrite decide_True; [reflexivity|].
  unfold wrap64, Second. destruct Hi as [Hi|Hi].
  - rewrite Z.mod_small by lia. lia.
  - replace (interval * 1000000000 + 2 ^ 63)
      with ((interval * 1000000000 + 2 ^ 63 - 2 ^ 64) + 1 * 2 ^ 64) by lia.
    rewrite Z.mod_add by lia. rewrite Z.mod_small by lia. lia.
Qed.

(** (X11) With an interval from 1 to 9223372036 seconds the ticker is
    created, and PurgeLoop runs one cycle (one "Ping") for each tick it
    selects before the context is cancelled: never more, and exactly that
    many unless a cycle panics. A cycle that ends early on a failure does
    not end the loop; the loop returns when, and only when, cancellation
    is selected. *)
Theorem PurgeLoop_runs_one_cycle_per_tick
    (interval : Z) (sel : list selected) (w : World) :
  1 <= interval <= 9223372036 ->
  (length (argsSent "Ping" (eventsOf (PurgeLoop interval sel w))) <= cyclesDue sel)%nat
  /\ ((forall msg, flowOf (PurgeLoop interval sel w) <> Panic msg) ->
      length (argsSent "Ping" (eventsOf (PurgeLoop interval sel w))) = cyclesDue sel
      /\ (flowOf (PurgeLoop interval sel w) = Return ExitCtxDone <-> CtxDone ∈ sel)).
Proof.
  intros Hi. unfold PurgeLoop. rewrite decide_False; [apply PurgeLoop_for_cycles|].
  unfold wrap64, Second. rewrite Z.mod_small by lia. lia.
Qed.
End Purger.

Import Sample.

Lemma PurgeCache_leaves_read_buckets_empty_witness :
  queued (Store (worldOf (PurgeCache (world queues Up)))) "tyk-system-analytics" = [].
Proof.
  apply (PurgeCache_leaves_read_buckets_empty (world queues Up) "tyk-system-analytics").
  vm_compute. left.
Defined.

Lemma PurgeCache_skips_empty_buckets_witness :
  flowOf (PurgeCache (world ∅ Up)) = Next tt
  /\ eventsOf (PurgeCache (world ∅ Up))
     = (if ClientIsConnected (AnalyticsRecord := Record_) (client (world ∅ Up)) then []
        else [EvLog ErrorLevel [] "RPC client is not connected, use Connect method 1st"])
       ++ EvFuncClientSingleton "Ping" INil None
          :: ((fun i => EvGetAndDeleteSet (analyticsKeyName i)) <$> bucketIndices)
  /\ argsSent "PurgeAnalyticsData" (eventsOf (PurgeCache (world ∅ Up))) = [].
Proof.
  apply (PurgeCache_skips_empty_buckets (world ∅ Up)).
  - reflexivity.
  - vm_compute. repeat constructor.
Defined.

Lemma PurgeCache_completes_whatever_the_collector_answers_witness :
  flowOf (PurgeCache (H := totalCodec) (world queues Up)) = Next tt
  /\ keysRead (eventsOf (PurgeCache (H := totalCodec) (world queues Up)))
     = analyticsKeyName <$> bucketIndices
  /\ Forall (fun i => queued (Store (worldOf (PurgeCache (H := totalCodec)
                                                        (world queues Up))))
                             (analyticsKeyName i) = [])
            bucketIndices.
Proof.
  apply (PurgeCache_completes_whatever_the_collector_answers (Codec0 := totalCodec)
           (world queues Up)).
  - reflexivity.
  - intros keys. reflexivity.
  - vm_compute. repeat constructor.
Defined.

Lemma PurgeLoop_panics_without_positive_duration_witness :
  PurgeLoop 0 [TickC; CtxDone] (world queues Up)
  = (Panic "non-positive interval for NewTicker", world queues Up, []).
Proof.
  apply (PurgeLoop_panics_without_positive_duration 0 [TickC; CtxDone] (world queues Up)).
  left. lia.
Defined.

(** The collector is down: two ticks, two pings, then the cancellation. *)
Lemma PurgeLoop_runs_one_cycle_per_tick_witness :
  (length (argsSent "Ping"
             (eventsOf (PurgeLoop 10 [TickC; TickC; CtxDone; TickC] (world queues Down))))
   <= cyclesDue [TickC; TickC; CtxDone; TickC])%nat
  /\ ((forall msg, flowOf (PurgeLoop 10 [TickC; TickC; CtxDone; TickC] (world queues Down))
                   <> Panic msg) ->
      length (argsSent "Ping"
                (eventsOf (PurgeLoop 10 [TickC; TickC; CtxDone; TickC]
                                     (world queues Down))))
      = cyclesDue [TickC; TickC; CtxDone; TickC]
      /\ (flowOf (PurgeLoop 10 [TickC; TickC; CtxDone; TickC] (world queues Down))
          = Return ExitCtxDone
          <-> CtxDone ∈ [TickC; TickC; CtxDone; TickC])).
Proof.
  apply (PurgeLoop_runs_one_cycle_per_tick 10 [TickC; TickC; CtxDone; TickC]
           (world queues Down)).
  lia.
Defined.
End RpcMore.

(** ** Further properties of the DRL notifications and of configuration
       push/pull *)
Module GatewayMore.
Import Go Obs GoFacts Gateway GatewaySpec.
Local Open Scope go_scope.

Lemma append_nil_r (s : string) : s +:+ "" = s.
Proof.
  induction s as [|a s IH]; [reflexivity|].
  change (String a s +:+ "") with (String a (s +:+ "")). rewrite IH. reflexivity.
Qed.

Lemma append_assoc (s1 s2 s3 : string) : (s1 +:+ s2) +:+ s3 = s1 +:+ (s2 +:+ s3).
Proof.
  induction s1 as [|a s1 IH]; [reflexivity|].
  change ((String a s1 +:+ s2) +:+ s3) with (String a ((s1 +:+ s2) +:+ s3)).
  rewrite IH. reflexivity.
Qed.

Lemma foldl_append (tags : list string) :
  forall th, foldl (fun th tag => th +:+ tag) th tags = th +:+ foldr String.append "" tags.
Proof.
  induction tags as [|tag tags IH]; intros th; cbn [foldl foldr].
  - rewrite append_nil_r. reflexivity.
  - rewrite IH, append_assoc. reflexivity.
Qed.

Lemma foldr_append_app (l1 l2 : list string) :
  foldr String.append "" (l1 ++ l2)
  = foldr String.append "" l1 +:+ foldr String.append "" l2.
Proof.
  induction l1 as [|a l1 IH]; cbn [foldr app]; [reflexivity|].
  rewrite IH, append_assoc. reflexivity.
Qed.

Section Gateway.
Context {Config DRL V : Type} {env : Env Config DRL V}.

Local Abbreviation World := (World DRL).
Local Abbreviation Event := (Event Config).
Local Abbreviation Gateway := (Gateway.Gateway Config).

(** *** DRL notifications *)

(** (X12) The tag hash is the concatenation of the configured tags, in
    their order, and the empty string without tags; so a node whose tag
    list continues another's has a hash that continues the other's, and
    two tag lists with the same concatenation have the same hash. *)
Theorem getTagHash_concatenates_tags (gw : Gateway) :
  getTagHash gw = foldr String.append "" (Tags (GetConfig gw))
  /\ (Tags (GetConfig gw) = [] -> getTagHash gw = "")
  /\ (forall gw' more, Tags (GetConfig gw') = Tags (GetConfig gw) ++ more ->
         getTagHash gw' = getTagHash gw +:+ foldr String.append "" more)
  /\ (forall gw', foldr String.append "" (Tags (GetConfig gw'))
                  = foldr String.append "" (Tags (GetConfig gw)) ->
         getTagHash gw' = getTagHash gw).
Proof.
  assert (H : forall g : Gateway,
             getTagHash g = foldr String.append "" (Tags (GetConfig g))).
  { intros g. unfold getTagHash. rewrite foldl_append. reflexivity. }
  split; [apply H|]. split; [|split].
  - intros E. rewrite H, E. reflexivity.
  - intros gw' more E. rewrite !H, E. apply foldr_append_app.
  - intros gw' E. rewrite !H. exact E.
Qed.

Lemma NotifyCurrentServerStatus_run (gw : Gateway) (w : World) :
  NotifyCurrentServerStatus gw w
  = match DRLManager w with
    | None => (Return ExitDRLNotReady, w, [])
    | Some drlManager =>
        if negb (Ready drlManager) then (Return ExitDRLNotReady, w, [])
        else
          match json_Marshal_Server
                  (mkServer (Hostname (hostDetails gw)) (GetNodeID gw)
                            (if decide (GlobalRate w = 0) then 1 else GlobalRate w)
                            (getTagHash gw)) with
          | (_, Some err) =>
              (Return ExitEncodeFailed, w,
               [EvLog ErrorLevel [] ("Failed to encode payload: " +:+ err)])
          | (asJson, None) =>
              (Next tt, w,
               [EvNotify (mkNotification NoticeGatewayDRLNotification asJson gw)])
          end
    end.
Proof.
  unfold NotifyCurrentServerStatus. mstep.
  destruct (DRLManager w) as [d|]; [|reflexivity].
  destruct (Ready d); cbn [negb]; [|reflexivity].
  destruct (json_Marshal_Server _) as [asJson [err|]];
    [unfold log; repeat mstep; reflexivity|reflexivity].
Qed.

(** What one call puts on the bus. *)
Lemma NotifyCurrentServerStatus_report (gw : Gateway) (w : World)
    (n : Notification Config) :
  EvNotify n ∈ eventsOf (NotifyCurrentServerStatus gw w) ->
  Gw n = gw
  /\ Command n = NoticeGatewayDRLNotification
  /\ exists server,
       json_Marshal_Server server = (Payload n, None)
       /\ ID server = GetNodeID gw
       /\ HostName server = Hostname (hostDetails gw)
       /\ LoadPerSec server <> 0.
Proof.
  rewrite NotifyCurrentServerStatus_run.
  destruct (DRLManager w) as [d|]; [|intros Hin; inversion Hin].
  destruct (Ready d); cbn [negb]; [|intros Hin; inversion Hin].
  destruct (json_Marshal_Server _) as [asJson [err|]] eqn:Em; cbn [eventsOf snd];
    intros Hin; apply list_elem_of_singleton in Hin; [discriminate|].
  injection Hin as ->. cbn [Gw Command Payload].
  split; [reflexivity|]. split; [reflexivity|].
  eexists. split; [exact Em|]. cbn [ID HostName LoadPerSec].
  split; [reflexivity|]. split; [reflexivity|].
  destruct (decide (GlobalRate w = 0)); [discriminate|assumption].
Qed.

(** (X13) NotifyCurrentServerStatus never changes anything on the node
    and has at most one effect; without a DRL manager, or with one that
    is not ready, it has none at all, not even a log line; and the load a
    report carries is never 0, whatever GlobalRate.Rate() says. *)
Theorem NotifyCurrentServerStatus_is_read_only (gw : Gateway) (w : World) :
  worldOf (NotifyCurrentServerStatus gw w) = w
  /\ (length (eventsOf (NotifyCurrentServerStatus gw w)) <= 1)%nat
  /\ (DRLManager w = None \/ (exists d, DRLManager w = Some d /\ Ready d = false) ->
      NotifyCurrentServerStatus gw w = (Return ExitDRLNotReady, w, []))
  /\ (forall n, EvNotify n ∈ eventsOf (NotifyCurrentServerStatus gw w) ->
        flowOf (NotifyCurrentServerStatus gw w) = Next tt
        /\ exists server,
             json_Marshal_Server server = (Payload n, None)
             /\ LoadPerSec server <> 0).
Proof.
  split; [|split; [|split]].
  - rewrite NotifyCurrentServerStatus_run.
    destruct (DRLManager w) as [d|]; [|reflexivity].
    destruct (Ready d); cbn [negb]; [|reflexivity].
    destruct (json_Marshal_Server _) as [asJson [err|]]; reflexivity.
  - rewrite NotifyCurrentServerStatus_run.
    destruct (DRLManager w) as [d|]; [|cbn; lia].
    destruct (Ready d); cbn [negb]; [|cbn; lia].
    destruct (json_Marshal_Server _) as [asJson [err|]]; cbn; lia.
  - rewrite NotifyCurrentServerStatus_run.
    intros [->|(d & -> & ->)]; reflexivity.
  - intros n Hin.
    destruct (NotifyCurrentServerStatus_report gw w n Hin)
      as (_ & _ & server & Hm & _ & _ & Hl).
    split; [|exists server; split; assumption].
    clear server Hm Hl. revert Hin. rewrite NotifyCurrentServerStatus_run.
    destruct (DRLManager w) as [d|]; [|intros Hin; inversion Hin].
    destruct (Ready d); cbn [negb]; [|intros Hin; inversion Hin].
    destruct (json_Marshal_Server _) as [asJson [err|]]; cbn [eventsOf snd];
      intros Hin; apply list_elem_of_singleton in Hin; [discriminate|reflexivity].
Qed.

(** One turn of the goroutine with node id [nodeID]. *)
Lemma rateLimitNotifications_for_cons (gw : Gateway) (nodeID : string)
    (rest : list (option string)) (w : World) :
  rateLimitNotifications_for gw (Some nodeID :: rest) w
  = (flowOf (rateLimitNotifications_for gw rest w),
     worldOf (rateLimitNotifications_for gw rest w),
     (if decide (nodeID <> "") then
        eventsOf (NotifyCurrentServerStatus
                    (mkGateway (hostDetails gw) nodeID (GetConfig gw)) w)
      else [EvLog WarnLevel [] "Node not registered yet, skipping DRL Notification"])
     ++ eventsOf (rateLimitNotifications_for gw rest w)).
Proof.
  cbn [rateLimitNotifications_for].
  destruct (decide (nodeID <> "")) as [Hid|Hid].
  - set (gw' := mkGateway (hostDetails gw) nodeID (GetConfig gw)).
    pose proof (call_run (L' := loopExit) (NotifyCurrentServerStatus gw') w) as Hc.
    assert (Hw : worldOf (NotifyCurrentServerStatus gw' w) = w).
    { rewrite NotifyCurrentServerStatus_run.
      destruct (DRLManager w) as [d|]; [|reflexivity].
      destruct (Ready d); cbn [negb]; [|reflexivity].
      destruct (json_Marshal_Server _) as [asJson [err|]]; reflexivity. }
    assert (Hf : match flowOf (NotifyCurrentServerStatus gw' w) with
                 | Panic msg => Panic msg
                 | _ => Next tt
                 end = (Next tt : flow loopExit unit)).
    { rewrite NotifyCurrentServerStatus_run.
      destruct (DRLManager w) as [d|]; [|reflexivity].
      destruct (Ready d); cbn [negb]; [|reflexivity].
      destruct (json_Marshal_Server _) as [asJson [err|]]; reflexivity. }
    rewrite Hw, Hf in Hc.
    apply (bind_Next _ (fun _ => rateLimitNotifications_for gw rest) _ _ _ _ Hc).
  - mstep. reflexivity.
Qed.

Lemma rateLimitNotifications_for_facts (gw : Gateway) (turns : list (option string)) :
  forall w : World,
    worldOf (rateLimitNotifications_for gw turns w) = w
    /\ (forall msg, flowOf (rateLimitNotifications_for gw turns w) <> Panic msg)
    /\ (length (notifications (eventsOf (rateLimitNotifications_for gw turns w)))
        <= turnsRegistered turns)%nat
    /\ (forall n, EvNotify n ∈ eventsOf (rateLimitNotifications_for gw turns w) ->
          GetNodeID (Gw n) <> ""
          /\ Some (GetNodeID (Gw n)) ∈ turns
          /\ hostDetails (Gw n) = hostDetails gw
          /\ exists server,
               json_Marshal_Server server = (Payload n, None)
               /\ ID server = GetNodeID (Gw n)
               /\ LoadPerSec server <> 0).
Proof.
  induction turns as [|[nodeID|] rest IH]; intros w.
  - split; [reflexivity|]. split; [discriminate|]. split; [cbn; lia|].
    intros n Hin. inversion Hin.
  - rewrite rateLimitNotifications_for_cons.
    destruct (IH w) as (Hw & Hnp & Hlen & Hrep).
    cbn [flowOf worldOf eventsOf fst snd turnsRegistered].
    split; [exact Hw|]. split; [exact Hnp|]. split.
    + unfold notifications. rewrite omap_app, length_app.
      destruct (decide (nodeID <> "")) as [Hid|Hid].
      * assert (Hone : (length (omap (fun e : Event =>
                                 match e with EvNotify n => Some n | _ => None end)
                          (eventsOf (NotifyCurrentServerStatus
                             (mkGateway (hostDetails gw) nodeID (GetConfig gw)) w)))
                        <= 1)%nat).
        { rewrite NotifyCurrentServerStatus_run.
          destruct (DRLManager w) as [d|]; [|cbn; lia].
          destruct (Ready d); cbn [negb]; [|cbn; lia].
          destruct (json_Marshal_Server _) as [asJson [err|]]; cbn; lia. }
        unfold notifications in Hlen. lia.
      * unfold notifications in Hlen. cbn [omap list_omap length]. lia.
    + intros n [Hin|Hin]%elem_of_app.
      * destruct (decide (nodeID <> "")) as [Hid|Hid];
          [|apply list_elem_of_singleton in Hin; discriminate].
        destruct (NotifyCurrentServerStatus_report _ w n Hin)
          as (Hgw & _ & server & Hm & Hi & _ & Hl).
        rewrite Hgw. cbn [GetNodeID hostDetails]. split; [exact Hid|].
        split; [left|]. split; [reflexivity|].
        exists server. cbn [GetNodeID] in Hi.
        repeat split; assumption.
      * destruct (Hrep n Hin) as (H1 & H2 & H3 & H4).
        split; [exact H1|]. split; [right; exact H2|]. split; [exact H3|exact H4].
  - split; [reflexivity|]. split; [discriminate|]. split; [cbn; lia|].
    intros n Hin. inversion Hin.
Qed.

(** (X14) The notification goroutine, turn by turn: it changes nothing on
    the node and never panics; it puts at most one report on the bus for
    each turn taken with a registered node before cancellation, and none
    in a turn in which the node id is empty; every report carries the
    node id read in its turn, which is not empty, and a load that is not
    0. *)
Theorem startRateLimitNotifications_reports_registered_node_only
    (gw : Gateway) (turns : list (option string)) (w : World) :
  worldOf (startRateLimitNotifications gw turns w) = w
  /\ (forall msg, flowOf (startRateLimitNotifications gw turns w) <> Panic msg)
  /\ (length (notifications (eventsOf (startRateLimitNotifications gw turns w)))
      <= turnsRegistered turns)%nat
  /\ (forall n, EvNotify n ∈ eventsOf (startRateLimitNotifications gw turns w) ->
        GetNodeID (Gw n) <> ""
        /\ Some (GetNodeID (Gw n)) ∈ turns
        /\ hostDetails (Gw n) = hostDetails gw
        /\ exists server,
             json_Marshal_Server server = (Payload n, None)
             /\ ID server = GetNodeID (Gw n)
             /\ LoadPerSec server <> 0).
Proof.
  unfold startRateLimitNotifications. rewrite bind_emit.
  destruct (rateLimitNotifications_for_facts gw turns w) as (Hw & Hnp & Hlen & Hrep).
  cbn [flowOf worldOf eventsOf fst snd].
  split; [exact Hw|]. split; [exact Hnp|]. split; [exact Hlen|].
  intros n [Hin|Hin]%elem_of_cons; [discriminate|]. apply Hrep, Hin.
Qed.

Lemma onServerStatusReceivedHandler_run (gw : Gateway) (payload : string) (w : World) :
  onServerStatusReceivedHandler gw payload w
  = match DRLManager w with
    | None =>
        (Return ExitDRLNotReady, w,
         [EvLog WarnLevel [] "DRL not ready, skipping this notification"])
    | Some drlManager =>
        if negb (Ready drlManager) then
          (Return ExitDRLNotReady, w,
           [EvLog WarnLevel [] "DRL not ready, skipping this notification"])
        else
          match json_Unmarshal_Server payload (mkServer "" "" 0 "") with
          | (_, Some err) =>
              (Return ExitUnmarshalFailed, w,
               [EvLog ErrorLevel [FErr err; FString "payload" payload]
                      "DRL: Failed to unmarshal server data"])
          | (serverData, None) =>
              let w' := mkWorld (files w)
                                (Some (AddOrUpdateServer drlManager serverData).2)
                                (GlobalRate w) in
              match (AddOrUpdateServer drlManager serverData).1 with
              | Some e =>
                  (Return ExitAddOrUpdateFailed, w',
                   [EvLog DebugLevel [FErr e; FServerData serverData]
                      "AddOrUpdateServer error. Seems like you running multiple segmented Tyk groups in same Redis."])
              | None => (Next tt, w', [])
              end
          end
    end.
Proof.
  unfold onServerStatusReceivedHandler. mstep.
  destruct (DRLManager w) as [d|]; [|unfold log; repeat mstep; reflexivity].
  destruct (Ready d); cbn [negb]; [|unfold log; repeat mstep; reflexivity].
  destruct (json_Unmarshal_Server payload (mkServer "" "" 0 "")) as [sv [err|]];
    [unfold log; repeat mstep; reflexivity|].
  destruct (AddOrUpdateServer d sv) as [[e|] d']; cbn [fst snd];
    unfold log; repeat mstep; reflexivity.
Qed.

(** (X15) The handler of load reports never touches the files nor the
    measured rate, and does nothing but log. Without a ready DRL manager
    the payload is not even decoded and nothing changes; a payload that
    does not decode changes nothing either; a decoded report is handed to
    AddOrUpdateServer, whose manager state is kept whether or not the call
    reports an error, and the handler completes exactly when it reports
    none. *)
Theorem onServerStatusReceivedHandler_updates_manager_only
    (gw : Gateway) (payload : string) (w : World) :
  files (worldOf (onServerStatusReceivedHandler gw payload w)) = files w
  /\ GlobalRate (worldOf (onServerStatusReceivedHandler gw payload w)) = GlobalRate w
  /\ (forall ev, ev ∈ eventsOf (onServerStatusReceivedHandler gw payload w) ->
                 isLog ev = true)
  /\ (DRLManager w = None \/ (exists d, DRLManager w = Some d /\ Ready d = false) ->
      worldOf (onServerStatusReceivedHandler gw payload w) = w
      /\ flowOf (onServerStatusReceivedHandler gw payload w) = Return ExitDRLNotReady)
  /\ (forall d, DRLManager w = Some d -> Ready d = true ->
        match json_Unmarshal_Server payload (mkServer "" "" 0 "") with
        | (_, Some _) =>
            worldOf (onServerStatusReceivedHandler gw payload w) = w
            /\ flowOf (onServerStatusReceivedHandler gw payload w)
               = Return ExitUnmarshalFailed
        | (serverData, None) =>
            DRLManager (worldOf (onServerStatusReceivedHandler gw payload w))
            = Some (AddOrUpdateServer d serverData).2
            /\ (flowOf (onServerStatusReceivedHandler gw payload w) = Next tt
                <-> (AddOrUpdateServer d serverData).1 = None)
        end).
Proof.
  rewrite onServerStatusReceivedHandler_run.
  split; [|split; [|split; [|split]]].
  - destruct (DRLManager w) as [d|]; [|reflexivity].
    destruct (Ready d); cbn [negb]; [|reflexivity].
    destruct (json_Unmarshal_Server _ _) as [sv [err|]]; [reflexivity|].
    destruct (AddOrUpdateServer d sv).1; reflexivity.
  - destruct (DRLManager w) as [d|]; [|reflexivity].
    destruct (Ready d); cbn [negb]; [|reflexivity].
    destruct (json_Unmarshal_Server _ _) as [sv [err|]]; [reflexivity|].
    destruct (AddOrUpdateServer d sv).1; reflexivity.
  - intros ev.
    destruct (DRLManager w) as [d|];
      [|intros Hin; apply list_elem_of_singleton in Hin as ->; reflexivity].
    destruct (Ready d); cbn [negb];
      [|intros Hin; apply list_elem_of_singleton in Hin as ->; reflexivity].
    destruct (json_Unmarshal_Server _ _) as [sv [err|]];
      [intros Hin; apply list_elem_of_singleton in Hin as ->; reflexivity|].
    cbn zeta. destruct (AddOrUpdateServer d sv).1; cbn [eventsOf snd]; intros Hin;
      [apply list_elem_of_singleton in Hin as ->; reflexivity|inversion Hin].
  - intros [->|(d & -> & ->)]; split; reflexivity.
  - intros d -> ->. cbn [negb].
    destruct (json_Unmarshal_Server _ _) as [sv [err|]]; [split; reflexivity|].
    cbn zeta. destruct (AddOrUpdateServer d sv).1 as [e|];
      cbn [flowOf worldOf fst snd DRLManager]; (split; [reflexivity|]);
      split; try discriminate; reflexivity.
Qed.

(** *** Configuration push *)

(** (X16) backupConfiguration always comes back with a verdict, [nil]
    exactly when the current configuration marshals and the file can be
    written; on [nil] the backup file holds the marshalled current
    configuration, on an error nothing has changed; in either case no
    file other than the backup file is touched, nor the DRL state. *)
Theorem backupConfiguration_writes_only_the_backup (gw : Gateway) (w : World) :
  (exists verdict,
      flowOf (backupConfiguration gw w) = Next verdict
      /\ (verdict = None
          <-> (json_MarshalIndent_Config (GetConfig gw) "" "    ").2 = None
              /\ WriteFile_error (files w) backupName (backupData gw) = None)
      /\ (verdict <> None -> worldOf (backupConfiguration gw w) = w)
      /\ (verdict = None ->
          files (worldOf (backupConfiguration gw w)) !! backupName
          = Some (backupData gw)))
  /\ (forall path, path <> backupName ->
        files (worldOf (backupConfiguration gw w)) !! path = files w !! path)
  /\ DRLManager (worldOf (backupConfiguration gw w)) = DRLManager w
  /\ GlobalRate (worldOf (backupConfiguration gw w)) = GlobalRate w.
Proof.
  rewrite backupConfiguration_run. unfold backupData.
  destruct (json_MarshalIndent_Config (GetConfig gw) "" "    ") as [o [e|]];
    cbn [fst snd].
  - split; [|repeat split].
    exists (Some e). cbn [flowOf fst]. split; [reflexivity|].
    split; [split; [discriminate|intros [H _]; discriminate]|].
    split; [reflexivity|discriminate].
  - rewrite ioutil_WriteFile_run.
    destruct (WriteFile_error (files w) backupName o) as [e|];
      cbn [flowOf worldOf fst snd files DRLManager GlobalRate].
    + split; [|repeat split].
      exists (Some e). split; [reflexivity|].
      split; [split; [discriminate|intros [_ H]; discriminate]|].
      split; [reflexivity|discriminate].
    + split; [|split; [|split; reflexivity]].
      * exists None. split; [reflexivity|]. split; [split; [split|]; reflexivity|].
        split; [intros H; contradiction|]. intros _. apply lookup_insert_eq.
      * intros path Hp. apply lookup_insert_ne. congruence.
Qed.

(** (X17) writeNewConfiguration can change one file only, the first of
    [confPaths]; it panics exactly when [confPaths] is empty and the
    configuration marshals (a marshalling error is returned before the
    path is looked at); on [nil] that file holds the marshalled
    configuration of the payload, and on an error nothing has changed. *)
Theorem writeNewConfiguration_writes_only_the_first_path
    (cp : ConfigPayload Config) (w : World) :
  ((exists msg, flowOf (writeNewConfiguration cp w) = Panic msg)
   <-> confPaths = [] /\ (json_MarshalIndent_Config (Configuration cp) "" "    ").2 = None)
  /\ (forall path, head confPaths <> Some path ->
        files (worldOf (writeNewConfiguration cp w)) !! path = files w !! path)
  /\ (flowOf (writeNewConfiguration cp w) = Next None ->
      exists path,
        head confPaths = Some path
        /\ files (worldOf (writeNewConfiguration cp w)) !! path
           = Some (json_MarshalIndent_Config (Configuration cp) "" "    ").1)
  /\ (forall e, flowOf (writeNewConfiguration cp w) = Next (Some e) ->
        worldOf (writeNewConfiguration cp w) = w).
Proof.
  rewrite writeNewConfiguration_run.
  destruct (json_MarshalIndent_Config (Configuration cp) "" "    ") as [o [e|]];
    cbn [fst snd].
  - split; [split; [intros [msg H]; discriminate|intros [_ H]; discriminate]|].
    split; [reflexivity|]. split; [discriminate|reflexivity].
  - destruct confPaths as [|p rest].
    + split; [split; [intros _; split; reflexivity|intros _; eexists; reflexivity]|].
      split; [reflexivity|]. split; [discriminate|discriminate].
    + rewrite ioutil_WriteFile_run.
      destruct (WriteFile_error (files w) p o) as [e|];
        cbn [flowOf worldOf fst snd files head].
      * split; [split; [intros [msg H]; discriminate|intros [H _]; discriminate]|].
        split; [reflexivity|]. split; [discriminate|reflexivity].
      * split; [split; [intros [msg H]; discriminate|intros [H _]; discriminate]|].
        split; [intros path Hp; apply lookup_insert_ne; congruence|].
        split; [|discriminate].
        intros _. exists p. split; [reflexivity|apply lookup_insert_eq].
Qed.

(** The accepted part of the handler once the backup is written. *)
Lemma acceptedRun_after_backup (gw : Gateway) (cp : ConfigPayload Config) (w : World)
    (old : string) :
  json_MarshalIndent_Config (GetConfig gw) "" "    " = (old, None) ->
  WriteFile_error (files w) backupName old = None ->
  let w1 := mkWorld (<[backupName := old]> (files w)) (DRLManager w) (GlobalRate w) in
  let bw := EvWriteFile backupName old 420 None in
  acceptedRun gw cp w
  = match json_MarshalIndent_Config (Configuration cp) "" "    " with
    | (_, Some e) =>
        (Return ExitWriteFailed, w1,
         [bw; EvLog ErrorLevel [FErr e] "Failed to write new configuration"])
    | (new, None) =>
        match confPaths with
        | [] => (Panic "index out of range [0] with length 0", w1, [bw])
        | path :: _ =>
            match WriteFile_error (files w1) path new with
            | Some e =>
                (Return ExitWriteFailed, w1,
                 [bw; EvWriteFile path new 420 (Some e);
                  EvLog ErrorLevel [FErr e] "Failed to write new configuration"])
            | None =>
                let w2 := mkWorld (<[path := new]> (files w1)) (DRLManager w)
                                  (GlobalRate w) in
                let pw := EvWriteFile path new 420 None in
                let myPID := PID (hostDetails gw) in
                if decide (myPID = 0) then
                  (Return ExitNoPID, w2,
                   [bw; pw; EvLog InfoLevel [] "Initiating configuration reload";
                    EvLog ErrorLevel [] "No PID found, cannot reload"])
                else
                  (Next tt, w2,
                   [bw; pw; EvLog InfoLevel [] "Initiating configuration reload";
                    EvLog InfoLevel [] ("Sending reload signal to PID: " +:+ itoa myPID);
                    EvKill myPID SIGUSR2 (syscall_Kill myPID SIGUSR2)]
                   ++ match syscall_Kill myPID SIGUSR2 with
                      | Some e => [EvLog ErrorLevel [] ("Process reload failed: " +:+ e)]
                      | None => []
                      end)
            end
        end
    end.
Proof.
  intros Hold Hbw. cbn zeta. unfold acceptedRun.
  rewrite backupConfiguration_run, Hold, ioutil_WriteFile_run, Hbw.
  cbn [flowOf worldOf eventsOf fst snd].
  rewrite writeNewConfiguration_run.
  destruct (json_MarshalIndent_Config (Configuration cp) "" "    ") as [new [e|]];
    [reflexivity|].
  destruct confPaths as [|path rest]; [reflexivity|].
  rewrite ioutil_WriteFile_run. cbn [files DRLManager GlobalRate].
  destruct (WriteFile_error _ path new) as [e|]; [reflexivity|].
  cbn [flowOf worldOf eventsOf fst snd].
  destruct (decide (PID (hostDetails gw) = 0)); reflexivity.
Qed.

(** (X18) A payload that does not decode, or is addressed to another
    node, or arrives on a node that does not allow remote configuration,
    changes nothing: the handler returns having written one log line and
    nothing else. *)
Theorem handleNewConfiguration_rejected_changes_nothing
    (gw : Gateway) (payload : string) (w : World) :
  (json_Unmarshal_ConfigPayload payload (loadedPayload w)).2 <> None
  \/ (ForHostname (json_Unmarshal_ConfigPayload payload (loadedPayload w)).1
        <> Hostname (hostDetails gw)
      /\ ForNodeID (json_Unmarshal_ConfigPayload payload (loadedPayload w)).1
          <> GetNodeID gw)
  \/ AllowRemoteConfig (GetConfig gw) = false ->
  worldOf (handleNewConfiguration gw payload w) = w
  /\ (exists l, flowOf (handleNewConfiguration gw payload w) = Return l)
  /\ (exists lvl fields msg,
        eventsOf (handleNewConfiguration gw payload w) = [EvLog lvl fields msg]).
Proof.
  rewrite handleNewConfiguration_run.
  destruct (json_Unmarshal_ConfigPayload payload (loadedPayload w)) as [cp [err|]];
    cbn [fst snd].
  { intros _. split; [reflexivity|]. split; eauto. }
  destruct (decide _) as [Hd|Hd].
  { intros _. split; [reflexivity|]. split; eauto. }
  intros [H|[H|H]]; [contradiction|contradiction|]. rewrite H. cbn [negb].
  split; [reflexivity|]. split; eauto.
Qed.

(** (X19) The reload signal: whenever handleNewConfiguration calls
    syscall.Kill it is with SIGUSR2 on the node's own process id, which is
    not 0; it does so once, as the last thing but for the log of a failed
    call, after the backup and then the new configuration were written
    successfully; and it then runs to its end whether or not the call
    failed. *)
Theorem handleNewConfiguration_signals_own_process_after_writes
    (gw : Gateway) (payload : string) (w : World)
    (pid : Z) (sig : Signal) (err : option error) :
  EvKill pid sig err ∈ eventsOf (handleNewConfiguration gw payload w) ->
  pid = PID (hostDetails gw) /\ pid <> 0 /\ sig = SIGUSR2
  /\ err = syscall_Kill pid sig
  /\ flowOf (handleNewConfiguration gw payload w) = Next tt
  /\ length (List.filter isKill (eventsOf (handleNewConfiguration gw payload w))) = 1%nat
  /\ exists cp path rest new tail,
       json_Unmarshal_ConfigPayload payload (loadedPayload w) = (cp, None)
       /\ confPaths = path :: rest
       /\ json_MarshalIndent_Config (Configuration cp) "" "    " = (new, None)
       /\ eventsOf (handleNewConfiguration gw payload w)
          = EvWriteFile backupName (backupData gw) 420 None
            :: EvWriteFile path new 420 None :: tail.
Proof.
  rewrite handleNewConfiguration_run.
  destruct (json_Unmarshal_ConfigPayload payload (loadedPayload w)) as [cp [e0|]].
  { intros Hin. apply list_elem_of_singleton in Hin. discriminate. }
  destruct (decide _) as [Hd|Hd].
  { intros Hin. apply list_elem_of_singleton in Hin. discriminate. }
  destruct (negb (AllowRemoteConfig (GetConfig gw))).
  { intros Hin. apply list_elem_of_singleton in Hin. discriminate. }
  destruct (acceptedRun_backup gw cp w)
    as [(e & _ & ->)|[(e & _ & ->)|(Hb & _)]].
  { intros Hin. apply list_elem_of_singleton in Hin. discriminate. }
  { intros Hin. repeat (apply elem_of_cons in Hin as [Hin|Hin]; [discriminate|]).
    inversion Hin. }
  revert Hb. rewrite backupConfiguration_run. unfold backupData.
  destruct (json_MarshalIndent_Config (GetConfig gw) "" "    ") as [old [e|]] eqn:Hold;
    [discriminate|].
  rewrite ioutil_WriteFile_run.
  destruct (WriteFile_error (files w) backupName old) as [e|] eqn:Hbw; [discriminate|].
  intros _. rewrite (acceptedRun_after_backup gw cp w old Hold Hbw). cbn zeta. cbn [fst].
  destruct (json_MarshalIndent_Config (Configuration cp) "" "    ") as [new [e|]] eqn:Hnew.
  { intros Hin. repeat (apply elem_of_cons in Hin as [Hin|Hin]; [discriminate|]).
    inversion Hin. }
  destruct confPaths as [|path rest].
  { intros Hin. repeat (apply elem_of_cons in Hin as [Hin|Hin]; [discriminate|]).
    inversion Hin. }
  destruct (WriteFile_error _ path new) as [e|].
  { intros Hin. repeat (apply elem_of_cons in Hin as [Hin|Hin]; [discriminate|]).
    inversion Hin. }
  destruct (decide (PID (hostDetails gw) = 0)) as [Hp|Hp].
  { intros Hin. repeat (apply elem_of_cons in Hin as [Hin|Hin]; [discriminate|]).
    inversion Hin. }
  cbn [flowOf eventsOf fst snd app]. intros Hin.
  do 4 (apply elem_of_cons in Hin as [Hin|Hin]; [discriminate|]).
  apply elem_of_cons in Hin as [Hin|Hin].
  - destruct sig. injection Hin as -> ->.
    repeat (split; [first [reflexivity | exact Hp]|]).
    split.
    + destruct (syscall_Kill (PID (hostDetails gw)) SIGUSR2); reflexivity.
    + exists cp, path, rest, new. eexists.
      split; [reflexivity|]. split; [reflexivity|]. split; [exact Hnew|reflexivity].
  - destruct (syscall_Kill (PID (hostDetails gw)) SIGUSR2);
      [apply list_elem_of_singleton in Hin; discriminate|inversion Hin].
Qed.

(** (X20) An accepted payload on a node whose files can be written and
    whose configurations marshal: afterwards the first of [confPaths]
    holds the marshalled new configuration, the backup file (if it is
    another file) the marshalled current one, and every other file is
    what it was. With a process id the handler signals and runs to its
    end; with process id 0 it returns without signalling, the new
    configuration already written. *)
Theorem handleNewConfiguration_writes_backup_then_configuration
    (gw : Gateway) (payload : string) (w : World) (cp : ConfigPayload Config)
    (old new path : string) (rest : list string) :
  json_Unmarshal_ConfigPayload payload (loadedPayload w) = (cp, None) ->
  ForHostname cp = Hostname (hostDetails gw) \/ ForNodeID cp = GetNodeID gw ->
  AllowRemoteConfig (GetConfig gw) = true ->
  json_MarshalIndent_Config (GetConfig gw) "" "    " = (old, None) ->
  WriteFile_error (files w) backupName old = None ->
  json_MarshalIndent_Config (Configuration cp) "" "    " = (new, None) ->
  confPaths = path :: rest ->
  WriteFile_error (<[backupName := old]> (files w)) path new = None ->
  files (worldOf (handleNewConfiguration gw payload w))
    = <[path := new]> (<[backupName := old]> (files w))
  /\ files (worldOf (handleNewConfiguration gw payload w)) !! path = Some new
  /\ (backupName <> path ->
      files (worldOf (handleNewConfiguration gw payload w)) !! backupName = Some old)
  /\ (forall other, other <> path -> other <> backupName ->
        files (worldOf (handleNewConfiguration gw payload w)) !! other
        = files w !! other)
  /\ (PID (hostDetails gw) <> 0 ->
      flowOf (handleNewConfiguration gw payload w) = Next tt
      /\ EvKill (PID (hostDetails gw)) SIGUSR2 (syscall_Kill (PID (hostDetails gw)) SIGUSR2)
           ∈ eventsOf (handleNewConfiguration gw payload w))
  /\ (PID (hostDetails gw) = 0 ->
      flowOf (handleNewConfiguration gw payload w) = Return ExitNoPID).
Proof.
  intros Hd Haddr Hallow Hold Hbw Hnew Hpaths Hpw.
  assert (Hfiles : files (worldOf (handleNewConfiguration gw payload w))
                   = <[path := new]> (<[backupName := old]> (files w))
            /\ (PID (hostDetails gw) <> 0 ->
                flowOf (handleNewConfiguration gw payload w) = Next tt
                /\ EvKill (PID (hostDetails gw)) SIGUSR2
                          (syscall_Kill (PID (hostDetails gw)) SIGUSR2)
                     ∈ eventsOf (handleNewConfiguration gw payload w))
            /\ (PID (hostDetails gw) = 0 ->
                flowOf (handleNewConfiguration gw payload w) = Return ExitNoPID)).
  { rewrite handleNewConfiguration_run, Hd.
    rewrite decide_False by (intros [Hh Hn]; destruct Haddr; contradiction).
    rewrite Hallow. cbn [negb].
    rewrite (acceptedRun_after_backup gw cp w old Hold Hbw). cbn zeta.
    rewrite Hnew, Hpaths. cbn [files]. rewrite Hpw.
    destruct (decide (PID (hostDetails gw) = 0)) as [Hp|Hp];
      cbn [flowOf worldOf eventsOf fst snd files].
    - split; [reflexivity|]. split; [intros H; contradiction|reflexivity].
    - split; [reflexivity|]. split; [|intros H; contradiction].
      intros _. split; [reflexivity|]. do 4 right. left. }
  destruct Hfiles as (Hf & Hk & Hz).
  split; [exact Hf|]. rewrite Hf.
  split; [apply lookup_insert_eq|].
  split; [intros Hne; rewrite lookup_insert_ne by congruence; apply lookup_insert_eq|].
  split; [|split; assumption].
  intros other H1 H2. rewrite !lookup_insert_ne by congruence. reflexivity.
Qed.

(** (X21) When the backup was written but the new configuration cannot be
    (it does not marshal, or the write fails), the handler returns
    without signalling: the backup file stays, and it is the only change
    (the first of [confPaths] holds what it held, unless it is the
    backup file itself). *)
Theorem handleNewConfiguration_failed_write_keeps_backup
    (gw : Gateway) (payload : string) (w : World) (cp : ConfigPayload Config)
    (old path : string) (rest : list string) :
  json_Unmarshal_ConfigPayload payload (loadedPayload w) = (cp, None) ->
  ForHostname cp = Hostname (hostDetails gw) \/ ForNodeID cp = GetNodeID gw ->
  AllowRemoteConfig (GetConfig gw) = true ->
  json_MarshalIndent_Config (GetConfig gw) "" "    " = (old, None) ->
  WriteFile_error (files w) backupName old = None ->
  confPaths = path :: rest ->
  (json_MarshalIndent_Config (Configuration cp) "" "    ").2 <> None
  \/ WriteFile_error (<[backupName := old]> (files w)) path
       (json_MarshalIndent_Config (Configuration cp) "" "    ").1 <> None ->
  flowOf (handleNewConfiguration gw payload w) = Return ExitWriteFailed
  /\ files (worldOf (handleNewConfiguration gw payload w))
     = <[backupName := old]> (files w)
  /\ (backupName <> path ->
      files (worldOf (handleNewConfiguration gw payload w)) !! path = files w !! path)
  /\ (forall ev, ev ∈ eventsOf (handleNewConfiguration gw payload w) -> isKill ev = false).
Proof.
  intros Hd Haddr Hallow Hold Hbw Hpaths Hfail.
  assert (H : flowOf (handleNewConfiguration gw payload w) = Return ExitWriteFailed
              /\ files (worldOf (handleNewConfiguration gw payload w))
                 = <[backupName := old]> (files w)
              /\ (forall ev, ev ∈ eventsOf (handleNewConfiguration gw payload w) ->
                             isKill ev = false)).
  { rewrite handleNewConfiguration_run, Hd.
    rewrite decide_False by (intros [Hh Hn]; destruct Haddr; contradiction).
    rewrite Hallow. cbn [negb].
    rewrite (acceptedRun_after_backup gw cp w old Hold Hbw). cbn zeta.
    rewrite Hpaths. cbn [files].
    destruct (json_MarshalIndent_Config (Configuration cp) "" "    ") as [new [e|]];
      cbn [fst snd] in Hfail.
    - cbn [flowOf worldOf eventsOf fst snd files]. repeat split.
      intros ev Hin. repeat (apply elem_of_cons in Hin as [->|Hin]; [reflexivity|]).
      inversion Hin.
    - destruct Hfail as [Hfail|Hfail]; [contradiction|].
      destruct (WriteFile_error _ path new) as [e|]; [|contradiction].
      cbn [flowOf worldOf eventsOf fst snd files]. repeat split.
      intros ev Hin. repeat (apply elem_of_cons in Hin as [->|Hin]; [reflexivity|]).
      inversion Hin. }
  destruct H as (Hf & Hfiles & Hk).
  split; [exact Hf|]. split; [exact Hfiles|]. split; [|exact Hk].
  intros Hne. rewrite Hfiles. apply lookup_insert_ne. exact Hne.
Qed.

(** (X22) Whatever the payload, handleNewConfiguration can change two
    files at most, the backup file and the first of [confPaths]; every
    other file, the DRL manager and the measured rate are what they
    were. handleSendMiniConfig changes nothing at all. *)
Theorem config_handlers_change_two_files_at_most
    (gw : Gateway) (payload : string) (w : World) :
  (forall path, path <> backupName -> head confPaths <> Some path ->
     files (worldOf (handleNewConfiguration gw payload w)) !! path = files w !! path)
  /\ DRLManager (worldOf (handleNewConfiguration gw payload w)) = DRLManager w
  /\ GlobalRate (worldOf (handleNewConfiguration gw payload w)) = GlobalRate w
  /\ worldOf (handleSendMiniConfig gw payload w) = w.
Proof.
  split; [|split; [|split]].
  1-3: rewrite handleNewConfiguration_run;
    (destruct (json_Unmarshal_ConfigPayload payload (loadedPayload w)) as [cp [e0|]];
     [reflexivity|]);
    (destruct (decide _) as [Hd|Hd]; [reflexivity|]);
    (destruct (negb (AllowRemoteConfig (GetConfig gw))); [reflexivity|]);
    unfold acceptedRun; rewrite backupConfiguration_run;
    (destruct (json_MarshalIndent_Config (GetConfig gw) "" "    ") as [old [e|]];
     [reflexivity|]);
    rewrite ioutil_WriteFile_run;
    (destruct (WriteFile_error (files w) backupName old) as [e|]; [reflexivity|]);
    cbn [flowOf worldOf eventsOf fst snd];
    rewrite writeNewConfiguration_run;
    (destruct (json_MarshalIndent_Config (Configuration cp) "" "    ") as [new [e|]];
     [cbn [flowOf worldOf fst snd files DRLManager GlobalRate]|
      destruct confPaths as [|p rest];
      [cbn [flowOf worldOf fst snd files DRLManager GlobalRate]|
       rewrite ioutil_WriteFile_run; cbn [files DRLManager GlobalRate];
       destruct (WriteFile_error _ p new) as [e|];
       [|destruct (decide (PID (hostDetails gw) = 0))];
       cbn [flowOf worldOf fst snd files DRLManager GlobalRate head]]]);
    try reflexivity;
    intros path H1 H2; rewrite ?lookup_insert_ne by congruence; reflexivity.
  unfold handleSendMiniConfig.
  destruct (json_Unmarshal_GetConfigPayload payload _) as [cp [e0|]];
    [unfold log; repeat mstep; reflexivity|].
  destruct (decide _) as [Hd|Hd]; [unfold log; repeat mstep; reflexivity|].
  rewrite (bind_Next _ _ _ _ _ _ (getExistingConfig_run gw w)).
  cbn [worldOf fst snd].
  destruct (files w !! OriginalPath (GetConfig gw)) as [f|];
    [|unfold log; repeat mstep; reflexivity].
  destruct (json_Decode_map f) as [m [e|]]; [unfold log; repeat mstep; reflexivity|].
  destruct (json_Marshal_ReturnConfigPayload _) as [p [e|]];
    unfold log; repeat mstep; reflexivity.
Qed.

(** *** Configuration pull *)

Lemma handleSendMiniConfig_run (gw : Gateway) (payload : string) (w : World) :
  handleSendMiniConfig gw payload w
  = match json_Unmarshal_GetConfigPayload payload (mkGetConfigPayload "" "" 0) with
    | (_, Some err) =>
        (Return ExitUnmarshalFailed, w,
         [EvLog ErrorLevel [] ("Failed unmarshal request: " +:+ err)])
    | (configPayload, None) =>
        if decide (FromHostname configPayload <> Hostname (hostDetails gw)
                   /\ FromNodeID configPayload <> GetNodeID gw) then
          (Return ExitNoMatch, w,
           [EvLog DebugLevel []
              "Configuration request received, no NodeID/Hostname match found, ignoring"])
        else
          match files w !! OriginalPath (GetConfig gw) with
          | None =>
              (Return ExitGetConfigFailed, w,
               [EvLog ErrorLevel []
                  ("Failed to get existing configuration: "
                   +:+ "open: no such file or directory")])
          | Some f =>
              match json_Decode_map f with
              | (_, Some err) =>
                  (Return ExitGetConfigFailed, w,
                   [EvLog ErrorLevel []
                      ("Failed to get existing configuration: " +:+ err)])
              | (microConfig, None) =>
                  match json_Marshal_ReturnConfigPayload
                          (mkReturnConfigPayload (Hostname (hostDetails gw))
                             (GetNodeID gw) (sanitizeConfig microConfig)
                             time_Now_Unix) with
                  | (_, Some err) =>
                      (Return ExitMarshalFailed, w,
                       [EvLog ErrorLevel []
                          ("Failed to get marshal configuration: " +:+ err)])
                  | (payloadAsJSON, None) =>
                      (Next tt, w,
                       [EvNotify (mkNotification NoticeGatewayConfigResponse
                                                 payloadAsJSON gw);
                        EvLog DebugLevel [] "Configuration request responded."])
                  end
              end
          end
    end.
Proof.
  unfold handleSendMiniConfig.
  destruct (json_Unmarshal_GetConfigPayload payload _) as [cp [e0|]];
    [unfold log; repeat mstep; reflexivity|].
  destruct (decide _) as [Hd|Hd]; [unfold log; repeat mstep; reflexivity|].
  rewrite (bind_Next _ _ _ _ _ _ (getExistingConfig_run gw w)).
  destruct (files w !! OriginalPath (GetConfig gw)) as [f|];
    [|unfold log; repeat mstep; reflexivity].
  destruct (json_Decode_map f) as [m [e|]]; [unfold log; repeat mstep; reflexivity|].
  destruct (json_Marshal_ReturnConfigPayload _) as [p [e|]];
    unfold log; repeat mstep; reflexivity.
Qed.

(** (X23) Every reply handleSendMiniConfig puts on the bus is a
    configuration response that encodes the node's hostname and id, the
    current time, and the configuration decoded from the file at the
    node's original path with the sensitive keys removed: none of
    "secret", "node_secret", "storage", "slave_options", "auth_override"
    is a key of it, and every other key of the file is there with its
    value. *)
Theorem handleSendMiniConfig_replies_with_sanitized_file
    (gw : Gateway) (payload : string) (w : World) (n : Notification Config) :
  EvNotify n ∈ eventsOf (handleSendMiniConfig gw payload w) ->
  Command n = NoticeGatewayConfigResponse /\ Gw n = gw
  /\ exists (r : ReturnConfigPayload V) (f : string) (microConfig : gmap string V),
       json_Marshal_ReturnConfigPayload r = (Payload n, None)
       /\ rcFromHostname r = Hostname (hostDetails gw)
       /\ rcFromNodeID r = GetNodeID gw
       /\ rcTimeStamp r = time_Now_Unix
       /\ files w !! OriginalPath (GetConfig gw) = Some f
       /\ json_Decode_map f = (microConfig, None)
       /\ (forall k, k ∈ sanitzeFields -> rcConfiguration r !! k = None)
       /\ (forall k, k ∉ sanitzeFields -> rcConfiguration r !! k = microConfig !! k).
Proof.
  rewrite handleSendMiniConfig_run.
  destruct (json_Unmarshal_GetConfigPayload payload _) as [cp [e0|]].
  { intros Hin. apply list_elem_of_singleton in Hin. discriminate. }
  destruct (decide _) as [Hd|Hd].
  { intros Hin. apply list_elem_of_singleton in Hin. discriminate. }
  destruct (files w !! OriginalPath (GetConfig gw)) as [f|].
  2:{ intros Hin. apply list_elem_of_singleton in Hin. discriminate. }
  destruct (json_Decode_map f) as [m [e|]] eqn:Hdec.
  { intros Hin. apply list_elem_of_singleton in Hin. discriminate. }
  destruct (json_Marshal_ReturnConfigPayload _) as [p [e|]] eqn:Hm.
  { intros Hin. apply list_elem_of_singleton in Hin. discriminate. }
  cbn [eventsOf snd]. intros Hin.
  apply elem_of_cons in Hin as [Hin|Hin];
    [|apply list_elem_of_singleton in Hin; discriminate].
  injection Hin as ->. cbn [Command Gw Payload].
  split; [reflexivity|]. split; [reflexivity|].
  eexists _, f, m. split; [exact Hm|].
  cbn [rcFromHostname rcFromNodeID rcTimeStamp rcConfiguration].
  repeat (split; [reflexivity|]). split; [exact Hdec|].
  split; intros k Hk; rewrite sanitizeConfig_lookup;
    [apply decide_True|apply decide_False]; exact Hk.
Qed.

(** (X24) handleSendMiniConfig replies exactly when the request decodes,
    is addressed to this node by hostname or by node id, the file at the
    node's original path exists and decodes, and the reply marshals; it
    then replies once. In every other case nothing is put on the bus, no
    error reply either. *)
Theorem handleSendMiniConfig_replies_iff
    (gw : Gateway) (payload : string) (w : World) :
  (length (notifications (eventsOf (handleSendMiniConfig gw payload w))) <= 1)%nat
  /\ (notifications (eventsOf (handleSendMiniConfig gw payload w)) <> []
      <-> exists cp f microConfig payloadAsJSON,
            json_Unmarshal_GetConfigPayload payload (mkGetConfigPayload "" "" 0)
              = (cp, None)
            /\ (FromHostname cp = Hostname (hostDetails gw)
                \/ FromNodeID cp = GetNodeID gw)
            /\ files w !! OriginalPath (GetConfig gw) = Some f
            /\ json_Decode_map f = (microConfig, None)
            /\ json_Marshal_ReturnConfigPayload
                 (mkReturnConfigPayload (Hostname (hostDetails gw)) (GetNodeID gw)
                                        (sanitizeConfig microConfig) time_Now_Unix)
               = (payloadAsJSON, None)).
Proof.
  rewrite handleSendMiniConfig_run.
  destruct (json_Unmarshal_GetConfigPayload payload _) as [cp [e0|]].
  { split; [cbn; lia|]. split; [intros H; exfalso; apply H; reflexivity|].
    intros (cp' & f & m & p & H & _). discriminate. }
  destruct (decide _) as [[Hh Hn]|Hd].
  { split; [cbn; lia|]. split; [intros H; exfalso; apply H; reflexivity|].
    intros (cp' & f & m & p & [= <-] & [E|E] & _); contradiction. }
  assert (Haddr : FromHostname cp = Hostname (hostDetails gw)
                  \/ FromNodeID cp = GetNodeID gw).
  { destruct (decide (FromHostname cp = Hostname (hostDetails gw))) as [E|E];
      [left; exact E|].
    destruct (decide (FromNodeID cp = GetNodeID gw)) as [E'|E']; [right; exact E'|].
    exfalso. apply Hd. split; assumption. }
  destruct (files w !! OriginalPath (GetConfig gw)) as [f|].
  2:{ split; [cbn; lia|]. split; [intros H; exfalso; apply H; reflexivity|].
      intros (cp' & f & m & p & _ & _ & H & _). discriminate. }
  destruct (json_Decode_map f) as [m [e|]] eqn:Hdec.
  { split; [cbn; lia|]. split; [intros H; exfalso; apply H; reflexivity|].
    intros (cp' & f' & m' & p & _ & _ & [= <-] & H & _). rewrite Hdec in H.
    discriminate. }
  destruct (json_Marshal_ReturnConfigPayload _) as [p [e|]] eqn:Hm.
  { split; [cbn; lia|]. split; [intros H; exfalso; apply H; reflexivity|].
    intros (cp' & f' & m' & p' & _ & _ & [= <-] & H & H'). rewrite Hdec in H.
    injection H as <-. rewrite Hm in H'. discriminate. }
  split; [cbn; lia|]. split; [|intros _; discriminate].
  intros _. exists cp, f, m, p. repeat split; try assumption; reflexivity.
Qed.
End Gateway.

(** (X25) sanitizeConfig as an operation on configurations: applying it
    twice is applying it once; it only removes, so its result is a
    sub-map of its argument; the value a sensitive key holds has no
    influence on the result; and setting another key before or after
    sanitizing is the same. *)
Theorem sanitizeConfig_only_removes_sensitive_values {V : Type} (mc : gmap string V) :
  sanitizeConfig (sanitizeConfig mc) = sanitizeConfig mc
  /\ sanitizeConfig mc ⊆ mc
  /\ (forall k v, k ∈ sanitzeFields ->
        sanitizeConfig (<[k := v]> mc) = sanitizeConfig mc)
  /\ (forall k v, k ∉ sanitzeFields ->
        sanitizeConfig (<[k := v]> mc) = <[k := v]> (sanitizeConfig mc)).
Proof.
  split; [|split; [|split]].
  - apply map_eq. intros k. rewrite !sanitizeConfig_lookup.
    destruct (decide (k ∈ sanitzeFields)); reflexivity.
  - apply map_subseteq_spec. intros k v. rewrite sanitizeConfig_lookup.
    destruct (decide (k ∈ sanitzeFields)); [discriminate|]. intros H. exact H.
  - intros k v Hk. apply map_eq. intros k'. rewrite !sanitizeConfig_lookup.
    destruct (decide (k' ∈ sanitzeFields)) as [Hk'|Hk']; [reflexivity|].
    apply lookup_insert_ne. intros ->. contradiction.
  - intros k v Hk. apply map_eq. intros k'.
    destruct (decide (k = k')) as [<-|Hne].
    + rewrite sanitizeConfig_lookup, decide_False by exact Hk.
      rewrite !lookup_insert_eq. reflexivity.
    + rewrite (lookup_insert_ne _ _ _ _ Hne), !sanitizeConfig_lookup.
      rewrite (lookup_insert_ne _ _ _ _ Hne). reflexivity.
Qed.

Import Sample.

(** A push for "h1" arriving on the node called "h2" with id "n1". *)
Lemma handleNewConfiguration_rejected_changes_nothing_witness :
  worldOf (handleNewConfiguration (env := env false) (node "h2" "n1" 4242) "h1," (disk 0))
    = disk 0
  /\ (exists l, flowOf (handleNewConfiguration (env := env false) (node "h2" "n1" 4242)
                                               "h1," (disk 0)) = Return l)
  /\ (exists lvl fields msg,
        eventsOf (handleNewConfiguration (env := env false) (node "h2" "n1" 4242)
                                         "h1," (disk 0))
        = [EvLog lvl fields msg]).
Proof.
  apply (handleNewConfiguration_rejected_changes_nothing (env := env false)
           (node "h2" "n1" 4242) "h1," (disk 0)).
  right. left. vm_compute. split; discriminate.
Defined.

(** A push for "h1" on the node "h1" with process id 4242. *)
Lemma handleNewConfiguration_signals_own_process_after_writes_witness :
  4242 = PID (hostDetails (node "h1" "n1" 4242)) /\ 4242 <> 0 /\ SIGUSR2 = SIGUSR2
  /\ None = syscall_Kill (Env := env false) 4242 SIGUSR2
  /\ flowOf (handleNewConfiguration (env := env false) (node "h1" "n1" 4242) "h1," (disk 0))
     = Next tt
  /\ length (List.filter isKill
               (eventsOf (handleNewConfiguration (env := env false) (node "h1" "n1" 4242)
                                                 "h1," (disk 0)))) = 1%nat
  /\ exists cp path rest new tail,
       json_Unmarshal_ConfigPayload (Env := env false) "h1,"
         (loadedPayload (env := env false) (disk 0)) = (cp, None)
       /\ confPaths (Env := env false) = path :: rest
       /\ json_MarshalIndent_Config (Env := env false) (Configuration cp) "" "    "
          = (new, None)
       /\ eventsOf (handleNewConfiguration (env := env false) (node "h1" "n1" 4242)
                                           "h1," (disk 0))
          = EvWriteFile (backupName (env := env false))
                        (backupData (env := env false) (node "h1" "n1" 4242)) 420 None
            :: EvWriteFile path new 420 None :: tail.
Proof.
  apply (handleNewConfiguration_signals_own_process_after_writes (env := env false)
           (node "h1" "n1" 4242) "h1," (disk 0) 4242 SIGUSR2 None).
  vm_compute. do 4 right. left.
Defined.

(** The same push: "tyk.conf" then holds the new configuration and the
    backup file the old one. *)
Lemma handleNewConfiguration_writes_backup_then_configuration_witness :
  files (worldOf (handleNewConfiguration (env := env false) (node "h1" "n1" 4242)
                                         "h1," (disk 0))) !! "tyk.conf"
    = Some "conf:"
  /\ files (worldOf (handleNewConfiguration (env := env false) (node "h1" "n1" 4242)
                                            "h1," (disk 0)))
       !! "Sat-Oct-31-06-54-00-2026.tyk.conf"
     = Some "conf:tyk.conf"
  /\ flowOf (handleNewConfiguration (env := env false) (node "h1" "n1" 4242) "h1," (disk 0))
     = Next tt.
Proof.
  destruct (handleNewConfiguration_writes_backup_then_configuration (env := env false)
              (node "h1" "n1" 4242) "h1," (disk 0)
              (mkConfigPayload (mkCfg false "" 0 []) "h1" "" 0)
              "conf:tyk.conf" "conf:" "tyk.conf" []
              ltac:(vm_compute; reflexivity)
              ltac:(left; reflexivity)
              ltac:(reflexivity)
              ltac:(vm_compute; reflexivity)
              ltac:(vm_compute; reflexivity)
              ltac:(vm_compute; reflexivity)
              ltac:(reflexivity)
              ltac:(vm_compute; reflexivity))
    as (_ & Hnew & Hold & _ & Hkill & _).
  split; [exact Hnew|]. split.
  - apply Hold. vm_compute. discriminate.
  - apply Hkill. vm_compute. discriminate.
Defined.

(** The backup is written, "tyk.conf" refuses the write: it keeps "old". *)
Lemma handleNewConfiguration_failed_write_keeps_backup_witness :
  flowOf (handleNewConfiguration (env := lockedConf) (node "h1" "n1" 4242) "h1," (disk 0))
    = Return ExitWriteFailed
  /\ files (worldOf (handleNewConfiguration (env := lockedConf) (node "h1" "n1" 4242)
                                            "h1," (disk 0))) !! "tyk.conf"
     = Some "old"
  /\ files (worldOf (handleNewConfiguration (env := lockedConf) (node "h1" "n1" 4242)
                                            "h1," (disk 0)))
       !! "Sat-Oct-31-06-54-00-2026.tyk.conf"
     = Some "conf:tyk.conf".
Proof.
  destruct (handleNewConfiguration_failed_write_keeps_backup (env := lockedConf)
              (node "h1" "n1" 4242) "h1," (disk 0)
              (mkConfigPayload (mkCfg false "" 0 []) "h1" "" 0)
              "conf:tyk.conf" "tyk.conf" []
              ltac:(vm_compute; reflexivity)
              ltac:(left; reflexivity)
              ltac:(reflexivity)
              ltac:(vm_compute; reflexivity)
              ltac:(vm_compute; reflexivity)
              ltac:(reflexivity)
              ltac:(right; vm_compute; discriminate))
    as (Hflow & Hfiles & Hconf & _).
  split; [exact Hflow|]. split.
  - rewrite Hconf by (vm_compute; discriminate). vm_compute. reflexivity.
  - rewrite Hfiles. vm_compute. reflexivity.
Defined.

(** A pull addressed to "h1": the reply carries the file without its
    "secret". *)
Lemma handleSendMiniConfig_replies_with_sanitized_file_witness :
  exists (r : ReturnConfigPayload jvalue),
    json_Marshal_ReturnConfigPayload (Env := env false) r = ("h1,n1", None)
    /\ rcFromHostname r = "h1" /\ rcFromNodeID r = "n1"
    /\ rcConfiguration r !! "secret" = None
    /\ rcConfiguration r !! "port" = Some (JNumber 8080).
Proof.
  destruct (handleSendMiniConfig_replies_with_sanitized_file (env := env false)
              (node "h1" "n1" 0) "h1," (disk 0)
              (mkNotification NoticeGatewayConfigResponse "h1,n1" (node "h1" "n1" 0))
              ltac:(vm_compute; left))
    as (_ & _ & r & f & m & Hm & Hh & Hn & _ & Hf & Hdec & Hs & Hk).
  exists r. split; [exact Hm|]. split; [exact Hh|]. split; [exact Hn|].
  split.
  - apply Hs. vm_compute. left.
  - rewrite Hk.
    + injection Hf as <-. injection Hdec as <-. vm_compute. reflexivity.
    + vm_compute. intros H. repeat (inversion H as [|? ? ? H']; clear H; rename H' into H).
Defined.
End GatewayMore.

(** * The error formatter of the OAS validator *)
Module OasMore.
Import Go Oas GatewayMore.

Lemma errorFormatter_range_concat (errs : list error) :
  forall (i : Z) (result : string),
    errorFormatter_range (i + Z.of_nat (length errs)) i errs result
    = result +:+ String.concat newline errs.
Proof.
  induction errs as [|err rest IH]; intros i result.
  - cbn [errorFormatter_range String.concat]. rewrite append_nil_r. reflexivity.
  - cbn [errorFormatter_range]. cbv zeta.
    destruct rest as [|e2 r2].
    + rewrite decide_False by (cbn [length]; lia).
      cbn [errorFormatter_range String.concat]. reflexivity.
    + rewrite decide_True by (cbn [length]; lia).
      replace (i + Z.of_nat (length (err :: e2 :: r2)))
        with ((i + 1) + Z.of_nat (length (e2 :: r2))) by (cbn [length]; lia).
      rewrite IH.
      change (String.concat newline (err :: e2 :: r2))
        with (err +:+ (newline +:+ String.concat newline (e2 :: r2))).
      rewrite !append_assoc. reflexivity.
Qed.

(** (X26) The error format of ValidateOASObject: the messages of the
    errors in their order, with one line feed between two of them and
    none after the last; no errors give the empty text, one error its
    own message. *)
Theorem errorFormatter_joins_with_line_feeds (errs : list error) :
  errorFormatter errs = String.concat newline errs
  /\ errorFormatter [] = ""
  /\ (forall err, errorFormatter [err] = err)
  /\ (forall err rest, rest <> [] ->
        errorFormatter (err :: rest) = err +:+ newline +:+ errorFormatter rest).
Proof.
  assert (H : forall l, errorFormatter l = String.concat newline l).
  { intros l. unfold errorFormatter.
    rewrite <- (Z.add_0_l (Z.of_nat (length l))).
    rewrite errorFormatter_range_concat. reflexivity. }
  split; [apply H|]. split; [reflexivity|]. split; [intros err; apply H|].
  intros err [|e2 r2] Hne; [contradiction|]. rewrite !H. reflexivity.
Qed.
End OasMore.
